(** * GeoServer task orchestration ([geonode/geoserver/tasks.py])

    A shallow embedding of the Celery task bodies of
    [geonode.geoserver.tasks]: the style tasks, the upload finalizer and the
    post-save reconciler.  Python statements become computations in a small
    state-and-control monad ([Normal] completion, [return], [raise]); the
    collaborators the module imports (ORM managers, the catalog client, the
    helpers of [geonode.geoserver.helpers], the file system, signals) are
    either modelled by a concrete store or answered by an environment
    record [Env] that fixes, for each call site, whether the call raises
    and what it returns. *)

From Stdlib Require Import ZArith String Ascii List Bool Lia.
From stdpp Require Import base option list gmap strings.

Local Open Scope string_scope.

(** ** Python exceptions *)

(** The exception classes the module mentions or can meet, with the
    subclass order used by [except] clauses and by [autoretry_for]. *)
Inductive exn_class : Set :=
| BaseExceptionC
| ExceptionC
| GeoNodeExceptionC
| DoesNotExistC
| TypeErrorC
| AttributeErrorC
| IndexErrorC
| ValueErrorC
| ExternalErrorC.

Inductive exn : Set :=
| DoesNotExist (model : string)
| GeoNodeException (msg : string)
| TypeError
| AttributeError
| IndexError
| ValueError
| ExternalError (origin : string).

Definition class_of (e : exn) : exn_class :=
  match e with
  | DoesNotExist _ => DoesNotExistC
  | GeoNodeException _ => GeoNodeExceptionC
  | TypeError => TypeErrorC
  | AttributeError => AttributeErrorC
  | IndexError => IndexErrorC
  | ValueError => ValueErrorC
  | ExternalError _ => ExternalErrorC
  end.

(** Modelled from the spec: [GeoNodeException] is imported from the
    [geonode] package, whose definition is not part of this module; it is
    the domain-specific error of the application, an ordinary [Exception]
    subclass like the built-in errors and the errors of the collaborators. *)
Definition issubclass (c d : exn_class) : bool :=
  match d, c with
  | BaseExceptionC, _ => true
  | ExceptionC, BaseExceptionC => false
  | ExceptionC, _ => true
  | GeoNodeExceptionC, GeoNodeExceptionC => true
  | DoesNotExistC, DoesNotExistC => true
  | TypeErrorC, TypeErrorC => true
  | AttributeErrorC, AttributeErrorC => true
  | IndexErrorC, IndexErrorC => true
  | ValueErrorC, ValueErrorC => true
  | ExternalErrorC, ExternalErrorC => true
  | _, _ => false
  end.

(** [isinstance(e, classes)] for a tuple of classes. *)
Definition isinstance (e : exn) (classes : list exn_class) : bool :=
  existsb (issubclass (class_of e)) classes.

Inductive result (A : Type) : Type :=
| Ok (a : A)
| Error (e : exn).
Arguments Ok {A} a.
Arguments Error {A} e.

(** ** The spatial-reference pattern

    [re.match(r'^(EPSG:)?(?P<srid>\d{4,6})$', str(srid))].  Strings are
    sequences of characters below 256, where [\d] is exactly [0-9]. *)
Module Srid.

Definition is_digit (c : ascii) : bool :=
  let n := nat_of_ascii c in ((48 <=? n) && (n <=? 57))%nat.

(** Longest prefix of decimal digits, and what follows it. *)
Fixpoint span_digits (s : string) : string * string :=
  match s with
  | EmptyString => (EmptyString, EmptyString)
  | String c s' =>
      if is_digit c
      then let '(d, rest) := span_digits s' in (String c d, rest)
      else (EmptyString, s)
  end.

(** [$] without [re.MULTILINE]: the end of the string, or just before a
    newline that ends the string. *)
Definition at_dollar (rest : string) : bool :=
  match rest with
  | EmptyString => true
  | String c EmptyString => (nat_of_ascii c =? 10)%nat
  | _ => false
  end.

(** [\d{4,6}$]: the repetition is greedy and backtracks, but whatever
    number of digits it keeps, [$] must see the end of the digit run. *)
Definition digits_4_6 (s : string) : option string :=
  let '(d, rest) := span_digits s in
  if (4 <=? String.length d)%nat && (String.length d <=? 6)%nat && at_dollar rest
  then Some d else None.

Fixpoint strip_prefix (p s : string) : option string :=
  match p, s with
  | EmptyString, _ => Some s
  | String a p', String b s' =>
      if Ascii.eqb a b then strip_prefix p' s' else None
  | String _ _, EmptyString => None
  end.

(** The whole pattern; the result is the named group [srid].  The optional
    group is tried first and skipped on failure. *)
Definition re_match (s : string) : option string :=
  match strip_prefix "EPSG:" s with
  | Some s' =>
      match digits_4_6 s' with
      | Some d => Some d
      | None => digits_4_6 s
      end
  | None => digits_4_6 s
  end.

(** [int(text)] on a string of decimal digits; anything else is a
    [ValueError]. *)
Fixpoint int_acc (acc : Z) (s : string) : option Z :=
  match s with
  | EmptyString => Some acc
  | String c s' =>
      if is_digit c
      then int_acc (10 * acc + (Z.of_nat (nat_of_ascii c) - 48))%Z s'
      else None
  end.

Definition py_int (s : string) : result Z :=
  match s with
  | EmptyString => Error ValueError
  | _ => match int_acc 0%Z s with Some z => Ok z | None => Error ValueError end
  end.

(** [str(srid)] for a value that is a string or [None]. *)
Definition py_str (srid : option string) : string :=
  match srid with
  | Some s => s
  | None => "None"
  end.

(** [int(match.group('srid')) if match else 4326] *)
Definition srid_code (srid : option string) : result Z :=
  match re_match (py_str srid) with
  | Some d => py_int d
  | None => Ok 4326%Z
  end.

End Srid.

(** ** Python values and small string functions *)

(** A value whose Python type is not fixed by this module: the catalog
    client's [advertised] property is compared with a [bool] and assigned a
    [str]. *)
Inductive pyval : Type :=
| PyNone
| PyBool (b : bool)
| PyStr (s : string).

(** [a != v] for a [bool] [a]: a [bool] differs from every [str] and from
    [None]. *)
Definition py_bool_ne (a : bool) (v : pyval) : bool :=
  match v with
  | PyBool b => negb (Bool.eqb a b)
  | PyNone | PyStr _ => true
  end.

(** Truth value of a [str]. *)
Definition truthy (s : string) : bool :=
  match s with
  | EmptyString => false
  | String _ _ => true
  end.

(** Truth value of a value that is a [str] or [None]. *)
Definition truthy_opt (o : option string) : bool :=
  match o with
  | Some s => truthy s
  | None => false
  end.

(** Truth value of a value that is an object or [None]. *)
Definition truthy_obj {A : Type} (o : option A) : bool :=
  match o with
  | Some _ => true
  | None => false
  end.

(** [a or b] on strings. *)
Definition py_or (a b : string) : string := if truthy a then a else b.

Fixpoint str_map (f : ascii -> ascii) (s : string) : string :=
  match s with
  | EmptyString => EmptyString
  | String c s' => String (f c) (str_map f s')
  end.

(** [c.lower()] for a character below 256: the letters [A-Z], and the
    accented capitals 192 to 222 but for the multiplication sign. *)
Definition lower_char (c : ascii) : ascii :=
  let n := nat_of_ascii c in
  if ((65 <=? n) && (n <=? 90))%nat
     || ((192 <=? n) && (n <=? 222) && negb (n =? 215))%nat
  then ascii_of_nat (n + 32) else c.

Definition colon_to_slash (c : ascii) : ascii :=
  if Ascii.eqb c ":"%char then "/"%char else c.

(** [s.replace(':', '/').lower()] *)
Definition srid_path (s : string) : string :=
  str_map lower_char (str_map colon_to_slash s).

(** [s.rstrip('/')] *)
Fixpoint rstrip_slash (s : string) : string :=
  match s with
  | EmptyString => EmptyString
  | String c s' =>
      match rstrip_slash s' with
      | EmptyString => if Ascii.eqb c "/"%char then EmptyString else String c EmptyString
      | r => String c r
      end
  end.

Module Polygon.
(** A GEOS polygon built from a bounding box, with its embedded SRID. *)
Record t : Type := mk {
  extent : list string;
  srid : option Z
}.

Definition set_srid (v : option Z) (x : t) : t := mk (extent x) v.
End Polygon.

Module GsStore.
(** The store of a catalog resource. *)
Record t : Type := mk {
  name : string;
  workspace_name : string;
  resource_type : string
}.
End GsStore.

Module Layer.
(** The [Layer] model: a [ResourceBase] row joined with its [Layer] row.
    The same record is a row of the registry and the Python object loaded
    from it. *)
Record t : Type := mk {
  id : nat;
  name : string;
  title : string;
  abstract : string;
  alternate : string;
  store : string;
  storeType : string;
  workspace : string;
  typename : string;
  remote_service : option string;
  overwrite : bool;
  srid : option string;
  srid_url : string;
  bbox : list string;
  bbox_polygon : option Polygon.t;
  ll_bbox_polygon : option Polygon.t;
  is_published : bool;
  dirty_state : bool;
  metadata_uploaded : bool;
  thumbnail_url : string;
  poc : option string;
  keyword_list : list string;
  upload_session : option nat
}.

Definition set_title (v : string) (x : t) : t :=
  mk (id x) (name x) v (abstract x) (alternate x) (store x) (storeType x)
     (workspace x) (typename x) (remote_service x) (overwrite x) (srid x)
     (srid_url x) (bbox x) (bbox_polygon x) (ll_bbox_polygon x)
     (is_published x) (dirty_state x) (metadata_uploaded x) (thumbnail_url x)
     (poc x) (keyword_list x) (upload_session x).
Definition set_abstract (v : string) (x : t) : t :=
  mk (id x) (name x) (title x) v (alternate x) (store x) (storeType x)
     (workspace x) (typename x) (remote_service x) (overwrite x) (srid x)
     (srid_url x) (bbox x) (bbox_polygon x) (ll_bbox_polygon x)
     (is_published x) (dirty_state x) (metadata_uploaded x) (thumbnail_url x)
     (poc x) (keyword_list x) (upload_session x).
Definition set_alternate (v : string) (x : t) : t :=
  mk (id x) (name x) (title x) (abstract x) v (store x) (storeType x)
     (workspace x) (typename x) (remote_service x) (overwrite x) (srid x)
     (srid_url x) (bbox x) (bbox_polygon x) (ll_bbox_polygon x)
     (is_published x) (dirty_state x) (metadata_uploaded x) (thumbnail_url x)
     (poc x) (keyword_list x) (upload_session x).
Definition set_store (v : string) (x : t) : t :=
  mk (id x) (name x) (title x) (abstract x) (alternate x) v (storeType x)
     (workspace x) (typename x) (remote_service x) (overwrite x) (srid x)
     (srid_url x) (bbox x) (bbox_polygon x) (ll_bbox_polygon x)
     (is_published x) (dirty_state x) (metadata_uploaded x) (thumbnail_url x)
     (poc x) (keyword_list x) (upload_session x).
Definition set_storeType (v : string) (x : t) : t :=
  mk (id x) (name x) (title x) (abstract x) (alternate x) (store x) v
     (workspace x) (typename x) (remote_service x) (overwrite x) (srid x)
     (srid_url x) (bbox x) (bbox_polygon x) (ll_bbox_polygon x)
     (is_published x) (dirty_state x) (metadata_uploaded x) (thumbnail_url x)
     (poc x) (keyword_list x) (upload_session x).
Definition set_workspace (v : string) (x : t) : t :=
  mk (id x) (name x) (title x) (abstract x) (alternate x) (store x)
     (storeType x) v (typename x) (remote_service x) (overwrite x) (srid x)
     (srid_url x) (bbox x) (bbox_polygon x) (ll_bbox_polygon x)
     (is_published x) (dirty_state x) (metadata_uploaded x) (thumbnail_url x)
     (poc x) (keyword_list x) (upload_session x).
Definition set_typename (v : string) (x : t) : t :=
  mk (id x) (name x) (title x) (abstract x) (alternate x) (store x)
     (storeType x) (workspace x) v (remote_service x) (overwrite x) (srid x)
     (srid_url x) (bbox x) (bbox_polygon x) (ll_bbox_polygon x)
     (is_published x) (dirty_state x) (metadata_uploaded x) (thumbnail_url x)
     (poc x) (keyword_list x) (upload_session x).
Definition set_srid (v : option string) (x : t) : t :=
  mk (id x) (name x) (title x) (abstract x) (alternate x) (store x)
     (storeType x) (workspace x) (typename x) (remote_service x)
     (overwrite x) v (srid_url x) (bbox x) (bbox_polygon x)
     (ll_bbox_polygon x) (is_published x) (dirty_state x)
     (metadata_uploaded x) (thumbnail_url x) (poc x) (keyword_list x)
     (upload_session x).
Definition set_srid_url (v : string) (x : t) : t :=
  mk (id x) (name x) (title x) (abstract x) (alternate x) (store x)
     (storeType x) (workspace x) (typename x) (remote_service x) (overwrite x)
     (srid x) v (bbox x) (bbox_polygon x) (ll_bbox_polygon x) (is_published x)
     (dirty_state x) (metadata_uploaded x) (thumbnail_url x) (poc x)
     (keyword_list x) (upload_session x).
Definition set_bbox_polygon (v : option Polygon.t) (x : t) : t :=
  mk (id x) (name x) (title x) (abstract x) (alternate x) (store x)
     (storeType x) (workspace x) (typename x) (remote_service x) (overwrite x)
     (srid x) (srid_url x) (bbox x) v (ll_bbox_polygon x) (is_published x)
     (dirty_state x) (metadata_uploaded x) (thumbnail_url x) (poc x)
     (keyword_list x) (upload_session x).
Definition set_ll_bbox_polygon (v : option Polygon.t) (x : t) : t :=
  mk (id x) (name x) (title x) (abstract x) (alternate x) (store x)
     (storeType x) (workspace x) (typename x) (remote_service x) (overwrite x)
     (srid x) (srid_url x) (bbox x) (bbox_polygon x) v (is_published x)
     (dirty_state x) (metadata_uploaded x) (thumbnail_url x) (poc x)
     (keyword_list x) (upload_session x).
Definition set_dirty_state (v : bool) (x : t) : t :=
  mk (id x) (name x) (title x) (abstract x) (alternate x) (store x)
     (storeType x) (workspace x) (typename x) (remote_service x) (overwrite x)
     (srid x) (srid_url x) (bbox x) (bbox_polygon x) (ll_bbox_polygon x)
     (is_published x) v (metadata_uploaded x) (thumbnail_url x) (poc x)
     (keyword_list x) (upload_session x).
Definition set_metadata_uploaded (v : bool) (x : t) : t :=
  mk (id x) (name x) (title x) (abstract x) (alternate x) (store x)
     (storeType x) (workspace x) (typename x) (remote_service x) (overwrite x)
     (srid x) (srid_url x) (bbox x) (bbox_polygon x) (ll_bbox_polygon x)
     (is_published x) (dirty_state x) v (thumbnail_url x) (poc x)
     (keyword_list x) (upload_session x).
Definition set_thumbnail_url (v : string) (x : t) : t :=
  mk (id x) (name x) (title x) (abstract x) (alternate x) (store x)
     (storeType x) (workspace x) (typename x) (remote_service x) (overwrite x)
     (srid x) (srid_url x) (bbox x) (bbox_polygon x) (ll_bbox_polygon x)
     (is_published x) (dirty_state x) (metadata_uploaded x) v (poc x)
     (keyword_list x) (upload_session x).
Definition set_upload_session (v : option nat) (x : t) : t :=
  mk (id x) (name x) (title x) (abstract x) (alternate x) (store x)
     (storeType x) (workspace x) (typename x) (remote_service x) (overwrite x)
     (srid x) (srid_url x) (bbox x) (bbox_polygon x) (ll_bbox_polygon x)
     (is_published x) (dirty_state x) (metadata_uploaded x) (thumbnail_url x)
     (poc x) (keyword_list x) v.
End Layer.

Module GsResource.
(** The catalog client's resource object (feature type or coverage). *)
Record t : Type := mk {
  name : string;
  title : string;
  abstract : string;
  store : option GsStore.t;
  projection : option string;
  native_bbox : option (list string);
  advertised : pyval;
  keywords : list string;
  metadata_links : list (string * string * string);
  attribution : option string;
  attribution_link : option string
}.

Definition set_title (v : string) (x : t) : t :=
  mk (name x) v (abstract x) (store x) (projection x) (native_bbox x)
     (advertised x) (keywords x) (metadata_links x) (attribution x)
     (attribution_link x).
Definition set_abstract (v : string) (x : t) : t :=
  mk (name x) (title x) v (store x) (projection x) (native_bbox x)
     (advertised x) (keywords x) (metadata_links x) (attribution x)
     (attribution_link x).
Definition set_advertised (v : pyval) (x : t) : t :=
  mk (name x) (title x) (abstract x) (store x) (projection x)
     (native_bbox x) v (keywords x) (metadata_links x) (attribution x)
     (attribution_link x).
Definition set_keywords (v : list string) (x : t) : t :=
  mk (name x) (title x) (abstract x) (store x) (projection x) (native_bbox x)
     (advertised x) v (metadata_links x) (attribution x) (attribution_link x).
Definition set_metadata_links (v : list (string * string * string)) (x : t) : t :=
  mk (name x) (title x) (abstract x) (store x) (projection x) (native_bbox x)
     (advertised x) (keywords x) v (attribution x) (attribution_link x).
Definition set_attribution (v : option string) (x : t) : t :=
  mk (name x) (title x) (abstract x) (store x) (projection x) (native_bbox x)
     (advertised x) (keywords x) (metadata_links x) v (attribution_link x).
Definition set_attribution_link (v : option string) (x : t) : t :=
  mk (name x) (title x) (abstract x) (store x) (projection x) (native_bbox x)
     (advertised x) (keywords x) (metadata_links x) (attribution x) v.
End GsResource.

Module Upload.
(** The [Upload] model of [geonode.upload.models]. *)
Record t : Type := mk {
  import_id : nat;
  layer : option nat;
  complete : bool
}.

Definition set_layer (v : option nat) (x : t) : t :=
  mk (import_id x) v (complete x).
Definition set_complete (v : bool) (x : t) : t :=
  mk (import_id x) (layer x) v.
End Upload.

Module UploadSession.
(** The [UploadSession] model. *)
Record t : Type := mk {
  session_id : nat;
  resource : nat;
  processed : bool
}.

Definition set_processed (v : bool) (x : t) : t :=
  mk (session_id x) (resource x) v.
End UploadSession.


Module Values.
(** The [values] dictionary returned by the catalog helpers; the reconciler
    reads its keys ['alternate'], ['store'] and ['storeType']. *)
Record t : Type := mk {
  alternate : string;
  store : string;
  storeType : string
}.
End Values.

Module Style.
(** A catalog style: its workspace ([None] for a global style) and name. *)
Record t : Type := mk {
  workspace : option string;
  name : string
}.
End Style.

#[global] Instance style_eq_dec : EqDecision Style.t.
Proof. solve_decision. Defined.

Module GsLayer.
(** A published catalog layer. *)
Record t : Type := mk {
  default_style : option Style.t
}.
End GsLayer.

(** ** Calls to collaborators

    One constructor per call the tasks make outside this module.  A call
    site that is reached several times in a run carries what distinguishes
    the visits. *)
Inductive call : Type :=
| LockAcquire (task : string)
| LockRelease (task : string)
| SignalSend (signal : string)
| SessionsUpdate (processed : bool)
| SessionsFirst
| GetBaseFile
| GeoserverUpload
| FetchGsResource (tries : nat)
| MetadataLinks
| ProfileGet
| CatalogGetResource (attempt : nat)
| CatalogSaveResource
| CatalogGetStyle
| CatalogCreateStyle
| CatalogGetLayer
| CatalogSaveLayer
| CatalogDelete
| SetBboxPolygon
| IsMonochromaticImage
| ResourceBaseUpdate
| LayerUpdate (site : nat)
| RefreshFromDb
| CataloguePostSave
| SetResourceDefaultLinks
| SetAttributesFromGeoserver
| SetStyles
| StyleFilterParamsGwc
| InvalidateGwc
| UpdateIndex
| UploadSave
| InstanceSave (notify : bool)
| HandleModeratedUploads
| SetPermissions
| Rmtree
| OpenFile
| ReadFile
| SetLayerStyle
| GetSldFor.

Module Registry.
(** The local registry: the tables the tasks read and write. *)
Record t : Type := mk {
  layers : gmap nat Layer.t;
  uploads : gmap nat Upload.t;
  sessions : list UploadSession.t
}.

Definition set_layers (v : gmap nat Layer.t) (x : t) : t :=
  mk v (uploads x) (sessions x).
Definition set_uploads (v : gmap nat Upload.t) (x : t) : t :=
  mk (layers x) v (sessions x).
Definition set_sessions (v : list UploadSession.t) (x : t) : t :=
  mk (layers x) (uploads x) v.
End Registry.

Module Catalog.
(** The remote catalog: styles, published layers with their default style,
    and the resources pushed to it. *)
Record t : Type := mk {
  styles : list Style.t;
  layers : gmap string GsLayer.t;
  resources : gmap string GsResource.t
}.

Definition set_styles (v : list Style.t) (x : t) : t :=
  mk v (layers x) (resources x).
Definition set_layers (v : gmap string GsLayer.t) (x : t) : t :=
  mk (styles x) v (resources x).
Definition set_resources (v : gmap string GsResource.t) (x : t) : t :=
  mk (styles x) (layers x) v.
End Catalog.

Module Frame.
(** The Python objects a running task holds in local variables and
    mutates in place. *)
Record t : Type := mk {
  instance : option Layer.t;
  upload : option Upload.t;
  gs_resource : option GsResource.t
}.

Definition set_instance (v : option Layer.t) (x : t) : t :=
  mk v (upload x) (gs_resource x).
Definition set_upload (v : option Upload.t) (x : t) : t :=
  mk (instance x) v (gs_resource x).
Definition set_gs_resource (v : option GsResource.t) (x : t) : t :=
  mk (instance x) (upload x) v.
End Frame.

Module World.
(** Everything a task can observe or change.  [trace] lists the calls made
    to collaborators, oldest first; [catalog_log] lists the states the
    remote catalog went through, oldest first. *)
Record t : Type := mk {
  registry : Registry.t;
  catalog : Catalog.t;
  catalog_log : list Catalog.t;
  trace : list call;
  frame : Frame.t
}.

Definition set_registry (v : Registry.t) (x : t) : t :=
  mk v (catalog x) (catalog_log x) (trace x) (frame x).
Definition set_catalog (v : Catalog.t) (x : t) : t :=
  mk (registry x) v (catalog_log x) (trace x) (frame x).
Definition set_catalog_log (v : list Catalog.t) (x : t) : t :=
  mk (registry x) (catalog x) v (trace x) (frame x).
Definition set_trace (v : list call) (x : t) : t :=
  mk (registry x) (catalog x) (catalog_log x) v (frame x).
Definition set_frame (v : Frame.t) (x : t) : t :=
  mk (registry x) (catalog x) (catalog_log x) (trace x) v.
End World.


(** ** Settings and collaborators *)

Record Settings : Type := {
  RESOURCE_PUBLISHING : bool;
  HAYSTACK_SEARCH : bool;
  SITEURL : string;
  MISSING_THUMBNAIL : string;
  DEFAULT_WORKSPACE : string
}.

(** [ogc_server_settings]; both attributes are read with [getattr] and a
    default, so either may be absent. *)
Record OgcServerSettings : Type := {
  MAX_RETRIES : option nat;
  BACKEND_WRITE_ENABLED : option bool
}.

Module Env.
(** What the collaborators answer in one run.  [fault t c] is the exception
    call [c] raises when it is made after the calls [t], if any;
    [lock_acquire] is the result of [lock.acquire()]; the other fields are
    the values returned by the file system, the ORM, the catalog helpers
    and the model methods this module calls but does not define. *)
Record t : Type := mk {
  settings : Settings;
  ogc_server_settings : OgcServerSettings;
  fault : list call -> call -> option exn;
  lock_acquire : list call -> string -> bool;
  path_exists : string -> bool;
  path_access : string -> bool;
  path_isfile : string -> bool;
  path_join : string -> string -> string;
  file_content : string -> string;
  get_base_file : Layer.t -> option string;
  geoserver_upload : Layer.t -> string -> option Values.t * option GsResource.t;
  fetch_gs_resource :
    nat -> Layer.t -> option Values.t -> nat -> option Values.t * option GsResource.t;
  get_resource : string -> option string -> option string -> option GsResource.t;
  link_set_metadata : Layer.t -> list (string * string * string);
  profile_absolute_url : string -> string;
  is_monochromatic_image : string -> bool;
  static : string -> string;
  set_bbox_polygon : Layer.t -> list string -> option string -> Layer.t;
  handle_moderated_uploads : Layer.t -> Layer.t;
  set_layer_style : Layer.t -> string -> string -> Catalog.t -> Catalog.t;
  get_sld_for : Layer.t -> Catalog.t -> Catalog.t
}.
End Env.

(** ** Control flow *)

(** What a task function returns: [None] or the instance. *)
Inductive retval : Type :=
| RNone
| RInstance (l : Layer.t).

(** How a block of statements ends: it falls through with a value, executes
    [return], or raises. *)
Inductive outcome (A : Type) : Type :=
| Normal (a : A)
| Returned (v : retval)
| Raised (e : exn).
Arguments Normal {A} a.
Arguments Returned {A} v.
Arguments Raised {A} e.

Definition M (A : Type) : Type := World.t -> outcome A * World.t.

Definition ret {A : Type} (a : A) : M A := fun w => (Normal a, w).

Definition bind {A B : Type} (m : M A) (k : A -> M B) : M B :=
  fun w =>
    match m w with
    | (Normal a, w') => k a w'
    | (Returned v, w') => (Returned v, w')
    | (Raised e, w') => (Raised e, w')
    end.

Declare Scope py_scope.
Delimit Scope py_scope with py.
Notation "x ← y ; z" := (bind y (fun x => z))
  (at level 20, y at level 100, z at level 200, only parsing) : py_scope.
Notation "' x ← y ; z" := (bind y (fun x => z))
  (at level 20, x pattern, y at level 100, z at level 200, only parsing) : py_scope.
Notation "x ;; z" := (bind x (fun _ => z))
  (at level 100, z at level 200, only parsing, right associativity) : py_scope.
Local Open Scope py_scope.

(** [return v] *)
Definition return_ {A : Type} (v : retval) : M A := fun w => (Returned v, w).

(** [raise e] *)
Definition raise {A : Type} (e : exn) : M A := fun w => (Raised e, w).

Definition gets {A : Type} (f : World.t -> A) : M A := fun w => (Normal (f w), w).

Definition modify (f : World.t -> World.t) : M unit := fun w => (Normal tt, f w).

(** [try: body except classes as e: handler e] *)
Definition try_except {A : Type} (body : M A) (classes : list exn_class)
    (handler : exn -> M A) : M A :=
  fun w =>
    match body w with
    | (Raised e, w') =>
        if isinstance e classes then handler e w' else (Raised e, w')
    | r => r
    end.

(** [try: body finally: final]: [final] runs however [body] ends, and the
    way [body] ended stands unless [final] itself returns or raises. *)
Definition try_finally {A : Type} (body : M A) (final : M unit) : M A :=
  fun w =>
    let '(o, w1) := body w in
    match final w1 with
    | (Normal _, w2) => (o, w2)
    | (Returned v, w2) => (Returned v, w2)
    | (Raised e, w2) => (Raised e, w2)
    end.

(** [with transaction.atomic(): body]: the registry is rolled back when
    the block is left by an exception; objects in memory are not. *)
Definition atomic {A : Type} (body : M A) : M A :=
  fun w =>
    match body w with
    | (Raised e, w') => (Raised e, World.set_registry (World.registry w) w')
    | r => r
    end.

(** A call of another task function in the same process: it runs on its
    own local variables, and what it returns becomes the value of the call
    expression. *)
Definition call_task (task : M unit) : M unit :=
  fun w =>
    let '(o, w') := task (World.set_frame (Frame.mk None None None) w) in
    let w'' := World.set_frame (World.frame w) w' in
    match o with
    | Normal _ | Returned _ => (Normal tt, w'')
    | Raised e => (Raised e, w'')
    end.

(** ** Local objects *)

Definition the_instance : M Layer.t :=
  fun w =>
    match Frame.instance (World.frame w) with
    | Some l => (Normal l, w)
    | None => (Raised AttributeError, w)
    end.

Definition set_instance (o : option Layer.t) : M unit :=
  modify (fun w => World.set_frame (Frame.set_instance o (World.frame w)) w).

Definition modify_instance (f : Layer.t -> Layer.t) : M unit :=
  instance ← the_instance; set_instance (Some (f instance)).

Definition the_upload : M Upload.t :=
  fun w =>
    match Frame.upload (World.frame w) with
    | Some u => (Normal u, w)
    | None => (Raised AttributeError, w)
    end.

Definition set_upload (o : option Upload.t) : M unit :=
  modify (fun w => World.set_frame (Frame.set_upload o (World.frame w)) w).

Definition modify_upload (f : Upload.t -> Upload.t) : M unit :=
  upload ← the_upload; set_upload (Some (f upload)).

Definition the_gs_resource : M GsResource.t :=
  fun w =>
    match Frame.gs_resource (World.frame w) with
    | Some g => (Normal g, w)
    | None => (Raised AttributeError, w)
    end.

Definition set_gs_resource (o : option GsResource.t) : M unit :=
  modify (fun w => World.set_frame (Frame.set_gs_resource o (World.frame w)) w).

Definition modify_gs_resource (f : GsResource.t -> GsResource.t) : M unit :=
  gs_resource ← the_gs_resource; set_gs_resource (Some (f gs_resource)).

(** ** Stores *)

Definition modify_registry (f : Registry.t -> Registry.t) : M unit :=
  modify (fun w => World.set_registry (f (World.registry w)) w).

(** Every change of the remote catalog is recorded in [catalog_log]. *)
Definition write_catalog (f : Catalog.t -> Catalog.t) : M unit :=
  modify (fun w =>
    let c := f (World.catalog w) in
    World.set_catalog_log (World.catalog_log w ++ [c]) (World.set_catalog c w)).

(** [queryset.update(processed=flag)] on the sessions of one resource. *)
Definition mark_sessions (pk : nat) (flag : bool) (l : list UploadSession.t)
    : list UploadSession.t :=
  map (fun s =>
         if Nat.eqb (UploadSession.resource s) pk
         then UploadSession.set_processed flag s else s) l.

(** [queryset.first()] on the sessions of one resource. *)
Fixpoint first_session (pk : nat) (l : list UploadSession.t) : option nat :=
  match l with
  | [] => None
  | s :: l' =>
      if Nat.eqb (UploadSession.resource s) pk
      then Some (UploadSession.session_id s) else first_session pk l'
  end.

(** Number of catalog lookups made so far by [fetch_gs_resource]. *)
Fixpoint fetch_attempts (t : list call) : nat :=
  match t with
  | [] => 0
  | FetchGsResource _ :: t' => S (fetch_attempts t')
  | _ :: t' => fetch_attempts t'
  end.

(** [[bbox[0], bbox[2], bbox[1], bbox[3]]]; [bbox] may be [None] or too
    short. *)
Definition bbox_to_extent (bbox : option (list string)) : result (list string) :=
  match bbox with
  | None => Error TypeError
  | Some b =>
      match b !! 0%nat, b !! 2%nat, b !! 1%nat, b !! 3%nat with
      | Some x0, Some x2, Some x1, Some x3 => Ok [x0; x2; x1; x3]
      | _, _, _, _ => Error IndexError
      end
  end.

Definition lift {A : Type} (r : result A) : M A :=
  match r with
  | Ok a => ret a
  | Error e => raise e
  end.

(** [list(set(l))]: the order Python gives the elements is not fixed; the
    first occurrences are kept in order here. *)
Definition list_set (l : list string) : list string := remove_dups l.

(** Modelled from the spec: catalog deletion of a style.  The style leaves
    the catalog, and a layer that still had it as its default style is left
    without one. *)
Definition drop_style (s : Style.t) (c : Catalog.t) : Catalog.t :=
  Catalog.set_layers
    ((fun l : GsLayer.t =>
        if decide (GsLayer.default_style l = Some s) then GsLayer.mk None else l)
       <$> Catalog.layers c)
    (Catalog.set_styles (filter (fun s' => s' <> s) (Catalog.styles c)) c).

Fixpoint find_style (ws : option string) (name : string) (l : list Style.t)
    : option Style.t :=
  match l with
  | [] => None
  | s :: l' =>
      if bool_decide (s = Style.mk ws name) then Some s else find_style ws name l'
  end.

(** ** The tasks *)

Section Tasks.

Variable env : Env.t.

(** A call that cannot fail is only recorded. *)
Definition record (c : call) : M unit :=
  modify (fun w => World.set_trace (World.trace w ++ [c]) w).

(** A call to a collaborator: it is recorded, and it raises when the
    environment says so. *)
Definition invoke (c : call) : M unit :=
  fun w =>
    let w' := World.set_trace (World.trace w ++ [c]) w in
    match Env.fault env (World.trace w) c with
    | Some e => (Raised e, w')
    | None => (Normal tt, w')
    end.

(** [instance = None; try: instance = Layer.objects.get(id=instance_id)
    except Layer.DoesNotExist: ...; raise] *)
Definition load_layer (instance_id : nat) : M unit :=
  set_instance None;;
  try_except
    (registry ← gets World.registry;
     match Registry.layers registry !! instance_id with
     | Some l => set_instance (Some l)
     | None => raise (DoesNotExist "Layer")
     end)
    [DoesNotExistC]
    (fun e => raise e).

(** Modelled from the spec: [AcquireLock] is defined in
    [geonode.tasks.tasks], outside this module.  [with AcquireLock(lock_id)
    as lock: body(lock.acquire())]: acquisition never raises, its result
    is the only signal, and the lock is released on every way out of the
    block. *)
Definition with_lock (task : string) (body : bool -> M unit) : M unit :=
  try_finally
    (t ← gets World.trace;
     record (LockAcquire task);;
     body (Env.lock_acquire env t task))
    (record (LockRelease task)).

(** [signal.send(...)] *)
Definition signal_send (signal : string) : M unit := invoke (SignalSend signal).

(** *** Catalog client

    The catalog client is a library outside this repository; its calls
    are modelled on the catalog store after the interface the spec lists
    ([getStyle], [createStyle], [getLayer], [save], [delete]). *)

(** Modelled from the spec: [gs_catalog.get_style(name, workspace)], the
    style of that name in the workspace, or [None]. *)
Definition catalog_get_style (name : string) (workspace : string)
    : M (option Style.t) :=
  invoke CatalogGetStyle;;
  c ← gets World.catalog;
  ret (find_style (Some workspace) name (Catalog.styles c)).

(** Modelled from the spec: [gs_catalog.create_style(name, sld, raw=True,
    workspace)], which adds the style and returns it. *)
Definition catalog_create_style (name sld : string) (workspace : string)
    : M Style.t :=
  invoke CatalogCreateStyle;;
  let style := Style.mk (Some workspace) name in
  write_catalog (fun c => Catalog.set_styles (Catalog.styles c ++ [style]) c);;
  ret style.

(** Modelled from the spec: [gs_catalog.get_layer(name)], the published
    layer or [None]. *)
Definition catalog_get_layer (name : string) : M (option GsLayer.t) :=
  invoke CatalogGetLayer;;
  c ← gets World.catalog;
  ret (Catalog.layers c !! name).

(** Modelled from the spec: [gs_catalog.save(gs_layer)], which writes the
    layer object to the catalog. *)
Definition catalog_save_layer (name : string) (l : GsLayer.t) : M unit :=
  invoke CatalogSaveLayer;;
  write_catalog (fun c => Catalog.set_layers (<[name := l]> (Catalog.layers c)) c).

(** Modelled from the spec: [gs_catalog.delete(style)]; the argument may
    be [None], on which the client fails before it reaches the catalog. *)
Definition catalog_delete (style : option Style.t) : M unit :=
  match style with
  | None => raise AttributeError
  | Some s => invoke CatalogDelete;; write_catalog (drop_style s)
  end.

(** Modelled from the spec: [gs_catalog.save(gs_resource)], which writes
    the resource object to the catalog. *)
Definition catalog_save_resource : M unit :=
  gs_resource ← the_gs_resource;
  invoke CatalogSaveResource;;
  write_catalog (fun c =>
    Catalog.set_resources
      (<[GsResource.name gs_resource := gs_resource]> (Catalog.resources c)) c).

(** *** Helpers of [geonode.geoserver.helpers] and model methods *)

(** Modelled from the spec: [set_styles(instance, gs_catalog)], the style
    and legend refresh of the local registry; it reads the catalog and does
    not write to it. *)
Definition set_styles (instance : Layer.t) : M unit := invoke SetStyles.

Definition get_sld_for (instance : Layer.t) : M unit :=
  invoke GetSldFor;;
  write_catalog (Env.get_sld_for env instance).

Definition set_layer_style (instance : Layer.t) (alternate sld : string) : M unit :=
  invoke SetLayerStyle;;
  write_catalog (Env.set_layer_style env instance alternate sld).

(** [instance.set_bbox_polygon(extent, srid)] *)
Definition set_bbox_polygon (extent : list string) (srid : option string) : M unit :=
  instance ← the_instance;
  invoke SetBboxPolygon;;
  set_instance (Some (Env.set_bbox_polygon env instance extent srid)).

(** Modelled from the spec: [set_dirty_state] and [clear_dirty_state] are
    methods of the resource model, outside this module; they mark the
    resource dirty, respectively clear the flag, on the object and on its
    row. *)
Definition set_dirty_state : M unit :=
  instance ← the_instance;
  set_instance (Some (Layer.set_dirty_state true instance));;
  modify_registry (fun r =>
    Registry.set_layers
      (alter (Layer.set_dirty_state true) (Layer.id instance) (Registry.layers r)) r).

Definition clear_dirty_state : M unit :=
  instance ← the_instance;
  set_instance (Some (Layer.set_dirty_state false instance));;
  modify_registry (fun r =>
    Registry.set_layers
      (alter (Layer.set_dirty_state false) (Layer.id instance) (Registry.layers r)) r).

(** [UploadSession.objects.filter(resource=instance).update(processed=flag)] *)
Definition sessions_update (flag : bool) : M unit :=
  instance ← the_instance;
  invoke (SessionsUpdate flag);;
  modify_registry (fun r =>
    Registry.set_sessions (mark_sessions (Layer.id instance) flag (Registry.sessions r)) r).

(** [Layer.objects.filter(id=pk).update(... fields ...)] *)
Definition layer_update (site : nat) (pk : nat) (fields : Layer.t -> Layer.t) : M unit :=
  invoke (LayerUpdate site);;
  modify_registry (fun r =>
    Registry.set_layers (alter fields pk (Registry.layers r)) r).

(** [ResourceBase.objects.filter(id=pk).update(... fields ...)] *)
Definition resourcebase_update (pk : nat) (fields : Layer.t -> Layer.t) : M unit :=
  invoke ResourceBaseUpdate;;
  modify_registry (fun r =>
    Registry.set_layers (alter fields pk (Registry.layers r)) r).

(** [instance.refresh_from_db()] *)
Definition refresh_from_db : M unit :=
  instance ← the_instance;
  invoke RefreshFromDb;;
  registry ← gets World.registry;
  match Registry.layers registry !! Layer.id instance with
  | Some row => set_instance (Some row)
  | None => raise (DoesNotExist "Layer")
  end.

(** [upload.save()] *)
Definition upload_save : M unit :=
  upload ← the_upload;
  invoke UploadSave;;
  modify_registry (fun r =>
    Registry.set_uploads (<[Upload.import_id upload := upload]> (Registry.uploads r)) r).

(** [instance.save(notify=notify)] *)
Definition instance_save (notify : bool) : M unit :=
  instance ← the_instance;
  invoke (InstanceSave notify);;
  modify_registry (fun r =>
    Registry.set_layers (<[Layer.id instance := instance]> (Registry.layers r)) r).

(** [open(base_file, "rb").read()] *)
Definition open_read (base_file : option string) : M string :=
  match base_file with
  | None => raise TypeError
  | Some path =>
      invoke OpenFile;;
      invoke ReadFile;;
      ret (Env.file_content env path)
  end.

(** [f = None; try: f = open(path, 'r') except Exception: pass] *)
Definition open_text (path : string) : M (option string) :=
  try_except (invoke OpenFile;; ret (Some path)) [ExceptionC] (fun _ => ret None).

(** *** [geoserver_set_style] *)

Definition geoserver_set_style (instance_id : nat) (base_file : option string)
    : M unit :=
  load_layer instance_id;;
  with_lock "geoserver_set_style" (fun acquired =>
    if acquired then
      try_except
        (sld ← open_read base_file;
         instance ← the_instance;
         set_layer_style instance (Layer.alternate instance) sld)
        [ExceptionC]
        (fun e => ret tt)
    else ret tt).

(** *** [geoserver_create_style] *)

(** The block guarded by [if not gs_catalog.get_style(...)]. *)
Definition replace_style (name sld : string) : M unit :=
  existing ← catalog_get_style name (DEFAULT_WORKSPACE (Env.settings env));
  if negb (truthy_obj existing) then
    style ← catalog_create_style name sld (DEFAULT_WORKSPACE (Env.settings env));
    gs_layer ← catalog_get_layer name;
    _default_style ←
      match gs_layer with
      | Some l => ret (GsLayer.default_style l)
      | None => raise AttributeError
      end;
    catalog_save_layer name (GsLayer.mk (Some style));;
    instance ← the_instance;
    set_styles instance;;
    try_except (catalog_delete _default_style) [ExceptionC] (fun e => ret tt)
  else ret tt.

(** The choice of the file object [f]. *)
Definition open_sld (sld_file : string) (tempdir : option string)
    : M (option string) :=
  if Env.path_isfile env sld_file then open_text sld_file
  else
    match tempdir with
    | Some d =>
        if truthy d && Env.path_exists env d then
          if Env.path_isfile env (Env.path_join env d sld_file)
          then open_text (Env.path_join env d sld_file)
          else ret None
        else ret None
    | None => ret None
    end.

Definition geoserver_create_style (instance_id : nat) (name : string)
    (sld_file tempdir : option string) : M unit :=
  load_layer instance_id;;
  with_lock "geoserver_create_style" (fun acquired =>
    loaded ← gets (fun w => Frame.instance (World.frame w));
    if acquired && truthy_obj loaded then
      instance ← the_instance;
      match sld_file with
      | Some path =>
          if truthy path && Env.path_exists env path && Env.path_access env path
          then
            f ← open_sld path tempdir;
            match f with
            | Some opened =>
                invoke ReadFile;;
                replace_style name (Env.file_content env opened)
            | None => get_sld_for instance
            end
          else get_sld_for instance
      | None => get_sld_for instance
      end
    else ret tt).

(** *** [geoserver_finalize_upload] *)

(** The [xml_file] argument: a list of paths, one path, or anything else. *)
Inductive xml_arg : Type :=
| XmlList (l : list string)
| XmlStr (s : string)
| XmlOther.

Definition normalize_xml_file (xml_file : xml_arg) : option string :=
  match xml_file with
  | XmlList (first :: _) => Some first
  | XmlList [] => None
  | XmlStr s => Some s
  | XmlOther => None
  end.

(** [upload = Upload.objects.get(import_id=import_id); upload.layer =
    instance; upload.save()] *)
Definition link_upload (import_id : nat) : M unit :=
  registry ← gets World.registry;
  match Registry.uploads registry !! import_id with
  | Some u => set_upload (Some u)
  | None => raise (DoesNotExist "Upload")
  end;;
  instance ← the_instance;
  modify_upload (Upload.set_layer (Some (Layer.id instance)));;
  upload_save.

Definition update_upload_sessions : M unit :=
  try_except
    (sessions_update false;;
     instance ← the_instance;
     invoke SessionsFirst;;
     registry ← gets World.registry;
     modify_instance
       (Layer.set_upload_session
          (first_session (Layer.id instance) (Registry.sessions registry))))
    [ExceptionC]
    (fun e => ret tt).

Definition check_metadata (xml_file : xml_arg) : M unit :=
  match normalize_xml_file xml_file with
  | Some path =>
      if truthy path && Env.path_exists env path && Env.path_access env path
      then modify_instance (Layer.set_metadata_uploaded true)
      else ret tt
  | None => ret tt
  end.

Definition catalog_get_resource (attempt : nat) (name : string)
    (store workspace : option string) : M (option GsResource.t) :=
  invoke (CatalogGetResource attempt);;
  ret (Env.get_resource env name store workspace).

Definition resolve_gs_resource : M unit :=
  instance ← the_instance;
  found ←
    try_except
      (catalog_get_resource 1 (Layer.name instance)
         (Some (Layer.store instance)) (Some (Layer.workspace instance)))
      [ExceptionC]
      (fun _ =>
         try_except
           (catalog_get_resource 2 (Layer.alternate instance)
              (Some (Layer.store instance)) (Some (Layer.workspace instance)))
           [ExceptionC]
           (fun _ =>
              try_except
                (catalog_get_resource 3
                   (py_or (Layer.alternate instance) (Layer.typename instance))
                   None None)
                [ExceptionC]
                (fun _ => ret None)));
  set_gs_resource found.

Definition update_gs_resource : M unit :=
  found ← gets (fun w => Frame.gs_resource (World.frame w));
  match found with
  | Some _ =>
      instance ← the_instance;
      modify_gs_resource (GsResource.set_title (Layer.title instance));;
      modify_gs_resource (GsResource.set_abstract (Layer.abstract instance));;
      catalog_save_resource;;
      gs_resource ← the_gs_resource;
      match GsResource.store gs_resource with
      | Some st =>
          modify_instance (Layer.set_storeType (GsStore.resource_type st));;
          instance ← the_instance;
          if negb (truthy (Layer.alternate instance)) then
            modify_instance
              (Layer.set_alternate
                 (GsStore.workspace_name st ++ ":" ++ GsResource.name gs_resource))
          else ret tt
      | None => ret tt
      end
  | None => ret tt
  end.

(** [if sld_uploaded: geoserver_set_style(instance.id, sld_file) else:
    geoserver_create_style(instance.id, instance.name, sld_file, tempdir)]:
    the task functions are called, not enqueued. *)
Definition assign_style (sld_uploaded : bool) (sld_file tempdir : option string)
    : M unit :=
  instance ← the_instance;
  if sld_uploaded then
    call_task (geoserver_set_style (Layer.id instance) sld_file)
  else
    call_task
      (geoserver_create_style (Layer.id instance) (Layer.name instance)
         sld_file tempdir).

Definition apply_permissions (permissions : option string) (created : bool)
    : M unit :=
  invoke HandleModeratedUploads;;
  modify_instance (Env.handle_moderated_uploads env);;
  match permissions with
  | Some _ => invoke SetPermissions
  | None => ret tt
  end;;
  instance_save (negb created).

(** Everything the locked block does before the cleanup. *)
Definition finalize_stages (import_id : nat) (permissions : option string)
    (created : bool) (xml_file : xml_arg) (sld_file : option string)
    (sld_uploaded : bool) (tempdir : option string) : M unit :=
  link_upload import_id;;
  update_upload_sessions;;
  check_metadata xml_file;;
  resolve_gs_resource;;
  update_gs_resource;;
  assign_style sld_uploaded sld_file tempdir;;
  apply_permissions permissions created.

(** [if tempdir and os.path.exists(tempdir): shutil.rmtree(tempdir)] *)
Definition remove_tempdir (tempdir : option string) : M unit :=
  match tempdir with
  | Some d => if truthy d && Env.path_exists env d then invoke Rmtree else ret tt
  | None => ret tt
  end.

(** [upload.complete = True; upload.save()] *)
Definition mark_complete : M unit :=
  modify_upload (Upload.set_complete true);;
  upload_save.

(** [try: cleanup except Exception: ... finally: upload.complete = True;
    upload.save()] *)
Definition cleanup_and_complete (tempdir : option string) : M unit :=
  try_finally
    (try_except (remove_tempdir tempdir) [ExceptionC] (fun e => ret tt))
    mark_complete.

(** The block run under the lock. *)
Definition finalize_locked (import_id : nat) (permissions : option string)
    (created : bool) (xml_file : xml_arg) (sld_file : option string)
    (sld_uploaded : bool) (tempdir : option string) : M unit :=
  finalize_stages import_id permissions created xml_file sld_file
    sld_uploaded tempdir;;
  cleanup_and_complete tempdir;;
  signal_send "upload_complete".

Definition geoserver_finalize_upload (import_id instance_id : nat)
    (permissions : option string) (created : bool) (xml_file : xml_arg)
    (sld_file : option string) (sld_uploaded : bool) (tempdir : option string)
    : M unit :=
  load_layer instance_id;;
  with_lock "geoserver_finalize_upload" (fun acquired =>
    if acquired then
      finalize_locked import_id permissions created xml_file sld_file
        sld_uploaded tempdir
    else ret tt).

(** *** [geoserver_post_save_layers] *)

(** The two early exits, and [if isinstance(instance, ResourceBase): if
    hasattr(instance, 'layer'): instance = instance.layer else: return].
    Every [Layer] is a [ResourceBase]; its [layer] attribute is the layer
    row with the same primary key. *)
Definition early_exits : M unit :=
  instance ← the_instance;
  (if truthy_obj (Layer.remote_service instance)
      || String.eqb (Layer.storeType instance) "remoteStore"
   then signal_send "geoserver_post_save_complete";; return_ RNone
   else ret tt);;
  (if String.eqb (Layer.storeType instance) "tileStore"
      || String.eqb (Layer.storeType instance) "remoteStore"
   then signal_send "geoserver_post_save_complete";; return_ (RInstance instance)
   else ret tt);;
  registry ← gets World.registry;
  match Registry.layers registry !! Layer.id instance with
  | Some l => set_instance (Some l)
  | None => return_ RNone
  end.

(** [if not instance.store or getattr(instance, 'overwrite', False): ...] *)
Definition upload_if_needed : M (option Values.t) :=
  instance ← the_instance;
  if negb (truthy (Layer.store instance)) || Layer.overwrite instance then
    invoke GetBaseFile;;
    match Env.get_base_file env instance with
    | None => return_ RNone
    | Some path =>
        invoke GeoserverUpload;;
        let '(values, found) := Env.geoserver_upload env instance path in
        set_gs_resource found;;
        ret values
    end
  else ret None.

(** [values, gs_resource = fetch_gs_resource(instance, values, _tries)] *)
Definition fetch_gs_resource (values : option Values.t) (_tries : nat)
    : M (option Values.t) :=
  instance ← the_instance;
  attempt ← gets (fun w => fetch_attempts (World.trace w));
  invoke (FetchGsResource _tries);;
  let '(values', found) :=
    Env.fetch_gs_resource env attempt instance values _tries in
  set_gs_resource found;;
  ret values'.

(** [while not gs_resource and _tries < _max_tries: ...; _tries += 1].
    [fuel] bounds the iterations; [_max_tries - _tries] is enough. *)
Fixpoint fetch_loop (fuel : nat) (_max_tries : nat) (values : option Values.t)
    (_tries : nat) : M (option Values.t) :=
  gs_resource ← gets (fun w => Frame.gs_resource (World.frame w));
  if negb (truthy_obj gs_resource) && (_tries <? _max_tries)%nat then
    match fuel with
    | O => ret values
    | S fuel' =>
        values' ← fetch_gs_resource values _tries;
        fetch_loop fuel' _max_tries values' (S _tries)
    end
  else ret values.

(** [getattr(ogc_server_settings, "MAX_RETRIES", 2)] *)
Definition max_tries : nat :=
  default 2%nat (MAX_RETRIES (Env.ogc_server_settings env)).

Definition bounded_retry_fetch (values : option Values.t) : M (option Values.t) :=
  let _tries := 0%nat in
  let _max_tries := max_tries in
  values' ← fetch_gs_resource values _tries;
  fetch_loop _max_tries _max_tries values' _tries.

(** Metadata links, attribution and the values from the catalog. *)
Definition sync_catalog_fields (values : option Values.t)
    (metadata_links : list (string * string * string)) : M unit :=
  modify_gs_resource (GsResource.set_metadata_links metadata_links);;
  instance ← the_instance;
  match Layer.poc instance with
  | Some poc =>
      modify_gs_resource (GsResource.set_attribution (Some poc));;
      invoke ProfileGet;;
      let site := SITEURL (Env.settings env) in
      let site_url := if String.prefix "http" site then rstrip_slash site else site in
      modify_gs_resource
        (GsResource.set_attribution_link
           (Some (site_url ++ Env.profile_absolute_url env poc)))
  | None => ret tt
  end;;
  match values with
  | Some v =>
      modify_instance (Layer.set_alternate (Values.alternate v));;
      modify_instance (Layer.set_store (Values.store v));;
      modify_instance (Layer.set_storeType (Values.storeType v))
  | None => raise TypeError
  end.

(** The advertised flag, the keywords and the push to the catalog. *)
Definition push_to_catalog : M unit :=
  try_except
    ((if RESOURCE_PUBLISHING (Env.settings env) then
        instance ← the_instance;
        gs_resource ← the_gs_resource;
        if py_bool_ne (Layer.is_published instance) (GsResource.advertised gs_resource)
        then modify_gs_resource (GsResource.set_advertised (PyStr "true"))
        else ret tt
      else ret tt);;
     instance ← the_instance;
     (if existsb truthy (Layer.keyword_list instance) then
        modify_gs_resource (fun g =>
          GsResource.set_keywords
            (list_set (GsResource.keywords g ++ Layer.keyword_list instance)) g)
      else ret tt);;
     if default true (BACKEND_WRITE_ENABLED (Env.ogc_server_settings env))
     then catalog_save_resource
     else ret tt)
    [ExceptionC]
    (fun e => ret tt).

(** SRID and bounding box from the catalog, or from the instance when that
    fails. *)
Definition read_projection : M (option string * option (list string)) :=
  try_except
    (gs_resource ← the_gs_resource;
     let srid := GsResource.projection gs_resource in
     let bbox := GsResource.native_bbox gs_resource in
     extent ← lift (bbox_to_extent bbox);
     set_bbox_polygon extent srid;;
     ret (srid, bbox))
    [ExceptionC]
    (fun e =>
       instance ← the_instance;
       ret (Layer.srid instance, Some (Layer.bbox instance))).

Definition missing_crs : string := "Invalid Projection. Layer is missing CRS!".

Definition resolve_srid : M unit :=
  instance ← the_instance;
  if truthy_opt (Layer.srid instance) then
    modify_instance
      (Layer.set_srid_url
         ("http://www.spatialreference.org/ref/"
            ++ srid_path (default "" (Layer.srid instance)) ++ "/"))
  else if truthy_obj (Layer.bbox_polygon instance) then
    modify_instance (Layer.set_srid (Some "EPSG:4326"))
  else raise (GeoNodeException missing_crs).

(** The first atomic update: titles, store fields and the bounding box. *)
Definition write_back (srid : option string) (bbox : option (list string))
    : M unit :=
  instance ← the_instance;
  let to_update (row : Layer.t) : Layer.t :=
    Layer.set_alternate (Layer.alternate instance)
      (Layer.set_abstract (py_or (Layer.abstract instance) "")
         (Layer.set_title (py_or (Layer.title instance) (Layer.name instance)) row)) in
  invoke IsMonochromaticImage;;
  let to_update (row : Layer.t) : Layer.t :=
    if Env.is_monochromatic_image env (Layer.thumbnail_url instance)
    then Layer.set_thumbnail_url
           (Env.static env (MISSING_THUMBNAIL (Env.settings env))) (to_update row)
    else to_update row in
  try_except
    (atomic
       (resourcebase_update (Layer.id instance) to_update;;
        gs_resource ← the_gs_resource;
        st ← match GsResource.store gs_resource with
             | Some st => ret st
             | None => raise AttributeError
             end;
        let to_update (row : Layer.t) : Layer.t :=
          Layer.set_typename (Layer.alternate instance)
            (Layer.set_storeType (Layer.storeType instance)
               (Layer.set_store (GsStore.name st)
                  (Layer.set_workspace (GsStore.workspace_name st) (to_update row)))) in
        layer_update 1 (Layer.id instance) to_update;;
        extent ← lift (bbox_to_extent bbox);
        set_bbox_polygon extent (Some "EPSG:4326");;
        instance ← the_instance;
        layer_update 2 (Layer.id instance)
          (fun row =>
             Layer.set_srid srid
               (Layer.set_bbox_polygon (Layer.bbox_polygon instance) row));;
        refresh_from_db))
    [ExceptionC]
    (fun e => ret tt).

(** [instance.bbox_polygon.srid = code] *)
Definition set_polygon_srid (code : Z) : M unit :=
  instance ← the_instance;
  match Layer.bbox_polygon instance with
  | Some p =>
      set_instance
        (Some (Layer.set_bbox_polygon (Some (Polygon.set_srid (Some code) p)) instance))
  | None => raise AttributeError
  end.

(** [Layer.objects.filter(id=instance.id).update(
    ll_bbox_polygon=instance.bbox_polygon, srid=srid)] *)
Definition update_ll_bbox (site : nat) (srid : option string) : M unit :=
  instance ← the_instance;
  layer_update site (Layer.id instance)
    (fun row =>
       Layer.set_srid srid
         (Layer.set_ll_bbox_polygon (Layer.bbox_polygon instance) row)).

(** The second atomic update, with its nested fallback. *)
Definition correct_srid (srid : option string) : M unit :=
  try_except
    (atomic
       (code ← lift (Srid.srid_code srid);
        set_polygon_srid code;;
        update_ll_bbox 3 srid;;
        refresh_from_db))
    [ExceptionC]
    (fun e =>
       try_except
         (atomic
            (set_polygon_srid 4326;;
             update_ll_bbox 4 srid;;
             refresh_from_db))
         [ExceptionC]
         (fun e => ret tt)).

(** Catalogue records, links, attributes, styles, tile cache, and the
    closing signal. *)
Definition refresh_derived : M unit :=
  try_except (invoke CataloguePostSave) [ExceptionC] (fun e => ret tt);;
  try_except (invoke SetResourceDefaultLinks) [ExceptionC] (fun e => ret tt);;
  try_except (invoke SetAttributesFromGeoserver) [ExceptionC] (fun e => ret tt);;
  try_except (instance ← the_instance; set_styles instance)
    [ExceptionC] (fun e => ret tt);;
  try_except (invoke StyleFilterParamsGwc;; invoke InvalidateGwc)
    [ExceptionC] (fun e => ret tt);;
  signal_send "geoserver_post_save_complete".

(** The body of [if gs_resource:]. *)
Definition reconcile (values : option Values.t)
    (metadata_links : list (string * string * string)) : M unit :=
  sync_catalog_fields values metadata_links;;
  push_to_catalog;;
  '(srid, bbox) ← read_projection;
  resolve_srid;;
  write_back srid bbox;;
  correct_srid srid;;
  refresh_derived.

(** [try: ...update(processed=True) except Exception: ... finally:
    instance.clear_dirty_state()] *)
Definition finish_sessions : M unit :=
  try_finally
    (try_except (sessions_update true) [ExceptionC] (fun e => ret tt))
    clear_dirty_state.

(** The locked block from the session update to the end. *)
Definition reconcile_layer : M unit :=
  sessions_update false;;
  set_dirty_state;;
  set_gs_resource None;;
  values ← upload_if_needed;
  values ← bounded_retry_fetch values;
  instance ← the_instance;
  invoke MetadataLinks;;
  let metadata_links := Env.link_set_metadata env instance in
  found ← gets (fun w => Frame.gs_resource (World.frame w));
  (if truthy_obj found then reconcile values metadata_links else ret tt);;
  finish_sessions;;
  if HAYSTACK_SEARCH (Env.settings env) then invoke UpdateIndex else ret tt.

Definition geoserver_post_save_layers (instance_id : nat) : M unit :=
  load_layer instance_id;;
  with_lock "geoserver_post_save_layers" (fun acquired =>
    if acquired then early_exits;; reconcile_layer else ret tt).

End Tasks.

(** ** Task options

    The arguments of the [@app.task] decorators. *)
Record TaskOptions : Type := {
  task_name : string;
  queue : string;
  expires : nat;
  acks_late : bool;
  autoretry_for : list exn_class;
  max_retries : nat;
  countdown : nat;
  retry_backoff : bool;
  retry_backoff_max : nat;
  retry_jitter : bool
}.

Definition task_options (name queue : string) (expires : nat) : TaskOptions :=
  {| task_name := name; queue := queue; expires := expires;
     acks_late := false; autoretry_for := [ExceptionC];
     max_retries := 3; countdown := 10; retry_backoff := true;
     retry_backoff_max := 700; retry_jitter := true |}.

Definition geoserver_set_style_options : TaskOptions :=
  task_options "geonode.geoserver.tasks.geoserver_set_style" "geoserver.catalog" 30.

Definition geoserver_create_style_options : TaskOptions :=
  task_options "geonode.geoserver.tasks.geoserver_create_style" "geoserver.catalog" 30.

Definition geoserver_finalize_upload_options : TaskOptions :=
  task_options "geonode.geoserver.tasks.geoserver_finalize_upload" "geoserver.events" 600.

Definition geoserver_post_save_layers_options : TaskOptions :=
  task_options "geonode.geoserver.tasks.geoserver_post_save_layers" "geoserver.catalog" 3600.

(** Modelled from the spec: the task executor is Celery, outside this
    repository.  A task is retried automatically on an uncaught failure of
    a class listed in [autoretry_for], up to the retry ceiling. *)
Definition autoretry (o : TaskOptions) (e : exn) (retries : nat) : bool :=
  isinstance e (autoretry_for o) && (retries <? max_retries o)%nat.

(** ** Sample environments and states

    Concrete collaborators and stores on which the tasks are run. *)
Module Sample.

Definition base_settings : Settings :=
  {| RESOURCE_PUBLISHING := true; HAYSTACK_SEARCH := false;
     SITEURL := "http://localhost:8000/";
     MISSING_THUMBNAIL := "geonode/img/missing_thumb.png";
     DEFAULT_WORKSPACE := "geonode" |}.

Definition default_ogc : OgcServerSettings :=
  {| MAX_RETRIES := None; BACKEND_WRITE_ENABLED := None |}.

Definition no_fault : list call -> call -> option exn := fun _ _ => None.

(** The only failing call is [c]. *)
Definition fault_on (c : call) (origin : string) : list call -> call -> option exn :=
  fun _ c' =>
    match c, c' with
    | SetPermissions, SetPermissions
    | CatalogCreateStyle, CatalogCreateStyle
    | Rmtree, Rmtree
    | LayerUpdate 3, LayerUpdate 3 => Some (ExternalError origin)
    | _, _ => None
    end.

(** [set_bbox_polygon] stores the polygon of the extent and the SRID. *)
Definition store_bbox (l : Layer.t) (extent : list string) (srid : option string)
    : Layer.t :=
  Layer.set_srid srid (Layer.set_bbox_polygon (Some (Polygon.mk extent None)) l).

(** An environment in which every collaborator answers, given the faults,
    the base file, and the answers of the catalog lookup. *)
Definition env_with (fault : list call -> call -> option exn)
    (base_file : option string)
    (fetch : nat -> option Values.t * option GsResource.t) : Env.t :=
  Env.mk base_settings default_ogc fault
    (fun _ _ => true)
    (fun _ => true) (fun _ => true) (fun _ => true)
    (fun d f => d ++ "/" ++ f)
    (fun _ => "<StyledLayerDescriptor/>")
    (fun _ => base_file)
    (fun _ _ => (None, None))
    (fun attempt _ _ _ => fetch attempt)
    (fun _ _ _ => None)
    (fun _ => [])
    (fun username => "/people/profile/" ++ username)
    (fun _ => false)
    (fun path => "/static/" ++ path)
    store_bbox
    (fun l => l)
    (fun _ _ _ c => c)
    (fun _ c => c).

Definition roads_values : Values.t :=
  Values.mk "geonode:roads" "roads_store" "dataStore".

Definition roads_store : GsStore.t := GsStore.mk "roads_store" "geonode" "dataStore".

(** A catalog resource with a projection and a native bounding box. *)
Definition roads_resource (projection : option string) (advertised : pyval)
    : GsResource.t :=
  GsResource.mk "roads" "Roads" "" (Some roads_store) projection
    (Some ["0"; "10"; "0"; "20"; "EPSG:3857"]) advertised [] [] None None.

(** A catalog resource that reports neither a projection nor a bounding
    box. *)
Definition bare_resource : GsResource.t :=
  GsResource.mk "roads" "Roads" "" (Some roads_store) None None (PyStr "true")
    [] [] None None.

Definition never_found : nat -> option Values.t * option GsResource.t :=
  fun _ => (Some roads_values, None).

Definition always_found (g : GsResource.t)
    : nat -> option Values.t * option GsResource.t :=
  fun _ => (Some roads_values, Some g).

(** Not found for the first [k] lookups, found afterwards. *)
Definition found_after (k : nat) (g : GsResource.t)
    : nat -> option Values.t * option GsResource.t :=
  fun attempt =>
    if (attempt <? k)%nat then (Some roads_values, None)
    else (Some roads_values, Some g).

(** A layer without SRID and without bounding polygon. *)
Definition roads (store : string) : Layer.t :=
  Layer.mk 7 "roads" "Roads" "" "geonode:roads" store "dataStore" "geonode"
    "geonode:roads" None false None "" [] None None false false false ""
    None [] None.

Definition generic_style : Style.t := Style.mk None "generic".

Definition roads_style : Style.t := Style.mk (Some "geonode") "roads".

Definition catalog0 : Catalog.t :=
  Catalog.mk [generic_style] {[ "roads" := GsLayer.mk (Some generic_style) ]} ∅.

Definition world_of (l : Layer.t) : World.t :=
  World.mk
    (Registry.mk {[ 7%nat := l ]} {[ 1%nat := Upload.mk 1 None false ]}
       [UploadSession.mk 1 7 true])
    catalog0 [] [] (Frame.mk None None None).

(** The row of layer 7 in the registry. *)
Definition row (w : World.t) : option Layer.t :=
  Registry.layers (World.registry w) !! 7%nat.

(** The record of upload 1 in the registry. *)
Definition upload_row (w : World.t) : option Upload.t :=
  Registry.uploads (World.registry w) !! 1%nat.

(** The state of a task that has loaded layer [l] as its instance. *)
Definition world_at (l : Layer.t) : World.t :=
  World.set_frame (Frame.mk (Some l) None None) (world_of l).

(** The layer with a bounding polygon, and with the SRID [srid]. *)
Definition roads_boxed (srid : option string) : Layer.t :=
  store_bbox (roads "roads_store") ["0"; "0"; "10"; "20"] srid.

Definition quiet_env : Env.t := env_with no_fault None never_found.

(** The reconciler on layer 7. *)
Definition reconcile_run (env : Env.t) (store : string) : outcome unit * World.t :=
  geoserver_post_save_layers env 7 (world_of (roads store)).

(** No store and no base file: the early return. *)
Definition run_no_base_file : outcome unit * World.t :=
  reconcile_run quiet_env "".

(** The catalog reports neither projection nor bounding box, and the layer
    has none of its own. *)
Definition run_missing_crs : outcome unit * World.t :=
  reconcile_run (env_with no_fault None (always_found bare_resource)) "roads_store".

(** The catalog reports a projection and a bounding box; the catalog entry
    has the given advertised flag. *)
Definition run_complete (advertised : pyval) : outcome unit * World.t :=
  reconcile_run
    (env_with no_fault None
       (always_found (roads_resource (Some "EPSG:3857") advertised)))
    "roads_store".

(** The advertised flag of the resource pushed to the catalog. *)
Definition pushed_advertised (w : World.t) : option pyval :=
  GsResource.advertised <$> Catalog.resources (World.catalog w) !! "roads".

(** The finalizer on upload 1 and layer 7, with an SLD file to derive the
    style from. *)
Definition finalize (env : Env.t) (permissions : option string) : M unit :=
  geoserver_finalize_upload env 1 7 permissions true XmlOther
    (Some "/tmp/upload/roads.sld") false (Some "/tmp/upload").

(** The stages of the finalizer, on a loaded instance. *)
Definition stages (env : Env.t) : M unit :=
  finalize_stages env 1 (Some "{}") true XmlOther (Some "/tmp/upload/roads.sld")
    false (Some "/tmp/upload").

Definition locked (env : Env.t) : M unit :=
  finalize_locked env 1 (Some "{}") true XmlOther (Some "/tmp/upload/roads.sld")
    false (Some "/tmp/upload").

End Sample.

(** ** Vocabulary of the statements *)

Fixpoint all_digits (s : string) : bool :=
  match s with
  | EmptyString => true
  | String c s' => Srid.is_digit c && all_digits s'
  end.

(** [m] never changes the observation [f] of the world. *)
Definition stable {X A : Type} (f : World.t -> X) (m : M A) : Prop :=
  forall w, f (snd (m w)) = f w.

(** Catalog lookups made so far. *)
Definition fetches (w : World.t) : nat := fetch_attempts (World.trace w).

Definition is_fetch (c : call) : bool :=
  match c with
  | FetchGsResource _ => true
  | _ => false
  end.

(** [m] makes at most [n] catalog lookups. *)
Definition fetch_bound {A : Type} (n : nat) (m : M A) : Prop :=
  forall w, (fetches (snd (m w)) <= fetches w + n)%nat.

(** The default style of a catalog layer, if the layer exists and has one. *)
Definition layer_default (c : Catalog.t) (name : string) : option Style.t :=
  match Catalog.layers c !! name with
  | Some l => GsLayer.default_style l
  | None => None
  end.

(** The calls made between two states of a run. *)
Definition new_calls (w w' : World.t) : list call :=
  drop (length (World.trace w)) (World.trace w').

(** The catalog states reached between two states of a run. *)
Definition new_states (w w' : World.t) : list Catalog.t :=
  drop (length (World.catalog_log w)) (World.catalog_log w').

(** Every occurrence of [b] in [t] comes after an occurrence of [a]. *)
Definition precedes (a b : call) (t : list call) : Prop :=
  forall before after, t = (before ++ b :: after)%list -> In a before.

Definition uploads_of (w : World.t) : gmap nat Upload.t :=
  Registry.uploads (World.registry w).

Definition upload_of (w : World.t) : option Upload.t :=
  Frame.upload (World.frame w).

(** The upload record [import_id] is marked complete in the registry. *)
Definition completed (import_id : nat) (w : World.t) : Prop :=
  exists u, uploads_of w !! import_id = Some u /\ Upload.complete u = true.

(** The stages of the finalizer between the linking of the upload and the
    cleanup. *)
Definition stages_after_link (env : Env.t) (permissions : option string)
    (created : bool) (xml_file : xml_arg) (sld_file : option string)
    (sld_uploaded : bool) (tempdir : option string) : M unit :=
  update_upload_sessions env;;
  check_metadata env xml_file;;
  resolve_gs_resource env;;
  update_gs_resource env;;
  assign_style env sld_uploaded sld_file tempdir;;
  apply_permissions env permissions created.

(** The stages of the finalizer that precede the style assignment. *)
Definition stages_before_style (env : Env.t) (import_id : nat) (xml_file : xml_arg)
    : M unit :=
  link_upload env import_id;;
  update_upload_sessions env;;
  check_metadata env xml_file;;
  resolve_gs_resource env;;
  update_gs_resource env.

(** The task function the finalizer calls for the style. *)
Definition style_task (env : Env.t) (instance : Layer.t) (sld_uploaded : bool)
    (sld_file tempdir : option string) : M unit :=
  if sld_uploaded then geoserver_set_style env (Layer.id instance) sld_file
  else geoserver_create_style env (Layer.id instance) (Layer.name instance)
         sld_file tempdir.

(** The stages of the finalizer that follow the style assignment. *)
Definition stages_after_style (env : Env.t) (permissions : option string)
    (created : bool) (tempdir : option string) : M unit :=
  apply_permissions env permissions created;;
  cleanup_and_complete env tempdir;;
  signal_send env "upload_complete".

(** What [reconcile] does before it resolves the SRID. *)
Definition reconcile_prefix (env : Env.t) (values : option Values.t)
    (metadata_links : list (string * string * string))
    : M (option string * option (list string)) :=
  sync_catalog_fields env values metadata_links;;
  push_to_catalog env;;
  read_projection env.

(** The row after the second atomic update: the [srid] column holds the
    value as it was read, the polygon carries the numeric code. *)
Definition ll_bbox_written (srid : option string) (code : Z) (p : Polygon.t)
    (row : Layer.t) : Layer.t :=
  Layer.set_srid srid
    (Layer.set_ll_bbox_polygon (Some (Polygon.set_srid (Some code) p)) row).

(** ** Vocabulary of the further properties *)

(** The stores and the catalog log are as they were. *)
Definition untouched (w w' : World.t) : Prop :=
  World.registry w' = World.registry w
  /\ World.catalog w' = World.catalog w
  /\ World.catalog_log w' = World.catalog_log w.

(** The task ended normally having only taken and released its lock. *)
Definition silent_noop (name : string) (w : World.t) (r : outcome unit * World.t)
    : Prop :=
  fst r = Normal tt
  /\ World.trace (snd r) = (World.trace w ++ [LockAcquire name; LockRelease name])%list
  /\ untouched w (snd r).

(** The task raised [Layer.DoesNotExist] without calling anything. *)
Definition aborted_on_load (w : World.t) (r : outcome unit * World.t) : Prop :=
  fst r = Raised (DoesNotExist "Layer")
  /\ World.trace (snd r) = World.trace w
  /\ untouched w (snd r).

(** [sld_file and os.path.exists(sld_file) and os.access(sld_file, os.R_OK)] *)
Definition sld_usable (env : Env.t) (sld_file : option string) : bool :=
  match sld_file with
  | Some path => truthy path && Env.path_exists env path && Env.path_access env path
  | None => false
  end.

(** The first early exit: the layer of a remote service. *)
Definition is_remote (l : Layer.t) : bool :=
  truthy_obj (Layer.remote_service l) || String.eqb (Layer.storeType l) "remoteStore".

(** Every character of [s] satisfies [p]. *)
Fixpoint str_all (p : ascii -> bool) (s : string) : bool :=
  match s with
  | EmptyString => true
  | String c s' => p c && str_all p s'
  end.

(** Neither a colon nor a capital letter [A-Z]. *)
Definition path_char (c : ascii) : bool :=
  negb (Ascii.eqb c ":"%char)
  && negb ((65 <=? nat_of_ascii c) && (nat_of_ascii c <=? 90))%nat.

(** The columns the first atomic update writes, on a row. *)
Definition written_back (instance : Layer.t) (st : GsStore.t) (srid : option string)
    (row : Layer.t) : Prop :=
  Layer.title row = py_or (Layer.title instance) (Layer.name instance)
  /\ Layer.abstract row = py_or (Layer.abstract instance) ""
  /\ Layer.alternate row = Layer.alternate instance
  /\ Layer.workspace row = GsStore.workspace_name st
  /\ Layer.store row = GsStore.name st
  /\ Layer.storeType row = Layer.storeType instance
  /\ Layer.typename row = Layer.alternate instance
  /\ Layer.srid row = srid.

(** ** More sample runs *)

Module Cases.

(** [env] with another answer to [lock.acquire()], other faults and other
    server settings. *)
Definition adjust (lock : bool) (fault : list call -> call -> option exn)
    (ogc : OgcServerSettings) (env : Env.t) : Env.t :=
  Env.mk (Env.settings env) ogc fault (fun _ _ => lock)
    (Env.path_exists env) (Env.path_access env) (Env.path_isfile env)
    (Env.path_join env) (Env.file_content env) (Env.get_base_file env)
    (Env.geoserver_upload env) (Env.fetch_gs_resource env)
    (Env.get_resource env) (Env.link_set_metadata env)
    (Env.profile_absolute_url env) (Env.is_monochromatic_image env)
    (Env.static env) (Env.set_bbox_polygon env)
    (Env.handle_moderated_uploads env) (Env.set_layer_style env)
    (Env.get_sld_for env).

(** Another worker holds every lock. *)
Definition lock_held : Env.t :=
  adjust false Sample.no_fault Sample.default_ogc Sample.quiet_env.

(** The calls for which [bad] holds fail, whenever they are made. *)
Definition failing (bad : call -> bool) : Env.t :=
  adjust true (fun _ c => if bad c then Some (ExternalError "catalog") else None)
    Sample.default_ogc Sample.quiet_env.

(** The catalog is configured read-only. *)
Definition read_only : Env.t :=
  adjust true Sample.no_fault
    {| MAX_RETRIES := None; BACKEND_WRITE_ENABLED := Some false |}
    Sample.quiet_env.

Definition is_catalog_delete (c : call) : bool :=
  match c with
  | CatalogDelete => true
  | _ => false
  end.

Definition is_set_layer_style (c : call) : bool :=
  match c with
  | SetLayerStyle => true
  | _ => false
  end.

Definition is_first_lookup (c : call) : bool :=
  match c with
  | CatalogGetResource 1 => true
  | _ => false
  end.

Definition any_call (c : call) : bool := true.

(** The registry holds layer 7, already stored in the catalog; no task
    runs. *)
Definition stored : World.t := Sample.world_of (Sample.roads "roads_store").

(** A task has loaded layer 7. *)
Definition loaded : World.t := Sample.world_at (Sample.roads "roads_store").

(** A task has loaded layer [l] and found the catalog resource [g]. *)
Definition at_resource (l : Layer.t) (g : GsResource.t) : World.t :=
  World.set_frame (Frame.mk (Some l) None (Some g)) (Sample.world_of l).

Definition tile_layer : Layer.t :=
  Layer.set_storeType "tileStore" (Sample.roads "roads_store").

(** Layer 7 with keywords. *)
Definition tagged_layer : Layer.t :=
  Layer.mk 7 "roads" "Roads" "" "geonode:roads" "roads_store" "dataStore" "geonode"
    "geonode:roads" None false None "" [] None None false false false ""
    None ["transport"; "roads"] None.

(** A catalog resource with keywords. *)
Definition tagged_resource : GsResource.t :=
  GsResource.mk "roads" "Roads" "" (Some Sample.roads_store) (Some "EPSG:3857")
    (Some ["0"; "10"; "0"; "20"; "EPSG:3857"]) (PyStr "true") ["roads"; "osm"]
    [] None None.

Definition projected : GsResource.t :=
  Sample.roads_resource (Some "EPSG:3857") (PyStr "true").

End Cases.

(** ** The styles of the catalog over a run *)

(** The calls that create a style, reassign the default style of a layer
    or delete a style. *)
Definition is_style_write (c : call) : bool :=
  match c with
  | CatalogCreateStyle | CatalogSaveLayer | CatalogDelete => true
  | _ => false
  end.

(** The style-writing calls made so far. *)
Definition style_writes (w : World.t) : list call :=
  List.filter is_style_write (World.trace w).

(** The styles the catalog holds. *)
Definition styles_of (w : World.t) : list Style.t :=
  Catalog.styles (World.catalog w).

(** What the style stages leave alone unless they write a style. *)
Definition style_state (w : World.t) : list call * list Style.t :=
  (style_writes w, styles_of w).

(** The name of the instance a task holds. *)
Definition instance_name (w : World.t) : option string :=
  Layer.name <$> Frame.instance (World.frame w).

(** The styles of [w'] are those of [w], or those the style helper of
    [geonode.geoserver.helpers] that the run delegates to returned for a
    catalog with the styles of [w]: [set_layer_style] for an uploaded SLD,
    [get_sld_for] otherwise. *)
Definition styles_kept_or_from_helper (env : Env.t) (sld_uploaded : bool)
    (w w' : World.t) : Prop :=
  styles_of w' = styles_of w
  \/ exists instance c,
       Catalog.styles c = styles_of w
       /\ if sld_uploaded
          then exists alternate sld,
                 styles_of w' =
                   Catalog.styles (Env.set_layer_style env instance alternate sld c)
          else styles_of w' = Catalog.styles (Env.get_sld_for env instance c).

(** [m] takes a state in which [P] holds to one in which [Q] holds,
    however it ends. *)
Definition hoare {A : Type} (P : World.t -> Prop) (m : M A) (Q : World.t -> Prop)
    : Prop :=
  forall w, P w -> Q (snd (m w)).

(** No style was written since [w0], and the styles are those of [w0]. *)
Definition unwritten (w0 w : World.t) : Prop := style_state w = style_state w0.

(** As [unwritten], in a task whose instance has the name [name]. *)
Definition before_style (w0 : World.t) (name : string) (w : World.t) : Prop :=
  unwritten w0 w /\ instance_name w = Some name.

(** No style-writing call was made since [w0], and the styles are those of
    [w0] or come from the style helper. *)
Definition after_style (env : Env.t) (sld_uploaded : bool) (w0 w : World.t)
    : Prop :=
  style_writes w = style_writes w0
  /\ styles_kept_or_from_helper env sld_uploaded w0 w.

Module Rerun.

(** An environment without faults in which the files are there or not,
    with the given [set_layer_style] helper. *)
Definition env_of (files : bool)
    (set_layer_style : Layer.t -> string -> string -> Catalog.t -> Catalog.t)
    : Env.t :=
  Env.mk Sample.base_settings Sample.default_ogc Sample.no_fault
    (fun _ _ => true)
    (fun _ => files) (fun _ => files) (fun _ => files)
    (fun d f => d ++ "/" ++ f)
    (fun _ => "<StyledLayerDescriptor/>")
    (fun _ => None)
    (fun _ _ => (None, None))
    (fun _ _ _ _ => Sample.never_found 0%nat)
    (fun _ _ _ => None)
    (fun _ => [])
    (fun username => "/people/profile/" ++ username)
    (fun _ => false)
    (fun path => "/static/" ++ path)
    Sample.store_bbox
    (fun l => l)
    set_layer_style
    (fun _ c => c).

(** The temporary directory of the upload has been removed, with the SLD
    file in it. *)
Definition cleaned_up : Env.t := env_of false (fun _ _ _ c => c).

(** A [set_layer_style] that creates the style of the layer from the SLD
    without looking for an existing one. *)
Definition create_style_again (l : Layer.t) (alternate sld : string) (c : Catalog.t)
    : Catalog.t :=
  Catalog.set_styles
    (Catalog.styles c
       ++ [Style.mk (Some (DEFAULT_WORKSPACE Sample.base_settings)) (Layer.name l)])
    c.

Definition duplicating : Env.t := env_of true create_style_again.

(** The finalizer on upload 1 and layer 7 with an uploaded SLD file that
    is kept outside any temporary directory. *)
Definition finalize_uploaded (env : Env.t) : M unit :=
  geoserver_finalize_upload env 1 7 None true XmlOther (Some "/data/roads.sld")
    true None.

(** The state a first run of the finalizer leaves. *)
Definition finalized : World.t :=
  snd (Sample.finalize Sample.quiet_env None
         (Sample.world_of (Sample.roads "roads_store"))).

Definition finalized_uploaded : World.t :=
  snd (finalize_uploaded duplicating
         (Sample.world_of (Sample.roads "roads_store"))).

End Rerun.

(** * Properties *)

#[local] Arguments isinstance : simpl never.

(** ** Reasoning about control flow *)

Ltac run_monad :=
  unfold bind, gets, modify, ret, raise, lift, try_except, atomic, the_instance,
    set_instance, modify_registry, write_catalog, invoke; simpl.

Lemma isinstance_Exception e : isinstance e [ExceptionC] = true.
Proof. by destruct e. Qed.

Section Control.
Context {A B : Type}.

Lemma bind_normal (m : M A) (k : A -> M B) w a w' :
  m w = (Normal a, w') -> bind m k w = k a w'.
Proof. unfold bind. by intros ->. Qed.

Lemma bind_raised (m : M A) (k : A -> M B) w e w' :
  m w = (Raised e, w') -> bind m k w = (Raised e, w').
Proof. unfold bind. by intros ->. Qed.

Lemma bind_normal_inv (m : M A) (k : A -> M B) w b w' :
  bind m k w = (Normal b, w') ->
  exists a w1, m w = (Normal a, w1) /\ k a w1 = (Normal b, w').
Proof.
  unfold bind. destruct (m w) as [[a|v|e] w1]; intros H; try discriminate.
  eauto.
Qed.

End Control.

Lemma bind_assoc {A B C : Type} (m : M A) (k : A -> M B) (h : B -> M C) w :
  bind (bind m k) h w = bind m (fun x => bind (k x) h) w.
Proof. unfold bind. by destruct (m w) as [[a|v|e] w1]. Qed.

(** ** Observations that a block leaves alone *)

Section Stable.
Context {X : Type} (f : World.t -> X).

Lemma stable_ret {A} (a : A) : stable f (ret a).
Proof. by intros w. Qed.

Lemma stable_raise {A} e : stable f (@raise A e).
Proof. by intros w. Qed.

Lemma stable_return {A} v : stable f (@return_ A v).
Proof. by intros w. Qed.

Lemma stable_gets {A} (g : World.t -> A) : stable f (gets g).
Proof. by intros w. Qed.

Lemma stable_lift {A} (r : result A) : stable f (lift r).
Proof. by destruct r; intros w. Qed.

Lemma stable_modify g : (forall w, f (g w) = f w) -> stable f (modify g).
Proof. intros H w. apply H. Qed.

Lemma stable_bind {A B} (m : M A) (k : A -> M B) :
  stable f m -> (forall a, stable f (k a)) -> stable f (bind m k).
Proof.
  intros Hm Hk w. unfold bind. specialize (Hm w).
  destruct (m w) as [[a|v|e] w1]; simpl in *; [|done..].
  by rewrite Hk.
Qed.

Lemma stable_try_except {A} (m : M A) classes h :
  stable f m -> (forall e, stable f (h e)) -> stable f (try_except m classes h).
Proof.
  intros Hm Hh w. unfold try_except. specialize (Hm w).
  destruct (m w) as [[a|v|e] w1]; simpl in *; [done..|].
  destruct (isinstance e classes); [|done]. by rewrite Hh.
Qed.

Lemma stable_try_finally {A} (m : M A) fin :
  stable f m -> stable f fin -> stable f (try_finally m fin).
Proof.
  intros Hm Hf w. unfold try_finally. specialize (Hm w).
  destruct (m w) as [o w1]. specialize (Hf w1).
  destruct (fin w1) as [[a|v|e] w2]; simpl in *; congruence.
Qed.

Lemma stable_atomic {A} (m : M A) :
  (forall r w, f (World.set_registry r w) = f w) -> stable f m -> stable f (atomic m).
Proof.
  intros Hr Hm w. unfold atomic. specialize (Hm w).
  destruct (m w) as [[a|v|e] w1]; simpl in *; [done..|]. by rewrite Hr.
Qed.

Lemma stable_call_task (m : M unit) :
  (forall fr w, f (World.set_frame fr w) = f w) -> stable f m -> stable f (call_task m).
Proof.
  intros Hr Hm w. unfold call_task.
  specialize (Hm (World.set_frame (Frame.mk None None None) w)).
  destruct (m _) as [o w1]. simpl in Hm.
  destruct o; simpl; rewrite Hr, Hm; apply Hr.
Qed.

Lemma stable_the_instance : stable f the_instance.
Proof. intros w. unfold the_instance. by destruct (Frame.instance _). Qed.

Lemma stable_the_upload : stable f the_upload.
Proof. intros w. unfold the_upload. by destruct (Frame.upload _). Qed.

Lemma stable_the_gs_resource : stable f the_gs_resource.
Proof. intros w. unfold the_gs_resource. by destruct (Frame.gs_resource _). Qed.

Lemma stable_invoke env c :
  (forall w, f (World.set_trace (World.trace w ++ [c]) w) = f w) ->
  stable f (invoke env c).
Proof. intros H w. unfold invoke. destruct (Env.fault _ _ _); apply H. Qed.

End Stable.

Ltac stable_step :=
  lazymatch goal with
  | |- stable _ (bind _ _) => apply stable_bind; [|intros]
  | |- stable _ (ret _) => apply stable_ret
  | |- stable _ (raise _) => apply stable_raise
  | |- stable _ (return_ _) => apply stable_return
  | |- stable _ (gets _) => apply stable_gets
  | |- stable _ (lift _) => apply stable_lift
  | |- stable _ the_instance => apply stable_the_instance
  | |- stable _ the_upload => apply stable_the_upload
  | |- stable _ the_gs_resource => apply stable_the_gs_resource
  | |- stable _ (try_except _ _ _) => apply stable_try_except; [|intros]
  | |- stable _ (try_finally _ _) => apply stable_try_finally
  | |- stable _ (atomic _) => apply stable_atomic; [intros; reflexivity|]
  | |- stable _ (modify _) => apply stable_modify; intros; reflexivity
  | |- stable _ (if ?b then _ else _) => destruct b
  | |- stable _ (match ?x with _ => _ end) => destruct x
  end.

Create HintDb prims discriminated.
#[local] Hint Unfold set_instance modify_instance set_upload modify_upload
  set_gs_resource modify_gs_resource modify_registry write_catalog record : prims.

(** For observations that do not depend on the trace. *)
Ltac stable_tac :=
  repeat first
    [ stable_step
    | apply stable_invoke; intros; reflexivity
    | apply stable_call_task; [intros; reflexivity|]
    | progress autounfold with prims ].

(** ** The spatial-reference pattern *)

Lemma span_digits_all_digits s d rest :
  Srid.span_digits s = (d, rest) -> all_digits d = true.
Proof.
  revert d rest. induction s as [|c s IH]; intros d rest H; simpl in H.
  - inversion H. reflexivity.
  - destruct (Srid.is_digit c) eqn:Hc.
    + destruct (Srid.span_digits s) as [d' rest'] eqn:Hs.
      inversion H; subst. simpl. rewrite Hc. simpl. eapply IH. reflexivity.
    + inversion H. reflexivity.
Qed.

Lemma int_acc_all_digits d : forall acc,
  all_digits d = true -> exists z, Srid.int_acc acc d = Some z.
Proof.
  induction d as [|c d IH]; intros acc H; simpl in *.
  - eauto.
  - apply andb_true_iff in H as [Hc Hd]. rewrite Hc. apply IH. exact Hd.
Qed.

Lemma digits_4_6_some s d :
  Srid.digits_4_6 s = Some d -> all_digits d = true /\ d <> EmptyString.
Proof.
  unfold Srid.digits_4_6. destruct (Srid.span_digits s) as [d' rest] eqn:Hs.
  destruct (_ && _) eqn:Hc; [|discriminate].
  intros H; inversion H; subst. split.
  - eapply span_digits_all_digits; eauto.
  - intros ->. simpl in Hc. discriminate.
Qed.

Lemma re_match_some s d :
  Srid.re_match s = Some d -> all_digits d = true /\ d <> EmptyString.
Proof.
  unfold Srid.re_match.
  destruct (Srid.strip_prefix "EPSG:" s) as [s'|].
  - destruct (Srid.digits_4_6 s') as [d'|] eqn:H1.
    + intros H; inversion H; subst. eapply digits_4_6_some; eauto.
    + apply digits_4_6_some.
  - apply digits_4_6_some.
Qed.

Lemma py_int_digits d :
  all_digits d = true -> d <> EmptyString -> exists z, Srid.py_int d = Ok z.
Proof.
  intros Hd Hne. unfold Srid.py_int.
  destruct (int_acc_all_digits d 0%Z Hd) as [z Hz].
  destruct d; [congruence|]. rewrite Hz. eauto.
Qed.

Lemma srid_code_total srid : exists code, Srid.srid_code srid = Ok code.
Proof.
  unfold Srid.srid_code. destruct (Srid.re_match _) as [d|] eqn:H; [|eauto].
  apply re_match_some in H as [H1 H2]. by apply py_int_digits.
Qed.

(** C8: the parser of the bounding-box correction maps ["EPSG:3857"] to
    3857, the bare ["4326"] to 4326 and ["garbage"] to the fallback 4326;
    whatever the input, a string the pattern rejects gives 4326 and a
    string it accepts gives a number: no input makes the expression
    raise. *)
Theorem srid_parser_fallback_chain :
  Srid.srid_code (Some "EPSG:3857") = Ok 3857%Z
  /\ Srid.srid_code (Some "4326") = Ok 4326%Z
  /\ Srid.srid_code (Some "garbage") = Ok 4326%Z
  /\ forall srid : option string,
       match Srid.re_match (Srid.py_str srid) with
       | Some digits => exists code, Srid.srid_code srid = Ok code
       | None => Srid.srid_code srid = Ok 4326%Z
       end.
Proof.
  split; [reflexivity|]. split; [reflexivity|]. split; [reflexivity|].
  intros srid. destruct (Srid.re_match _) eqn:H.
  - apply srid_code_total.
  - unfold Srid.srid_code. by rewrite H.
Qed.

(** ** The bounded-retry fetch *)

Lemma fetch_attempts_app t c :
  fetch_attempts (t ++ [c]) = (fetch_attempts t + (if is_fetch c then 1 else 0))%nat.
Proof.
  induction t as [|c' t IH]; simpl.
  - destruct c; reflexivity.
  - destruct c'; simpl; rewrite IH; lia.
Qed.

Lemma fetches_invoke env c : is_fetch c = false -> stable fetches (invoke env c).
Proof.
  intros H. apply stable_invoke. intros w. unfold fetches. simpl.
  rewrite fetch_attempts_app, H. lia.
Qed.

Lemma fetches_record c : is_fetch c = false -> stable fetches (record c).
Proof.
  intros H. apply stable_modify. intros w. unfold fetches. simpl.
  rewrite fetch_attempts_app, H. lia.
Qed.

Ltac fetches_tac :=
  repeat first
    [ apply fetches_invoke; reflexivity
    | apply fetches_record; reflexivity
    | stable_step
    | progress autounfold with prims ].

Lemma fetches_refresh_derived env : stable fetches (refresh_derived env).
Proof. unfold refresh_derived, signal_send, set_styles. fetches_tac. Qed.

Lemma fetches_correct_srid env srid : stable fetches (correct_srid env srid).
Proof.
  unfold correct_srid, update_ll_bbox, layer_update, set_polygon_srid, refresh_from_db.
  fetches_tac.
Qed.

Lemma fetch_bound_stable {A} (m : M A) : stable fetches m -> fetch_bound 0 m.
Proof. intros H w. rewrite H. lia. Qed.

Lemma fetch_bound_bind {A B} a b (m : M A) (k : A -> M B) :
  fetch_bound a m -> (forall x, fetch_bound b (k x)) -> fetch_bound (a + b) (bind m k).
Proof.
  intros Hm Hk w. unfold bind. specialize (Hm w).
  destruct (m w) as [[x|v|e] w1]; simpl in *; try lia.
  specialize (Hk x w1). lia.
Qed.

Lemma fetch_bound_try_finally {A} a (m : M A) fin :
  fetch_bound a m -> stable fetches fin -> fetch_bound a (try_finally m fin).
Proof.
  intros Hm Hf w. unfold try_finally. specialize (Hm w).
  destruct (m w) as [o w1]. specialize (Hf w1).
  destruct (fin w1) as [[x|v|e] w2]; simpl in *; lia.
Qed.

Lemma fetch_bound_weaken {A} a b (m : M A) :
  (a <= b)%nat -> fetch_bound a m -> fetch_bound b m.
Proof. intros H Hm w. specialize (Hm w). lia. Qed.

Lemma fetch_loop_eq env fuel _max_tries values _tries :
  fetch_loop env fuel _max_tries values _tries =
  (gs_resource ← gets (fun w => Frame.gs_resource (World.frame w));
   if negb (truthy_obj gs_resource) && (_tries <? _max_tries)%nat then
     match fuel with
     | O => ret values
     | S fuel' =>
         values' ← fetch_gs_resource env values _tries;
         fetch_loop env fuel' _max_tries values' (S _tries)
     end
   else ret values).
Proof. destruct fuel; reflexivity. Qed.

Lemma fetch_gs_resource_bound env values _tries :
  fetch_bound 1 (fetch_gs_resource env values _tries).
Proof.
  intros w. unfold fetch_gs_resource, bind, the_instance, gets, invoke.
  destruct (Frame.instance (World.frame w)); simpl; [|lia].
  destruct (Env.fault _ _ _); simpl.
  - unfold fetches. simpl. rewrite fetch_attempts_app. simpl. lia.
  - destruct (Env.fetch_gs_resource _ _ _ _ _) as [v g]. simpl.
    unfold fetches. simpl. rewrite fetch_attempts_app. simpl. lia.
Qed.

Lemma fetch_loop_bound env fuel _max_tries : forall values _tries,
  fetch_bound (_max_tries - _tries) (fetch_loop env fuel _max_tries values _tries).
Proof.
  induction fuel as [|fuel IH]; intros values _tries.
  - apply (fetch_bound_weaken 0); [lia|]. apply fetch_bound_stable.
    simpl. repeat stable_step.
  - rewrite fetch_loop_eq. intros w. unfold bind at 1, gets.
    destruct (negb _ && _) eqn:Hc.
    + apply andb_true_iff in Hc as [_ Hlt]. apply Nat.ltb_lt in Hlt.
      pose proof (fetch_bound_bind 1 (_max_tries - S _tries)
        (fetch_gs_resource env values _tries)
        (fun v => fetch_loop env fuel _max_tries v (S _tries))
        (fetch_gs_resource_bound env values _tries)
        (fun v => IH v (S _tries)) w) as H.
      lia.
    + simpl. lia.
Qed.

Lemma bounded_retry_fetch_bound env values :
  fetch_bound (max_tries env + 1) (bounded_retry_fetch env values).
Proof.
  unfold bounded_retry_fetch.
  apply (fetch_bound_weaken (1 + (max_tries env - 0))); [lia|].
  apply fetch_bound_bind; [apply fetch_gs_resource_bound|].
  intros v. apply fetch_loop_bound.
Qed.

Lemma fetches_early_exits env : stable fetches (early_exits env).
Proof. unfold early_exits, signal_send. fetches_tac. Qed.

Lemma fetches_upload_if_needed env : stable fetches (upload_if_needed env).
Proof. unfold upload_if_needed. fetches_tac. Qed.

Lemma fetches_reconcile env values links : stable fetches (reconcile env values links).
Proof.
  unfold reconcile, sync_catalog_fields, push_to_catalog, catalog_save_resource,
    read_projection, resolve_srid, write_back, resourcebase_update,
    correct_srid, update_ll_bbox, layer_update, set_polygon_srid,
    set_bbox_polygon, refresh_from_db, refresh_derived, signal_send, set_styles.
  fetches_tac.
Qed.

Lemma fetches_finish_sessions env : stable fetches (finish_sessions env).
Proof. unfold finish_sessions, sessions_update, clear_dirty_state. fetches_tac. Qed.

Lemma reconcile_layer_bound env : fetch_bound (max_tries env + 1) (reconcile_layer env).
Proof.
  unfold reconcile_layer.
  apply (fetch_bound_bind 0 (max_tries env + 1)).
  { apply fetch_bound_stable. unfold sessions_update. fetches_tac. }
  intros _. apply (fetch_bound_bind 0 (max_tries env + 1)).
  { apply fetch_bound_stable. unfold set_dirty_state. fetches_tac. }
  intros _. apply (fetch_bound_bind 0 (max_tries env + 1)).
  { apply fetch_bound_stable. fetches_tac. }
  intros _. apply (fetch_bound_bind 0 (max_tries env + 1)).
  { apply fetch_bound_stable. apply fetches_upload_if_needed. }
  intros values. apply (fetch_bound_weaken (max_tries env + 1 + 0)); [lia|].
  apply fetch_bound_bind; [apply bounded_retry_fetch_bound|].
  intros values'. apply fetch_bound_stable.
  repeat (apply stable_bind; [|intros]).
  - apply stable_the_instance.
  - fetches_tac.
  - fetches_tac.
  - match goal with |- stable _ (if ?b then _ else _) => destruct b end;
      [apply fetches_reconcile|apply stable_ret].
  - apply fetches_finish_sessions.
  - fetches_tac.
Qed.

Lemma post_save_fetch_bound env instance_id :
  fetch_bound (max_tries env + 1) (geoserver_post_save_layers env instance_id).
Proof.
  unfold geoserver_post_save_layers.
  apply (fetch_bound_bind 0 (max_tries env + 1)).
  { apply fetch_bound_stable. unfold load_layer. fetches_tac. }
  intros _. unfold with_lock. apply fetch_bound_try_finally; [|fetches_tac].
  apply (fetch_bound_bind 0 (max_tries env + 1)); [apply fetch_bound_stable; fetches_tac|].
  intros t. apply (fetch_bound_bind 0 (max_tries env + 1)); [apply fetch_bound_stable; fetches_tac|].
  intros _. destruct (Env.lock_acquire _ _ _).
  - apply (fetch_bound_bind 0 (max_tries env + 1)).
    + apply fetch_bound_stable, fetches_early_exits.
    + intros _. apply reconcile_layer_bound.
  - apply (fetch_bound_weaken 0); [lia|]. apply fetch_bound_stable, stable_ret.
Qed.

Lemma fetch_gs_resource_run env values _tries w instance :
  Frame.instance (World.frame w) = Some instance ->
  Env.fault env (World.trace w) (FetchGsResource _tries) = None ->
  exists w',
    fetch_gs_resource env values _tries w =
      (Normal (fst (Env.fetch_gs_resource env (fetches w) instance values _tries)), w')
    /\ Frame.gs_resource (World.frame w') =
         snd (Env.fetch_gs_resource env (fetches w) instance values _tries)
    /\ Frame.instance (World.frame w') = Some instance
    /\ World.trace w' = (World.trace w ++ [FetchGsResource _tries])%list.
Proof.
  intros Hi Hf. unfold fetch_gs_resource, bind, the_instance, gets, invoke.
  rewrite Hi. simpl. rewrite Hf. unfold fetches.
  destruct (Env.fetch_gs_resource _ _ _ _ _) as [v g]. simpl.
  eexists. split; [reflexivity|]. simpl. by rewrite Hi.
Qed.

Lemma fetch_loop_finds env instance g _max_tries : forall k fuel _tries values w,
  Frame.instance (World.frame w) = Some instance ->
  Frame.gs_resource (World.frame w) = None ->
  (forall t n, Env.fault env t (FetchGsResource n) = None) ->
  (_tries + k < _max_tries)%nat ->
  (k < fuel)%nat ->
  (forall i v n, (i < k)%nat ->
     snd (Env.fetch_gs_resource env (fetches w + i) instance v n) = None) ->
  (forall v n,
     snd (Env.fetch_gs_resource env (fetches w + k) instance v n) = Some g) ->
  exists values' w',
    fetch_loop env fuel _max_tries values _tries w = (Normal values', w')
    /\ Frame.gs_resource (World.frame w') = Some g
    /\ fetches w' = (fetches w + k + 1)%nat.
Proof.
  induction k as [|k IH]; intros fuel _tries values w Hi Hg Hf Hlt Hfuel Hnone Hsome.
  - destruct fuel as [|fuel]; [lia|].
    rewrite fetch_loop_eq. unfold bind at 1, gets. rewrite Hg. simpl.
    assert (Ht : (_tries <? _max_tries)%nat = true) by (apply Nat.ltb_lt; lia).
    rewrite Ht.
    destruct (fetch_gs_resource_run env values _tries w instance Hi (Hf _ _))
      as (w1 & Hrun & Hgs & Hi1 & Htr).
    rewrite (bind_normal _ _ _ _ _ Hrun).
    rewrite fetch_loop_eq. unfold bind, gets.
    specialize (Hsome values _tries). rewrite Nat.add_0_r in Hsome.
    rewrite Hgs, Hsome. simpl.
    eexists _, _. split; [reflexivity|]. split; [by rewrite Hgs, Hsome|].
    unfold fetches. rewrite Htr, fetch_attempts_app. simpl. lia.
  - destruct fuel as [|fuel]; [lia|].
    rewrite fetch_loop_eq. unfold bind at 1, gets. rewrite Hg. simpl.
    assert (Ht : (_tries <? _max_tries)%nat = true) by (apply Nat.ltb_lt; lia).
    rewrite Ht.
    destruct (fetch_gs_resource_run env values _tries w instance Hi (Hf _ _))
      as (w1 & Hrun & Hgs & Hi1 & Htr).
    rewrite (bind_normal _ _ _ _ _ Hrun).
    assert (Hw1 : fetches w1 = (fetches w + 1)%nat).
    { unfold fetches. rewrite Htr, fetch_attempts_app. simpl. lia. }
    destruct (IH fuel (S _tries)
                (fst (Env.fetch_gs_resource env (fetches w) instance values _tries)) w1)
      as (v' & w' & Hloop & Hfound & Hcount); try done; try lia.
    + rewrite Hgs. specialize (Hnone 0%nat values _tries).
      rewrite Nat.add_0_r in Hnone. apply Hnone. lia.
    + intros i v n Hik. rewrite Hw1.
      replace (fetches w + 1 + i)%nat with (fetches w + S i)%nat by lia.
      apply Hnone. lia.
    + intros v n. rewrite Hw1.
      replace (fetches w + 1 + k)%nat with (fetches w + S k)%nat by lia.
      apply Hsome.
    + exists v', w'. split; [exact Hloop|]. split; [exact Hfound|]. lia.
Qed.

Lemma bounded_retry_fetch_finds env instance g k values w :
  Frame.instance (World.frame w) = Some instance ->
  (forall t n, Env.fault env t (FetchGsResource n) = None) ->
  (k < max_tries env)%nat ->
  (forall i v n, (i < k)%nat ->
     snd (Env.fetch_gs_resource env (fetches w + i) instance v n) = None) ->
  (forall v n,
     snd (Env.fetch_gs_resource env (fetches w + k) instance v n) = Some g) ->
  exists values' w',
    bounded_retry_fetch env values w = (Normal values', w')
    /\ Frame.gs_resource (World.frame w') = Some g
    /\ fetches w' = (fetches w + k + 1)%nat.
Proof.
  intros Hi Hf Hk Hnone Hsome. unfold bounded_retry_fetch.
  destruct (fetch_gs_resource_run env values 0 w instance Hi (Hf _ _))
    as (w1 & Hrun & Hgs & Hi1 & Htr).
  rewrite (bind_normal _ _ _ _ _ Hrun).
  assert (Hw1 : fetches w1 = (fetches w + 1)%nat).
  { unfold fetches. rewrite Htr, fetch_attempts_app. simpl. lia. }
  destruct k as [|k].
  - specialize (Hsome values 0%nat). rewrite Nat.add_0_r in Hsome.
    rewrite fetch_loop_eq. unfold bind, gets. rewrite Hgs, Hsome. simpl.
    eexists _, _. split; [reflexivity|]. split; [by rewrite Hgs, Hsome|]. lia.
  - destruct (fetch_loop_finds env instance g (max_tries env) k (max_tries env) 0
                (fst (Env.fetch_gs_resource env (fetches w) instance values 0)) w1)
      as (v' & w' & Hloop & Hfound & Hcount); try done; try lia.
    + rewrite Hgs. specialize (Hnone 0%nat values 0%nat).
      rewrite Nat.add_0_r in Hnone. apply Hnone. lia.
    + intros i v n Hik. rewrite Hw1.
      replace (fetches w + 1 + i)%nat with (fetches w + S i)%nat by lia.
      apply Hnone. lia.
    + intros v n. rewrite Hw1.
      replace (fetches w + 1 + k)%nat with (fetches w + S k)%nat by lia.
      apply Hsome.
    + exists v', w'. split; [exact Hloop|]. split; [exact Hfound|]. lia.
Qed.

(** C3: if the catalog answers not-found to the first [k] lookups of a run,
    with [k < MAX_RETRIES], and then answers with the resource, the
    bounded-retry fetch ends normally with that resource in [gs_resource],
    after [k + 1] lookups; no run of the reconciler, whatever the
    collaborators do, makes more than [MAX_RETRIES + 1] lookups; and
    [MAX_RETRIES] is 2 when the server settings do not give it. *)
Theorem bounded_retry_fetch_observes_within_bound :
  (forall env instance g k values w,
     Frame.instance (World.frame w) = Some instance ->
     (forall t n, Env.fault env t (FetchGsResource n) = None) ->
     (k < max_tries env)%nat ->
     (forall i v n, (i < k)%nat ->
        snd (Env.fetch_gs_resource env (fetches w + i) instance v n) = None) ->
     (forall v n,
        snd (Env.fetch_gs_resource env (fetches w + k) instance v n) = Some g) ->
     exists values' w',
       bounded_retry_fetch env values w = (Normal values', w')
       /\ Frame.gs_resource (World.frame w') = Some g
       /\ fetches w' = (fetches w + k + 1)%nat)
  /\ (forall env instance_id w,
        (fetches (snd (geoserver_post_save_layers env instance_id w))
         <= fetches w + (max_tries env + 1))%nat)
  /\ (forall env,
        MAX_RETRIES (Env.ogc_server_settings env) = None -> max_tries env = 2%nat).
Proof.
  split; [|split].
  - intros env instance g k values w. apply bounded_retry_fetch_finds.
  - intros env instance_id w. apply post_save_fetch_bound.
  - intros env H. unfold max_tries. by rewrite H.
Qed.

Lemma bounded_retry_fetch_observes_within_bound_witness :
  (exists values' w',
     bounded_retry_fetch
       (Sample.env_with Sample.no_fault None
          (Sample.found_after 1 Sample.bare_resource))
       None (Sample.world_at (Sample.roads "roads_store")) = (Normal values', w')
     /\ Frame.gs_resource (World.frame w') = Some Sample.bare_resource
     /\ fetches w' =
          (fetches (Sample.world_at (Sample.roads "roads_store")) + 1 + 1)%nat)
  /\ (fetches (snd (Sample.reconcile_run Sample.quiet_env "roads_store"))
       <= fetches (Sample.world_of (Sample.roads "roads_store"))
          + (max_tries Sample.quiet_env + 1))%nat
  /\ max_tries Sample.quiet_env = 2%nat.
Proof.
  destruct bounded_retry_fetch_observes_within_bound as (Hfinds & Hbound & Hdefault).
  split; [|split].
  - apply (Hfinds _ (Sample.roads "roads_store")).
    + reflexivity.
    + reflexivity.
    + vm_compute. lia.
    + intros i v n Hi. destruct i as [|i]; [reflexivity|lia].
    + reflexivity.
  - apply Hbound.
  - apply Hdefault. reflexivity.
Defined.

(** ** Style replacement *)

Lemma precedes_nil a b : precedes a b [].
Proof. intros [|x before] after H; discriminate. Qed.

Lemma precedes_skip a b x t : x <> b -> precedes a b t -> precedes a b (x :: t).
Proof.
  intros Hx Ht [|y before] after H; simpl in H.
  - inversion H. congruence.
  - inversion H; subst. right. eapply Ht. reflexivity.
Qed.

Lemma precedes_here a b t : a <> b -> precedes a b (a :: t).
Proof.
  intros Hx [|y before] after H; simpl in H.
  - inversion H. congruence.
  - inversion H; subst. by left.
Qed.

Lemma find_style_none ws name l :
  find_style ws name l = None -> ~ In (Style.mk ws name) l.
Proof.
  induction l as [|s l IH]; simpl; [tauto|].
  case_bool_decide as Hs; [discriminate|].
  intros Hf [->|Hin]; [done|]. by apply IH.
Qed.

Ltac calls_tac :=
  unfold new_calls; simpl; rewrite <- ?app_assoc; rewrite ?drop_app_length; simpl;
  repeat first
    [ apply precedes_nil
    | apply precedes_here; discriminate
    | apply precedes_skip; [discriminate|] ].

Ltac states_tac :=
  unfold new_states; simpl; rewrite <- ?app_assoc; rewrite ?drop_app_length;
  rewrite ?drop_all; simpl.

(** C5: in the style replacement of [geoserver_create_style], a deletion
    of the old default style only ever follows the save that reassigns the
    layer's default style, and every state the catalog goes through from
    that save on, the state after the deletion included, has the new style
    as the layer's default.  The old default style is assumed to be a
    style of the catalog. *)
Theorem replace_style_reassigns_before_delete env name sld w :
  (forall s, layer_default (World.catalog w) name = Some s ->
             In s (Catalog.styles (World.catalog w))) ->
  precedes CatalogSaveLayer CatalogDelete
    (new_calls w (snd (replace_style env name sld w)))
  /\ Forall
       (fun c => layer_default c name =
                 Some (Style.mk (Some (DEFAULT_WORKSPACE (Env.settings env))) name))
       (drop 1 (new_states w (snd (replace_style env name sld w)))).
Proof.
  intros Hcons.
  unfold replace_style, catalog_get_style, catalog_create_style,
    catalog_get_layer, catalog_save_layer, set_styles, catalog_delete.
  run_monad.
  destruct (Env.fault env (World.trace w) CatalogGetStyle) eqn:Hf1; simpl.
  { split; [calls_tac|states_tac; constructor]. }
  destruct (find_style _ name _) as [existing|] eqn:Hfind; simpl.
  { split; [calls_tac|states_tac; constructor]. }
  destruct (Env.fault env _ CatalogCreateStyle) eqn:Hf2; simpl.
  { split; [calls_tac|states_tac; constructor]. }
  destruct (Env.fault env _ CatalogGetLayer) eqn:Hf3; simpl.
  { split; [calls_tac|states_tac; constructor]. }
  destruct (Catalog.layers (World.catalog w) !! name) as [l|] eqn:Hl; simpl.
  2: { split; [calls_tac|states_tac; constructor]. }
  destruct (Env.fault env _ CatalogSaveLayer) eqn:Hf4; simpl.
  { split; [calls_tac|states_tac; constructor]. }
  assert (Hnew : forall rest,
    layer_default
      (Catalog.set_layers
         (<[name:=GsLayer.mk
                    (Some (Style.mk (Some (DEFAULT_WORKSPACE (Env.settings env))) name))]>
            (Catalog.layers (World.catalog w))) rest) name
    = Some (Style.mk (Some (DEFAULT_WORKSPACE (Env.settings env))) name)).
  { intros rest. unfold layer_default. simpl. by rewrite lookup_insert_eq. }
  destruct (Frame.instance (World.frame w)) as [instance|] eqn:Hi; simpl.
  2: { split; [calls_tac|states_tac; repeat constructor; apply Hnew]. }
  destruct (Env.fault env _ SetStyles) eqn:Hf5; simpl.
  { split; [calls_tac|states_tac; repeat constructor; apply Hnew]. }
  destruct (GsLayer.default_style l) as [old|] eqn:Hold; simpl.
  2: { split; [calls_tac|states_tac; repeat constructor; apply Hnew]. }
  destruct (Env.fault env _ CatalogDelete) eqn:Hf6; simpl.
  { rewrite isinstance_Exception. simpl.
    split; [calls_tac|states_tac; repeat constructor; apply Hnew]. }
  split; [calls_tac|states_tac; repeat constructor; try apply Hnew].
  unfold layer_default, drop_style. simpl.
  rewrite lookup_fmap, lookup_insert_eq. simpl.
  case_decide as Heq; [|done].
  exfalso. inversion Heq as [Heq'].
  apply (find_style_none _ _ _ Hfind). rewrite Heq'.
  apply Hcons. unfold layer_default. by rewrite Hl.
Qed.

Lemma replace_style_reassigns_before_delete_witness :
  (forall s, layer_default Sample.catalog0 "roads" = Some s ->
             In s (Catalog.styles Sample.catalog0))
  /\ precedes CatalogSaveLayer CatalogDelete
       (new_calls (Sample.world_at (Sample.roads "roads_store"))
          (snd (replace_style Sample.quiet_env "roads" "<sld/>"
                  (Sample.world_at (Sample.roads "roads_store")))))
  /\ Forall
       (fun c => layer_default c "roads" = Some Sample.roads_style)
       (drop 1
          (new_states (Sample.world_at (Sample.roads "roads_store"))
             (snd (replace_style Sample.quiet_env "roads" "<sld/>"
                     (Sample.world_at (Sample.roads "roads_store")))))).
Proof.
  assert (Hcons : forall s, layer_default Sample.catalog0 "roads" = Some s ->
                            In s (Catalog.styles Sample.catalog0)).
  { intros s Hs. vm_compute in Hs. inversion Hs. simpl. by left. }
  split; [exact Hcons|].
  exact (replace_style_reassigns_before_delete Sample.quiet_env "roads" "<sld/>"
           (Sample.world_at (Sample.roads "roads_store")) Hcons).
Defined.

(** ** The second atomic update of the reconciler *)

Lemma correct_srid_outcome env srid w :
  fst (correct_srid env srid w) = Normal tt
  /\ (World.registry (snd (correct_srid env srid w)) = World.registry w
      \/ exists instance p code,
           Frame.instance (World.frame w) = Some instance
           /\ Layer.bbox_polygon instance = Some p
           /\ (Srid.srid_code srid = Ok code \/ code = 4326%Z)
           /\ World.registry (snd (correct_srid env srid w)) =
                Registry.set_layers
                  (alter (ll_bbox_written srid code p) (Layer.id instance)
                     (Registry.layers (World.registry w)))
                  (World.registry w)).
Proof.
  destruct (srid_code_total srid) as [code Hcode].
  unfold correct_srid, update_ll_bbox, layer_update, set_polygon_srid, refresh_from_db.
  rewrite Hcode. run_monad.
  destruct (Frame.instance (World.frame w)) as [instance|] eqn:Hi; simpl.
  2: { rewrite Hi. simpl. split; [done|by left]. }
  destruct (Layer.bbox_polygon instance) as [p|] eqn:Hp; simpl.
  2: { rewrite Hi. simpl. rewrite Hp. simpl. split; [done|by left]. }
  repeat first
    [ progress simpl
    | rewrite isinstance_Exception
    | match goal with
      | |- context [match Env.fault ?e ?t ?c with _ => _ end] =>
          destruct (Env.fault e t c) eqn:?
      | |- context [match (alter ?f ?k ?m) !! ?k' with _ => _ end] =>
          destruct (alter f k m !! k') eqn:?
      end ];
  (split; [done|]);
  first [ by left | right; exists instance, p; eauto 10 ].
Qed.

Lemma correct_srid_primary env srid w instance p row code :
  Frame.instance (World.frame w) = Some instance ->
  Layer.bbox_polygon instance = Some p ->
  Registry.layers (World.registry w) !! Layer.id instance = Some row ->
  Srid.srid_code srid = Ok code ->
  Env.fault env (World.trace w) (LayerUpdate 3) = None ->
  Env.fault env (World.trace w ++ [LayerUpdate 3]) RefreshFromDb = None ->
  Registry.layers (World.registry (snd (correct_srid env srid w)))
    !! Layer.id instance = Some (ll_bbox_written srid code p row).
Proof.
  intros Hi Hp Hrow Hcode Hf1 Hf2.
  unfold correct_srid, update_ll_bbox, layer_update, set_polygon_srid, refresh_from_db.
  rewrite Hcode. run_monad. rewrite Hi. simpl. rewrite Hp. simpl.
  rewrite Hf1. simpl. rewrite Hf2. simpl.
  rewrite lookup_alter_eq, Hrow. simpl. by rewrite lookup_alter_eq, Hrow.
Qed.

Lemma correct_srid_fallback env srid w instance p row e :
  Frame.instance (World.frame w) = Some instance ->
  Layer.bbox_polygon instance = Some p ->
  Registry.layers (World.registry w) !! Layer.id instance = Some row ->
  Env.fault env (World.trace w) (LayerUpdate 3) = Some e ->
  Env.fault env (World.trace w ++ [LayerUpdate 3]) (LayerUpdate 4) = None ->
  Env.fault env ((World.trace w ++ [LayerUpdate 3]) ++ [LayerUpdate 4])
    RefreshFromDb = None ->
  Registry.layers (World.registry (snd (correct_srid env srid w)))
    !! Layer.id instance = Some (ll_bbox_written srid 4326 p row).
Proof.
  intros Hi Hp Hrow Hf1 Hf2 Hf3.
  destruct (srid_code_total srid) as [code Hcode].
  unfold correct_srid, update_ll_bbox, layer_update, set_polygon_srid, refresh_from_db.
  rewrite Hcode. run_monad. rewrite Hi. simpl. rewrite Hp. simpl.
  rewrite Hf1. simpl. rewrite isinstance_Exception. simpl.
  rewrite Hf2. simpl. rewrite Hf3. simpl.
  rewrite lookup_alter_eq, Hrow. simpl. by rewrite lookup_alter_eq, Hrow.
Qed.

(** C10: the correction block always ends normally, and the registry it
    leaves is either the one it found or that registry with the layer's
    row rewritten by [ll_bbox_written]: the [srid] column receives the
    value [srid] as it was read, unparsed, and the numeric code (the parsed
    one, or 4326) goes only into the SRID of the polygon stored in
    [ll_bbox_polygon].  When the primary update succeeds the row carries
    the parsed code or the 4326 fallback; when it fails and the nested
    update succeeds the row carries 4326; in both the [srid] column is
    [srid] verbatim. *)
Theorem correct_srid_keeps_srid_verbatim :
  (forall env srid w,
     fst (correct_srid env srid w) = Normal tt
     /\ (World.registry (snd (correct_srid env srid w)) = World.registry w
         \/ exists instance p code,
              Frame.instance (World.frame w) = Some instance
              /\ Layer.bbox_polygon instance = Some p
              /\ (Srid.srid_code srid = Ok code \/ code = 4326%Z)
              /\ World.registry (snd (correct_srid env srid w)) =
                   Registry.set_layers
                     (alter (ll_bbox_written srid code p) (Layer.id instance)
                        (Registry.layers (World.registry w)))
                     (World.registry w)))
  /\ (forall env srid w instance p row code,
        Frame.instance (World.frame w) = Some instance ->
        Layer.bbox_polygon instance = Some p ->
        Registry.layers (World.registry w) !! Layer.id instance = Some row ->
        Srid.srid_code srid = Ok code ->
        Env.fault env (World.trace w) (LayerUpdate 3) = None ->
        Env.fault env (World.trace w ++ [LayerUpdate 3]) RefreshFromDb = None ->
        exists row',
          Registry.layers (World.registry (snd (correct_srid env srid w)))
            !! Layer.id instance = Some row'
          /\ Layer.srid row' = srid
          /\ Layer.ll_bbox_polygon row' = Some (Polygon.mk (Polygon.extent p) (Some code)))
  /\ (forall env srid w instance p row e,
        Frame.instance (World.frame w) = Some instance ->
        Layer.bbox_polygon instance = Some p ->
        Registry.layers (World.registry w) !! Layer.id instance = Some row ->
        Env.fault env (World.trace w) (LayerUpdate 3) = Some e ->
        Env.fault env (World.trace w ++ [LayerUpdate 3]) (LayerUpdate 4) = None ->
        Env.fault env ((World.trace w ++ [LayerUpdate 3]) ++ [LayerUpdate 4])
          RefreshFromDb = None ->
        exists row',
          Registry.layers (World.registry (snd (correct_srid env srid w)))
            !! Layer.id instance = Some row'
          /\ Layer.srid row' = srid
          /\ Layer.ll_bbox_polygon row' =
               Some (Polygon.mk (Polygon.extent p) (Some 4326%Z))).
Proof.
  split; [exact correct_srid_outcome|]. split.
  - intros env srid w instance p row code Hi Hp Hrow Hcode Hf1 Hf2.
    eexists. split; [by eapply correct_srid_primary|]. by split.
  - intros env srid w instance p row e Hi Hp Hrow Hf1 Hf2 Hf3.
    eexists. split; [by eapply correct_srid_fallback|]. by split.
Qed.

Lemma correct_srid_keeps_srid_verbatim_witness :
  (exists row',
     Registry.layers
       (World.registry
          (snd (correct_srid Sample.quiet_env (Some "garbage")
                  (Sample.world_at (Sample.roads_boxed (Some "garbage"))))))
       !! 7%nat = Some row'
     /\ Layer.srid row' = Some "garbage"
     /\ Layer.ll_bbox_polygon row' =
          Some (Polygon.mk ["0"; "0"; "10"; "20"] (Some 4326%Z)))
  /\ (exists row',
        Registry.layers
          (World.registry
             (snd (correct_srid
                     (Sample.env_with (Sample.fault_on (LayerUpdate 3) "registry")
                        None Sample.never_found)
                     (Some "EPSG:3857")
                     (Sample.world_at (Sample.roads_boxed (Some "EPSG:3857"))))))
          !! 7%nat = Some row'
        /\ Layer.srid row' = Some "EPSG:3857"
        /\ Layer.ll_bbox_polygon row' =
             Some (Polygon.mk ["0"; "0"; "10"; "20"] (Some 4326%Z))).
Proof.
  destruct correct_srid_keeps_srid_verbatim as (_ & Hprimary & Hfallback).
  split.
  - apply (Hprimary Sample.quiet_env (Some "garbage")
             (Sample.world_at (Sample.roads_boxed (Some "garbage")))
             (Sample.roads_boxed (Some "garbage"))
             (Polygon.mk ["0"; "0"; "10"; "20"] None)
             (Sample.roads_boxed (Some "garbage")) 4326%Z);
      reflexivity.
  - apply (Hfallback
             (Sample.env_with (Sample.fault_on (LayerUpdate 3) "registry")
                None Sample.never_found)
             (Some "EPSG:3857")
             (Sample.world_at (Sample.roads_boxed (Some "EPSG:3857")))
             (Sample.roads_boxed (Some "EPSG:3857"))
             (Polygon.mk ["0"; "0"; "10"; "20"] None)
             (Sample.roads_boxed (Some "EPSG:3857"))
             (ExternalError "registry"));
      reflexivity.
Defined.

(** ** The upload finalizer *)

Lemma uploads_set_style env instance_id base_file :
  stable uploads_of (geoserver_set_style env instance_id base_file).
Proof.
  unfold geoserver_set_style, load_layer, with_lock, open_read, set_layer_style.
  stable_tac.
Qed.

Lemma uploads_create_style env instance_id name sld_file tempdir :
  stable uploads_of (geoserver_create_style env instance_id name sld_file tempdir).
Proof.
  unfold geoserver_create_style, load_layer, with_lock, open_sld, open_text,
    replace_style, get_sld_for, catalog_get_style, catalog_create_style,
    catalog_get_layer, catalog_save_layer, set_styles, catalog_delete.
  stable_tac.
Qed.

Lemma finalize_stages_eq env import_id permissions created xml_file sld_file
    sld_uploaded tempdir :
  finalize_stages env import_id permissions created xml_file sld_file
    sld_uploaded tempdir =
  (link_upload env import_id;;
   stages_after_link env permissions created xml_file sld_file sld_uploaded tempdir).
Proof. reflexivity. Qed.

Lemma uploads_stages_after_link env permissions created xml_file sld_file
    sld_uploaded tempdir :
  stable uploads_of
    (stages_after_link env permissions created xml_file sld_file sld_uploaded tempdir).
Proof.
  unfold stages_after_link, update_upload_sessions, sessions_update,
    check_metadata, resolve_gs_resource, catalog_get_resource,
    update_gs_resource, catalog_save_resource, assign_style, apply_permissions,
    instance_save.
  repeat first
    [ apply uploads_set_style | apply uploads_create_style | stable_step
    | apply stable_invoke; intros; reflexivity
    | apply stable_call_task; [intros; reflexivity|]
    | progress autounfold with prims ].
Qed.

Lemma upload_call_task m : stable upload_of (call_task m).
Proof.
  intros w. unfold call_task. destruct (m _) as [o w']. by destruct o.
Qed.

Lemma upload_stages_after_link env permissions created xml_file sld_file
    sld_uploaded tempdir :
  stable upload_of
    (stages_after_link env permissions created xml_file sld_file sld_uploaded tempdir).
Proof.
  unfold stages_after_link, update_upload_sessions, sessions_update,
    check_metadata, resolve_gs_resource, catalog_get_resource,
    update_gs_resource, catalog_save_resource, assign_style, apply_permissions,
    instance_save.
  repeat first
    [ apply upload_call_task | stable_step
    | apply stable_invoke; intros; reflexivity
    | progress autounfold with prims ].
Qed.

Lemma completed_stable {A} import_id (m : M A) w :
  stable uploads_of m -> completed import_id w -> completed import_id (snd (m w)).
Proof. intros Hm (u & Hu & Hc). exists u. by rewrite Hm. Qed.

Lemma completed_link_upload env import_id w :
  completed import_id w -> completed import_id (snd (link_upload env import_id w)).
Proof.
  intros (u & Hu & Hc). unfold uploads_of in Hu.
  unfold link_upload, upload_save, modify_upload, the_upload, set_upload.
  run_monad. rewrite Hu. simpl.
  destruct (Frame.instance (World.frame w)) as [instance|]; simpl;
    [|by exists u].
  destruct (Env.fault env _ UploadSave); simpl; [by exists u|].
  unfold completed, uploads_of. simpl.
  destruct (decide (Upload.import_id u = import_id)) as [->|Hne].
  - rewrite lookup_insert_eq. eauto.
  - rewrite lookup_insert_ne by done. eauto.
Qed.

Lemma completed_mark_complete env import_id w :
  completed import_id w -> completed import_id (snd (mark_complete env w)).
Proof.
  intros (u & Hu & Hc). unfold uploads_of in Hu.
  unfold mark_complete, upload_save, modify_upload, the_upload, set_upload.
  run_monad.
  destruct (Frame.upload (World.frame w)) as [u1|]; simpl; [|by exists u].
  destruct (Env.fault env _ UploadSave); simpl; [by exists u|].
  unfold completed, uploads_of. simpl.
  destruct (decide (Upload.import_id u1 = import_id)) as [<-|Hne].
  - rewrite lookup_insert_eq. eauto.
  - rewrite lookup_insert_ne by done. eauto.
Qed.

Lemma completed_cleanup env import_id tempdir w :
  completed import_id w ->
  completed import_id (snd (cleanup_and_complete env tempdir w)).
Proof.
  intros Hc. unfold cleanup_and_complete, try_finally.
  assert (Hs : stable uploads_of
    (try_except (remove_tempdir env tempdir) [ExceptionC] (fun _ => ret ()))).
  { unfold remove_tempdir. stable_tac. }
  pose proof (completed_stable import_id _ w Hs Hc) as Hc1.
  destruct (try_except _ _ _ w) as [o w1]. simpl in Hc1.
  pose proof (completed_mark_complete env import_id w1 Hc1) as Hc2.
  by destruct (mark_complete env w1) as [[[]|v|e] w2].
Qed.

Lemma finalizer_keeps_complete env import_id instance_id permissions created
    xml_file sld_file sld_uploaded tempdir w :
  completed import_id w ->
  completed import_id
    (snd (geoserver_finalize_upload env import_id instance_id permissions created
            xml_file sld_file sld_uploaded tempdir w)).
Proof.
  intros Hc. unfold geoserver_finalize_upload.
  assert (H1 : stable uploads_of (load_layer instance_id)).
  { unfold load_layer. stable_tac. }
  unfold bind at 1. pose proof (completed_stable import_id _ w H1 Hc) as Hc1.
  destruct (load_layer instance_id w) as [[[]|v|e] w1]; simpl in Hc1; try done.
  unfold with_lock, try_finally.
  match goal with |- completed _ (snd (let '(o, w1) := ?body ?w in _)) =>
    assert (Hb : completed import_id (snd (body w))) end.
  { unfold bind at 1, gets. unfold bind at 1.
    unfold record at 1, modify.
    set (w2 := World.set_trace _ w1).
    assert (Hc2 : completed import_id w2) by exact Hc1.
    clearbody w2. destruct (Env.lock_acquire _ _ _); [|exact Hc2].
    unfold finalize_locked. rewrite finalize_stages_eq.
    unfold bind at 1. unfold bind at 1.
    pose proof (completed_link_upload env import_id w2 Hc2) as Hc3.
    destruct (link_upload env import_id w2) as [[[]|v|e] w3]; simpl in Hc3; try done.
    pose proof (completed_stable import_id _ w3
      (uploads_stages_after_link env permissions created xml_file sld_file
         sld_uploaded tempdir) Hc3) as Hc4.
    destruct (stages_after_link _ _ _ _ _ _ _ w3) as [[[]|v|e] w4];
      simpl in Hc4; try done.
    unfold bind at 1.
    pose proof (completed_cleanup env import_id tempdir w4 Hc4) as Hc5.
    destruct (cleanup_and_complete env tempdir w4) as [[[]|v|e] w5];
      simpl in Hc5; try done.
    apply completed_stable; [|done]. unfold signal_send. stable_tac. }
  match goal with |- completed _ (snd (let '(o, w1) := ?body ?w in _)) =>
    destruct (body w) as [o w6] end.
  simpl in Hb. unfold record, modify. simpl. exact Hb.
Qed.

Lemma replace_style_existing env name sld w s :
  find_style (Some (DEFAULT_WORKSPACE (Env.settings env))) name
    (Catalog.styles (World.catalog w)) = Some s ->
  snd (replace_style env name sld w) =
    World.set_trace (World.trace w ++ [CatalogGetStyle]) w.
Proof.
  intros Hs. unfold replace_style, catalog_get_style. run_monad.
  destruct (Env.fault env _ CatalogGetStyle); simpl; [done|].
  by rewrite Hs.
Qed.

Lemma replace_style_nodup env name sld w :
  NoDup (Catalog.styles (World.catalog w)) ->
  NoDup (Catalog.styles (World.catalog (snd (replace_style env name sld w)))).
Proof.
  intros Hnd.
  unfold replace_style, catalog_get_style, catalog_create_style,
    catalog_get_layer, catalog_save_layer, set_styles, catalog_delete.
  run_monad.
  destruct (Env.fault env (World.trace w) CatalogGetStyle) eqn:Hf1; simpl; [done|].
  destruct (find_style _ name _) as [existing|] eqn:Hfind; simpl; [done|].
  destruct (Env.fault env _ CatalogCreateStyle) eqn:Hf2; simpl; [done|].
  assert (Hnew : NoDup (Catalog.styles (World.catalog w) ++
            [Style.mk (Some (DEFAULT_WORKSPACE (Env.settings env))) name])).
  { apply NoDup_app. split; [done|]. split; [|apply NoDup_singleton].
    intros x Hx Hx'. apply list_elem_of_In in Hx. apply list_elem_of_In in Hx'.
    destruct Hx' as [<-|[]]. by apply (find_style_none _ _ _ Hfind). }
  destruct (Env.fault env _ CatalogGetLayer) eqn:Hf3; simpl; [done|].
  destruct (Catalog.layers (World.catalog w) !! name) as [l|] eqn:Hl; simpl; [|done].
  destruct (Env.fault env _ CatalogSaveLayer) eqn:Hf4; simpl; [done|].
  destruct (Frame.instance (World.frame w)) as [instance|] eqn:Hi; simpl; [|done].
  destruct (Env.fault env _ SetStyles) eqn:Hf5; simpl; [done|].
  destruct (GsLayer.default_style l) as [old|] eqn:Hold; simpl; [|done].
  destruct (Env.fault env _ CatalogDelete) eqn:Hf6; simpl.
  { by rewrite isinstance_Exception. }
  by apply NoDup_filter.
Qed.

(** ** Reruns of the finalizer *)

Section Hoare.
Context {A B : Type}.

Lemma hoare_bind (P R Q : World.t -> Prop) (m : M A) (k : A -> M B) :
  hoare P m R -> (forall w, R w -> Q w) -> (forall a, hoare R (k a) Q) ->
  hoare P (bind m k) Q.
Proof.
  intros Hm HRQ Hk w HP. unfold bind. specialize (Hm w HP).
  destruct (m w) as [[a|v|e] w1]; simpl in *; auto. by apply Hk.
Qed.

Lemma hoare_try_except (P R Q : World.t -> Prop) (m : M A) classes h :
  hoare P m R -> (forall w, R w -> Q w) -> (forall e, hoare R (h e) Q) ->
  hoare P (try_except m classes h) Q.
Proof.
  intros Hm HRQ Hh w HP. unfold try_except. specialize (Hm w HP).
  destruct (m w) as [[a|v|e] w1]; simpl in *; auto.
  destruct (isinstance e classes); simpl; auto. by apply Hh.
Qed.

Lemma hoare_try_finally (P R Q : World.t -> Prop) (m : M A) fin :
  hoare P m R -> hoare R fin Q -> hoare P (try_finally m fin) Q.
Proof.
  intros Hm Hf w HP. unfold try_finally. specialize (Hm w HP).
  destruct (m w) as [o w1]. simpl in Hm. specialize (Hf w1 Hm).
  by destruct (fin w1) as [[a|v|e] w2].
Qed.

Lemma hoare_stable {X : Type} (f : World.t -> X) (P : X -> Prop) (m : M A) :
  stable f m -> hoare (fun w => P (f w)) m (fun w => P (f w)).
Proof. intros Hm w HP. by rewrite Hm. Qed.

End Hoare.

Lemma hoare_call_task (P Q : World.t -> Prop) (m : M unit) :
  (forall fr w, P w -> P (World.set_frame fr w)) ->
  (forall fr w, Q w -> Q (World.set_frame fr w)) ->
  hoare P m Q -> hoare P (call_task m) Q.
Proof.
  intros HP HQ Hm w Hw. unfold call_task.
  specialize (Hm _ (HP (Frame.mk None None None) w Hw)).
  destruct (m _) as [o w1]. simpl in Hm.
  destruct o; simpl; by apply HQ.
Qed.

Lemma style_writes_app w c :
  is_style_write c = false ->
  style_state (World.set_trace (World.trace w ++ [c]) w) = style_state w.
Proof.
  intros H. unfold style_state, style_writes, styles_of. simpl.
  by rewrite List.filter_app; simpl; rewrite H, app_nil_r.
Qed.

Lemma style_state_invoke env c :
  is_style_write c = false -> stable style_state (invoke env c).
Proof. intros H. apply stable_invoke. intros w. by apply style_writes_app. Qed.

Lemma style_state_record c :
  is_style_write c = false -> stable style_state (record c).
Proof. intros H. apply stable_modify. intros w. by apply style_writes_app. Qed.

Ltac style_tac :=
  repeat first
    [ apply style_state_invoke; reflexivity
    | apply style_state_record; reflexivity
    | stable_step
    | progress autounfold with prims ].

Lemma name_modify_instance f :
  (forall l, Layer.name (f l) = Layer.name l) ->
  stable instance_name (modify_instance f).
Proof.
  intros H w. unfold modify_instance, set_instance, instance_name.
  run_monad. destruct (Frame.instance (World.frame w)) eqn:E; simpl.
  - by rewrite H.
  - by rewrite E.
Qed.

Ltac name_tac :=
  repeat first
    [ apply name_modify_instance; intros; reflexivity
    | stable_step
    | apply stable_invoke; intros; reflexivity
    | progress autounfold with prims ].

Section Rerun.
Variables (env : Env.t) (w0 : World.t) (name : string) (s : Style.t).
Hypothesis style_exists :
  find_style (Some (DEFAULT_WORKSPACE (Env.settings env))) name (styles_of w0)
  = Some s.

Lemma unwritten_after b w : unwritten w0 w -> after_style env b w0 w.
Proof.
  unfold unwritten, after_style, style_state. intros [= H1 H2].
  split; [done|]. by left.
Qed.

Lemma unwritten_stable {A} (m : M A) :
  stable style_state m -> hoare (unwritten w0) m (unwritten w0).
Proof. intros Hm. apply (hoare_stable style_state (fun x => x = style_state w0) m Hm). Qed.

Lemma after_stable {A} b (m : M A) :
  stable style_state m -> hoare (after_style env b w0) m (after_style env b w0).
Proof.
  intros Hm w [H1 H2]. specialize (Hm w). unfold style_state in Hm.
  injection Hm as Hw Hs. unfold after_style, styles_kept_or_from_helper.
  rewrite Hw, Hs. by split.
Qed.

Lemma before_stable {A} (m : M A) :
  stable style_state m -> stable instance_name m ->
  hoare (before_style w0 name) m (before_style w0 name).
Proof.
  intros Hm Hn w [H1 H2]. unfold before_style, unwritten.
  by rewrite Hm, Hn.
Qed.

Lemma replace_style_skipped sld :
  hoare (unwritten w0) (replace_style env name sld) (unwritten w0).
Proof.
  intros w Hw. unfold unwritten in *.
  assert (Hs : styles_of w = styles_of w0) by (by injection Hw).
  rewrite (replace_style_existing env name sld w s).
  - rewrite <- Hw. by apply style_writes_app.
  - unfold styles_of in Hs. rewrite Hs. exact style_exists.
Qed.

Lemma get_sld_for_after instance :
  hoare (unwritten w0) (get_sld_for env instance) (after_style env false w0).
Proof.
  intros w Hw. unfold get_sld_for. run_monad.
  destruct (Env.fault env _ GetSldFor); simpl.
  - apply unwritten_after. unfold unwritten. rewrite <- Hw.
    by apply style_writes_app.
  - unfold unwritten, style_state in Hw. injection Hw as H1 H2.
    split.
    + unfold style_writes in *. simpl. rewrite List.filter_app. simpl.
      by rewrite app_nil_r.
    + right. exists instance, (World.catalog w). split; [exact H2|done].
Qed.

Lemma set_layer_style_after instance alternate sld :
  hoare (unwritten w0) (set_layer_style env instance alternate sld)
    (after_style env true w0).
Proof.
  intros w Hw. unfold set_layer_style. run_monad.
  destruct (Env.fault env _ SetLayerStyle); simpl.
  - apply unwritten_after. unfold unwritten. rewrite <- Hw.
    by apply style_writes_app.
  - unfold unwritten, style_state in Hw. injection Hw as H1 H2.
    split.
    + unfold style_writes in *. simpl. rewrite List.filter_app. simpl.
      by rewrite app_nil_r.
    + right. exists instance, (World.catalog w). split; [exact H2|].
      by exists alternate, sld.
Qed.

Ltac leaf := apply unwritten_stable; style_tac.

Lemma with_lock_after b task body :
  (forall acquired, hoare (unwritten w0) (body acquired) (after_style env b w0)) ->
  hoare (unwritten w0) (with_lock env task body) (after_style env b w0).
Proof.
  intros Hbody. unfold with_lock.
  apply (hoare_try_finally _ (after_style env b w0)).
  - apply (hoare_bind (unwritten w0) (unwritten w0));
      [leaf|apply unwritten_after|].
    intros t; cbv beta.
    apply (hoare_bind (unwritten w0) (unwritten w0));
    [leaf|apply unwritten_after|].
    intros ?; cbv beta. apply Hbody.
  - apply after_stable. style_tac.
Qed.

Lemma create_style_after instance_id sld_file tempdir :
  hoare (unwritten w0) (geoserver_create_style env instance_id name sld_file tempdir)
    (after_style env false w0).
Proof.
  unfold geoserver_create_style.
  apply (hoare_bind (unwritten w0) (unwritten w0));
    [unfold load_layer; leaf|apply unwritten_after|].
  intros ?; cbv beta. apply with_lock_after. intros acquired.
  apply (hoare_bind (unwritten w0) (unwritten w0));
    [leaf|apply unwritten_after|].
  intros loaded; cbv beta. destruct (acquired && truthy_obj loaded);
    [|intros w Hw; by apply unwritten_after].
  apply (hoare_bind (unwritten w0) (unwritten w0));
    [leaf|apply unwritten_after|].
  intros instance; cbv beta. destruct sld_file as [path|]; [|apply get_sld_for_after].
  destruct (truthy path && Env.path_exists env path && Env.path_access env path);
    [|apply get_sld_for_after].
  apply (hoare_bind (unwritten w0) (unwritten w0));
    [unfold open_sld, open_text; leaf|apply unwritten_after|].
  intros [opened|]; [|apply get_sld_for_after].
  apply (hoare_bind (unwritten w0) (unwritten w0));
    [leaf|apply unwritten_after|].
  intros ? w Hw; cbv beta. apply unwritten_after. by apply replace_style_skipped.
Qed.

Lemma set_style_after instance_id base_file :
  hoare (unwritten w0) (geoserver_set_style env instance_id base_file)
    (after_style env true w0).
Proof.
  unfold geoserver_set_style.
  apply (hoare_bind (unwritten w0) (unwritten w0));
    [unfold load_layer; leaf|apply unwritten_after|].
  intros ?; cbv beta. apply with_lock_after. intros acquired.
  destruct acquired; [|intros w Hw; by apply unwritten_after].
  apply (hoare_try_except (unwritten w0) (after_style env true w0)); [|done|].
  - apply (hoare_bind (unwritten w0) (unwritten w0));
      [unfold open_read; leaf|apply unwritten_after|].
    intros sld; cbv beta.
    apply (hoare_bind (unwritten w0) (unwritten w0));
    [leaf|apply unwritten_after|].
    intros instance; cbv beta. apply set_layer_style_after.
  - intros e. apply after_stable. style_tac.
Qed.

Lemma assign_style_after sld_uploaded sld_file tempdir :
  hoare (before_style w0 name) (assign_style env sld_uploaded sld_file tempdir)
    (after_style env sld_uploaded w0).
Proof.
  intros w [Hw Hn]. unfold assign_style. unfold bind at 1. unfold the_instance.
  unfold instance_name in Hn.
  destruct (Frame.instance (World.frame w)) as [instance|] eqn:Hi;
    [|discriminate].
  injection Hn as Hn.
  assert (Hframe : forall b fr w1,
             after_style env b w0 w1 ->
             after_style env b w0 (World.set_frame fr w1)) by done.
  destruct sld_uploaded.
  - apply (hoare_call_task (unwritten w0) (after_style env true w0)); try done.
    apply set_style_after.
  - rewrite Hn.
    apply (hoare_call_task (unwritten w0) (after_style env false w0)); try done.
    apply create_style_after.
Qed.

Lemma finalize_locked_after import_id permissions created xml_file sld_file
    sld_uploaded tempdir :
  hoare (before_style w0 name)
    (finalize_locked env import_id permissions created xml_file sld_file
       sld_uploaded tempdir)
    (after_style env sld_uploaded w0).
Proof.
  assert (Hweak : forall w, before_style w0 name w ->
                            after_style env sld_uploaded w0 w).
  { intros w [Hw _]. by apply unwritten_after. }
  unfold finalize_locked, finalize_stages.
  apply (hoare_bind (before_style w0 name) (after_style env sld_uploaded w0));
    [|done|].
  - apply (hoare_bind (before_style w0 name) (before_style w0 name));
      [|done|intros ?; cbv beta].
    { apply before_stable;
        unfold link_upload, upload_save; [style_tac|name_tac]. }
    apply (hoare_bind (before_style w0 name) (before_style w0 name));
      [|done|intros ?; cbv beta].
    { apply before_stable;
        unfold update_upload_sessions, sessions_update; [style_tac|name_tac]. }
    apply (hoare_bind (before_style w0 name) (before_style w0 name));
      [|done|intros ?; cbv beta].
    { apply before_stable; unfold check_metadata; [style_tac|name_tac]. }
    apply (hoare_bind (before_style w0 name) (before_style w0 name));
      [|done|intros ?; cbv beta].
    { apply before_stable;
        unfold resolve_gs_resource, catalog_get_resource; [style_tac|name_tac]. }
    apply (hoare_bind (before_style w0 name) (before_style w0 name));
      [|done|intros ?; cbv beta].
    { apply before_stable;
        unfold update_gs_resource, catalog_save_resource; [style_tac|name_tac]. }
    apply (hoare_bind (before_style w0 name) (after_style env sld_uploaded w0));
      [|done|intros ?; cbv beta].
    { apply assign_style_after. }
    apply after_stable. unfold apply_permissions, instance_save. style_tac.
  - intros ?; cbv beta. apply after_stable.
    unfold cleanup_and_complete, remove_tempdir, mark_complete, upload_save,
      signal_send.
    style_tac.
Qed.

End Rerun.




Lemma link_upload_normal env import_id w w1 :
  link_upload env import_id w = (Normal tt, w1) -> exists u, upload_of w1 = Some u.
Proof.
  unfold link_upload, upload_save, modify_upload, the_upload, set_upload.
  run_monad.
  destruct (Registry.uploads (World.registry w) !! import_id) as [u|]; simpl;
    [|discriminate].
  destruct (Frame.instance (World.frame w)) as [instance|]; simpl; [|discriminate].
  destruct (Env.fault env _ UploadSave); simpl; [discriminate|].
  intros H; inversion H; subst. unfold upload_of. simpl. eauto.
Qed.

Lemma finalize_stages_upload env import_id permissions created xml_file sld_file
    sld_uploaded tempdir w w1 :
  finalize_stages env import_id permissions created xml_file sld_file
    sld_uploaded tempdir w = (Normal tt, w1) ->
  exists u, upload_of w1 = Some u.
Proof.
  rewrite finalize_stages_eq. intros H.
  apply bind_normal_inv in H as ([] & w0 & Hlink & Hrest).
  apply link_upload_normal in Hlink as [u Hu]. exists u.
  pose proof (upload_stages_after_link env permissions created xml_file sld_file
                sld_uploaded tempdir w0) as Hs.
  rewrite Hrest in Hs. simpl in Hs. by rewrite Hs.
Qed.

Ltac after_cleanup cleanup Hf :=
  first
    [ exists cleanup, []; simpl; unfold upload_of, uploads_of; simpl;
      rewrite <- ?app_assoc; simpl; rewrite ?app_nil_r;
      repeat split; auto; intros H; rewrite Hf in H; discriminate
    | destruct (Env.fault _ _ (SignalSend _)); simpl;
      exists cleanup, [SignalSend "upload_complete"]; simpl;
      unfold upload_of, uploads_of; simpl; rewrite <- ?app_assoc; simpl;
      repeat split; auto; intros _; by rewrite lookup_insert_eq ].

(** C2, as amended: when the stages of the locked block that precede the
    cleanup end without an uncaught failure, the block goes on with the
    cleanup attempt (at most one [rmtree] call), then sets
    [upload.complete] and calls [upload.save()] exactly once, whether the
    cleanup was skipped, succeeded or failed, and then at most sends the
    signal; when that save succeeds the stored Upload Record is complete. *)
Theorem upload_marked_complete_after_cleanup env import_id permissions created
    xml_file sld_file sld_uploaded tempdir w w1 :
  finalize_stages env import_id permissions created xml_file sld_file
    sld_uploaded tempdir w = (Normal tt, w1) ->
  exists u cleanup rest,
    upload_of w1 = Some u
    /\ (cleanup = [] \/ cleanup = [Rmtree])
    /\ (rest = [] \/ rest = [SignalSend "upload_complete"])
    /\ World.trace
         (snd (finalize_locked env import_id permissions created xml_file
                 sld_file sld_uploaded tempdir w))
       = (World.trace w1 ++ cleanup ++ UploadSave :: rest)%list
    /\ upload_of
         (snd (finalize_locked env import_id permissions created xml_file
                 sld_file sld_uploaded tempdir w))
       = Some (Upload.set_complete true u)
    /\ (Env.fault env (World.trace w1 ++ cleanup) UploadSave = None ->
        uploads_of
          (snd (finalize_locked env import_id permissions created xml_file
                  sld_file sld_uploaded tempdir w))
          !! Upload.import_id u = Some (Upload.set_complete true u)).
Proof.
  intros Hst. destruct (finalize_stages_upload _ _ _ _ _ _ _ _ _ _ Hst) as [u Hu].
  exists u. unfold finalize_locked. rewrite (bind_normal _ _ _ _ _ Hst).
  unfold upload_of in Hu.
  unfold cleanup_and_complete, remove_tempdir, mark_complete, upload_save,
    modify_upload, the_upload, set_upload, signal_send, try_finally.
  run_monad.
  destruct tempdir as [d|]; simpl.
  2: { rewrite Hu. simpl.
       destruct (Env.fault env (World.trace w1) UploadSave) eqn:Hf; simpl;
         after_cleanup (@nil call) Hf. }
  destruct (truthy d && Env.path_exists env d); simpl.
  2: { rewrite Hu. simpl.
       destruct (Env.fault env (World.trace w1) UploadSave) eqn:Hf; simpl;
         after_cleanup (@nil call) Hf. }
  destruct (Env.fault env (World.trace w1) Rmtree); simpl;
    rewrite ?isinstance_Exception; simpl; rewrite Hu; simpl.
  all: destruct (Env.fault env (World.trace w1 ++ [Rmtree]) UploadSave) eqn:Hf;
    simpl; after_cleanup [Rmtree] Hf.
Qed.

Lemma upload_marked_complete_after_cleanup_witness :
  exists u cleanup rest,
    upload_of
      (snd (Sample.stages
              (Sample.env_with (Sample.fault_on Rmtree "disk") None Sample.never_found)
              (Sample.world_at (Sample.roads "roads_store")))) = Some u
    /\ (cleanup = [] \/ cleanup = [Rmtree])
    /\ (rest = [] \/ rest = [SignalSend "upload_complete"])
    /\ World.trace
         (snd (Sample.locked
                 (Sample.env_with (Sample.fault_on Rmtree "disk") None
                    Sample.never_found)
                 (Sample.world_at (Sample.roads "roads_store"))))
       = (World.trace
            (snd (Sample.stages
                    (Sample.env_with (Sample.fault_on Rmtree "disk") None
                       Sample.never_found)
                    (Sample.world_at (Sample.roads "roads_store"))))
          ++ cleanup ++ UploadSave :: rest)%list
    /\ upload_of
         (snd (Sample.locked
                 (Sample.env_with (Sample.fault_on Rmtree "disk") None
                    Sample.never_found)
                 (Sample.world_at (Sample.roads "roads_store"))))
       = Some (Upload.set_complete true u)
    /\ (Env.fault
          (Sample.env_with (Sample.fault_on Rmtree "disk") None Sample.never_found)
          (World.trace
             (snd (Sample.stages
                     (Sample.env_with (Sample.fault_on Rmtree "disk") None
                        Sample.never_found)
                     (Sample.world_at (Sample.roads "roads_store"))))
           ++ cleanup) UploadSave = None ->
        uploads_of
          (snd (Sample.locked
                  (Sample.env_with (Sample.fault_on Rmtree "disk") None
                     Sample.never_found)
                  (Sample.world_at (Sample.roads "roads_store"))))
          !! Upload.import_id u = Some (Upload.set_complete true u)).
Proof.
  apply (upload_marked_complete_after_cleanup
           (Sample.env_with (Sample.fault_on Rmtree "disk") None Sample.never_found)
           1 (Some "{}") true XmlOther (Some "/tmp/upload/roads.sld") false
           (Some "/tmp/upload") (Sample.world_at (Sample.roads "roads_store"))).
  vm_compute. reflexivity.
Defined.

(** C2, refuted as stated: when permission application fails, the finalizer
    ends with that failure and the Upload Record is left incomplete. *)
Lemma failed_permissions_leave_upload_incomplete :
  fst (Sample.finalize
         (Sample.env_with (Sample.fault_on SetPermissions "permissions") None
            Sample.never_found)
         (Some "{}") (Sample.world_of (Sample.roads "roads_store")))
    = Raised (ExternalError "permissions")
  /\ Upload.complete <$>
       Sample.upload_row
         (snd (Sample.finalize
                 (Sample.env_with (Sample.fault_on SetPermissions "permissions")
                    None Sample.never_found)
                 (Some "{}") (Sample.world_of (Sample.roads "roads_store"))))
     = Some false.
Proof. split; vm_compute; reflexivity. Qed.

Lemma finalize_locked_split env import_id permissions created xml_file sld_file
    sld_uploaded tempdir w w1 :
  stages_before_style env import_id xml_file w = (Normal tt, w1) ->
  finalize_locked env import_id permissions created xml_file sld_file
    sld_uploaded tempdir w =
  (assign_style env sld_uploaded sld_file tempdir;;
   stages_after_style env permissions created tempdir) w1.
Proof.
  unfold stages_before_style, finalize_locked, finalize_stages, stages_after_style.
  intros H.
  apply bind_normal_inv in H as ([] & wa & Ha & H).
  apply bind_normal_inv in H as ([] & wb & Hb & H).
  apply bind_normal_inv in H as ([] & wc & Hc & H).
  apply bind_normal_inv in H as ([] & wd & Hd & H).
  rewrite !bind_assoc.
  rewrite (bind_normal _ _ _ _ _ Ha). rewrite !bind_assoc.
  rewrite (bind_normal _ _ _ _ _ Hb). rewrite !bind_assoc.
  rewrite (bind_normal _ _ _ _ _ Hc). rewrite !bind_assoc.
  rewrite (bind_normal _ _ _ _ _ Hd). rewrite !bind_assoc.
  rewrite (bind_normal _ _ _ _ _ H). rewrite !bind_assoc.
  reflexivity.
Qed.

(** C6, as amended: the finalizer calls the style task function
    ([geoserver_set_style] for an uploaded SLD, [geoserver_create_style]
    otherwise) in line.  The task body runs to its end in the state the
    earlier stages left; when it ends without raising, the later stages
    start from the state it left; when it raises, the locked block ends
    with that failure in that state and none of the later stages runs. *)
Theorem style_task_runs_inline env import_id permissions created xml_file
    sld_file sld_uploaded tempdir w w1 instance o w2 :
  stages_before_style env import_id xml_file w = (Normal tt, w1) ->
  Frame.instance (World.frame w1) = Some instance ->
  style_task env instance sld_uploaded sld_file tempdir
    (World.set_frame (Frame.mk None None None) w1) = (o, w2) ->
  finalize_locked env import_id permissions created xml_file sld_file
    sld_uploaded tempdir w =
  match o with
  | Raised e => (Raised e, World.set_frame (World.frame w1) w2)
  | Normal _ | Returned _ =>
      stages_after_style env permissions created tempdir
        (World.set_frame (World.frame w1) w2)
  end.
Proof.
  intros Hpre Hi Hstyle.
  rewrite (finalize_locked_split _ _ _ _ _ _ _ _ _ _ Hpre).
  unfold assign_style, style_task in *.
  unfold bind at 1. unfold bind at 1. unfold the_instance. rewrite Hi.
  destruct sld_uploaded; unfold call_task; rewrite Hstyle; by destruct o.
Qed.

Lemma style_task_runs_inline_witness :
  Sample.locked
    (Sample.env_with (Sample.fault_on CatalogCreateStyle "catalog") None
       Sample.never_found)
    (Sample.world_at (Sample.roads "roads_store"))
  = (Raised (ExternalError "catalog"),
     World.set_frame
       (World.frame
          (snd (stages_before_style
                  (Sample.env_with (Sample.fault_on CatalogCreateStyle "catalog")
                     None Sample.never_found)
                  1 XmlOther (Sample.world_at (Sample.roads "roads_store")))))
       (snd (style_task
               (Sample.env_with (Sample.fault_on CatalogCreateStyle "catalog")
                  None Sample.never_found)
               (Layer.set_upload_session (Some 1%nat) (Sample.roads "roads_store"))
               false (Some "/tmp/upload/roads.sld") (Some "/tmp/upload")
               (World.set_frame (Frame.mk None None None)
                  (snd (stages_before_style
                          (Sample.env_with
                             (Sample.fault_on CatalogCreateStyle "catalog")
                             None Sample.never_found)
                          1 XmlOther
                          (Sample.world_at (Sample.roads "roads_store")))))))).
Proof.
  apply (style_task_runs_inline
           (Sample.env_with (Sample.fault_on CatalogCreateStyle "catalog") None
              Sample.never_found)
           1 (Some "{}") true XmlOther (Some "/tmp/upload/roads.sld") false
           (Some "/tmp/upload") (Sample.world_at (Sample.roads "roads_store"))
           _ (Layer.set_upload_session (Some 1%nat) (Sample.roads "roads_store"))
           (Raised (ExternalError "catalog"))).
  - vm_compute. reflexivity.
  - vm_compute. reflexivity.
  - vm_compute. reflexivity.
Defined.

(** C6, refuted as stated: when the style task fails, the finalizer ends
    with that failure right after it; permissions, persisting, cleanup and
    the completion of the Upload Record do not happen. *)
Lemma failed_style_task_aborts_finalizer :
  fst (Sample.finalize
         (Sample.env_with (Sample.fault_on CatalogCreateStyle "catalog") None
            Sample.never_found)
         (Some "{}") (Sample.world_of (Sample.roads "roads_store")))
    = Raised (ExternalError "catalog")
  /\ World.trace
       (snd (Sample.finalize
               (Sample.env_with (Sample.fault_on CatalogCreateStyle "catalog")
                  None Sample.never_found)
               (Some "{}") (Sample.world_of (Sample.roads "roads_store"))))
     = [LockAcquire "geoserver_finalize_upload"; UploadSave;
        SessionsUpdate false; SessionsFirst; CatalogGetResource 1;
        LockAcquire "geoserver_create_style"; OpenFile; ReadFile;
        CatalogGetStyle; CatalogCreateStyle;
        LockRelease "geoserver_create_style";
        LockRelease "geoserver_finalize_upload"]
  /\ Upload.complete <$>
       Sample.upload_row
         (snd (Sample.finalize
                 (Sample.env_with (Sample.fault_on CatalogCreateStyle "catalog")
                    None Sample.never_found)
                 (Some "{}") (Sample.world_of (Sample.roads "roads_store"))))
     = Some false.
Proof. repeat split; vm_compute; reflexivity. Qed.

(** ** The post-save reconciler *)

(** C4, as amended: when the instance has no SRID at the resolution step,
    a bounding polygon makes the reconciler default the SRID to
    [EPSG:4326]; without a polygon it raises [GeoNodeException] with the
    missing-CRS message, nothing in [reconcile] catches it, and the task's
    options make the executor retry it like any other [Exception], up to
    three times. *)
Theorem unresolved_srid_defaults_or_raises env w instance :
  Frame.instance (World.frame w) = Some instance ->
  truthy_opt (Layer.srid instance) = false ->
  (forall p, Layer.bbox_polygon instance = Some p ->
     resolve_srid w =
       (Normal tt,
        World.set_frame
          (Frame.set_instance
             (Some (Layer.set_srid (Some "EPSG:4326") instance)) (World.frame w)) w))
  /\ (Layer.bbox_polygon instance = None ->
      resolve_srid w = (Raised (GeoNodeException missing_crs), w)
      /\ forall values metadata_links w0 srid bbox,
           reconcile_prefix env values metadata_links w0 = (Normal (srid, bbox), w) ->
           reconcile env values metadata_links w0 =
             (Raised (GeoNodeException missing_crs), w))
  /\ forall retries,
       autoretry geoserver_post_save_layers_options
         (GeoNodeException missing_crs) retries = (retries <? 3)%nat.
Proof.
  intros Hi Hs. split; [|split].
  - intros p Hp. unfold resolve_srid, modify_instance. run_monad.
    rewrite Hi. simpl. rewrite Hs, Hp. simpl. by rewrite Hi.
  - intros Hp.
    assert (Hr : resolve_srid w = (Raised (GeoNodeException missing_crs), w)).
    { unfold resolve_srid, modify_instance. run_monad.
      rewrite Hi. simpl. by rewrite Hs, Hp. }
    split; [exact Hr|].
    intros values metadata_links w0 srid bbox Hpre.
    unfold reconcile_prefix in Hpre. unfold reconcile.
    apply bind_normal_inv in Hpre as ([] & wa & Ha & Hpre).
    apply bind_normal_inv in Hpre as ([] & wb & Hb & Hpre).
    rewrite (bind_normal _ _ _ _ _ Ha), (bind_normal _ _ _ _ _ Hb),
      (bind_normal _ _ _ _ _ Hpre).
    by rewrite (bind_raised _ _ _ _ _ Hr).
  - intros retries. reflexivity.
Qed.

Lemma unresolved_srid_defaults_or_raises_witness :
  resolve_srid (Sample.world_at (Sample.roads_boxed None))
    = (Normal tt,
       World.set_frame
         (Frame.set_instance
            (Some (Layer.set_srid (Some "EPSG:4326") (Sample.roads_boxed None)))
            (World.frame (Sample.world_at (Sample.roads_boxed None))))
         (Sample.world_at (Sample.roads_boxed None)))
  /\ resolve_srid (Sample.world_at (Sample.roads "roads_store"))
     = (Raised (GeoNodeException missing_crs),
        Sample.world_at (Sample.roads "roads_store"))
  /\ autoretry geoserver_post_save_layers_options
       (GeoNodeException missing_crs) 0 = true.
Proof.
  split; [|split].
  - apply (unresolved_srid_defaults_or_raises Sample.quiet_env
             (Sample.world_at (Sample.roads_boxed None)) (Sample.roads_boxed None)
             eq_refl eq_refl)
      with (p := Polygon.mk ["0"; "0"; "10"; "20"] None).
    reflexivity.
  - apply (unresolved_srid_defaults_or_raises Sample.quiet_env
             (Sample.world_at (Sample.roads "roads_store"))
             (Sample.roads "roads_store") eq_refl eq_refl).
    reflexivity.
  - apply (unresolved_srid_defaults_or_raises Sample.quiet_env
             (Sample.world_at (Sample.roads "roads_store"))
             (Sample.roads "roads_store") eq_refl eq_refl).
Defined.

(** C4, refuted as stated: the missing-CRS error leaves the task uncaught
    and the task's [autoretry_for] covers it, so the executor retries
    it. *)
Lemma missing_crs_error_is_retried :
  fst Sample.run_missing_crs = Raised (GeoNodeException missing_crs)
  /\ autoretry geoserver_post_save_layers_options
       (GeoNodeException missing_crs) 0 = true.
Proof. split; vm_compute; reflexivity. Qed.

Lemma finish_sessions_clears_dirty env w instance :
  Frame.instance (World.frame w) = Some instance ->
  exists w',
    finish_sessions env w = (Normal tt, w')
    /\ Layer.dirty_state <$> Frame.instance (World.frame w') = Some false
    /\ forall row,
         Registry.layers (World.registry w) !! Layer.id instance = Some row ->
         Layer.dirty_state <$>
           (Registry.layers (World.registry w') !! Layer.id instance) = Some false.
Proof.
  intros Hi.
  unfold finish_sessions, sessions_update, clear_dirty_state, try_finally.
  run_monad. rewrite Hi. simpl.
  destruct (Env.fault env _ (SessionsUpdate true)); simpl;
    rewrite ?isinstance_Exception; simpl; rewrite Hi; simpl;
    (eexists; split; [reflexivity|]; simpl; split; [done|]);
    intros row Hrow; by rewrite lookup_alter_eq, Hrow.
Qed.

(** C1: the dirty flag is set at entry, and it is still set when the
    reconciler leaves by the early return for a missing base file or by
    the missing-CRS error: both exits lie outside the [try ... finally]
    that clears the flag.  A run that reaches that block clears it. *)
Theorem dirty_flag_survives_early_exits :
  Layer.dirty_state <$> Sample.row (Sample.world_of (Sample.roads "")) = Some false
  /\ fst Sample.run_no_base_file = Returned RNone
  /\ Layer.dirty_state <$> Sample.row (snd Sample.run_no_base_file) = Some true
  /\ fst Sample.run_missing_crs = Raised (GeoNodeException missing_crs)
  /\ Layer.dirty_state <$> Sample.row (snd Sample.run_missing_crs) = Some true
  /\ fst (Sample.run_complete (PyStr "true")) = Normal tt
  /\ Layer.dirty_state <$> Sample.row (snd (Sample.run_complete (PyStr "true")))
     = Some false.
Proof. repeat split; vm_compute; reflexivity. Qed.

Lemma push_to_catalog_advertises env w instance g :
  Frame.instance (World.frame w) = Some instance ->
  Frame.gs_resource (World.frame w) = Some g ->
  RESOURCE_PUBLISHING (Env.settings env) = true ->
  py_bool_ne (Layer.is_published instance) (GsResource.advertised g) = true ->
  exists g',
    Frame.gs_resource (World.frame (snd (push_to_catalog env w))) = Some g'
    /\ GsResource.advertised g' = PyStr "true".
Proof.
  intros Hi Hg Hpub Hne.
  unfold push_to_catalog, catalog_save_resource, modify_gs_resource,
    the_gs_resource, set_gs_resource.
  run_monad. repeat (progress (simpl; rewrite ?Hpub, ?Hi, ?Hg, ?Hne)).
  destruct (existsb truthy (Layer.keyword_list instance)); simpl;
    destruct (default true (BACKEND_WRITE_ENABLED (Env.ogc_server_settings env)));
    simpl;
    repeat match goal with
      | |- context [match Env.fault ?e ?t ?c with _ => _ end] =>
          destruct (Env.fault e t c); simpl
      end;
    rewrite ?isinstance_Exception; simpl; eauto.
Qed.

(** C9: with publishing enabled, an unpublished resource whose catalog
    entry is advertised, or carries the string ['false'], ends with the
    advertised flag ['true'] pushed to the catalog: on a difference the
    flag is assigned the constant, not the published state. *)
Theorem advertised_set_true_for_unpublished :
  RESOURCE_PUBLISHING (Env.settings Sample.quiet_env) = true
  /\ Layer.is_published (Sample.roads "roads_store") = false
  /\ Sample.pushed_advertised (snd (Sample.run_complete (PyBool true)))
     = Some (PyStr "true")
  /\ Sample.pushed_advertised (snd (Sample.run_complete (PyStr "false")))
     = Some (PyStr "true")
  /\ Sample.pushed_advertised (snd (Sample.run_complete (PyBool false)))
     = Some (PyBool false).
Proof. repeat split; vm_compute; reflexivity. Qed.

(** ** Further properties of the tasks *)

Lemma load_layer_found instance_id w l :
  Registry.layers (World.registry w) !! instance_id = Some l ->
  load_layer instance_id w =
    (Normal tt,
     World.set_frame
       (Frame.set_instance (Some l) (Frame.set_instance None (World.frame w))) w).
Proof.
  intros H. unfold load_layer. run_monad. by rewrite H.
Qed.

Lemma load_layer_missing instance_id w :
  Registry.layers (World.registry w) !! instance_id = None ->
  load_layer instance_id w =
    (Raised (DoesNotExist "Layer"),
     World.set_frame (Frame.set_instance None (World.frame w)) w).
Proof.
  intros H. unfold load_layer. run_monad. by rewrite H.
Qed.

Lemma with_lock_run env task body w :
  with_lock env task body w =
    (fst (body (Env.lock_acquire env (World.trace w) task)
            (World.set_trace (World.trace w ++ [LockAcquire task]) w)),
     World.set_trace
       (World.trace
          (snd (body (Env.lock_acquire env (World.trace w) task)
                  (World.set_trace (World.trace w ++ [LockAcquire task]) w)))
        ++ [LockRelease task])
       (snd (body (Env.lock_acquire env (World.trace w) task)
               (World.set_trace (World.trace w ++ [LockAcquire task]) w)))).
Proof.
  unfold with_lock, try_finally, record. run_monad.
  by destruct (body _ _) as [[a|v|e] w1].
Qed.

(** X1: when the registry has no layer with the given id, each of the four
    tasks raises [Layer.DoesNotExist] before it asks for its lock: no
    collaborator is called and the registry and the catalog are as they
    were. *)
Theorem missing_layer_raises_before_lock env instance_id w :
  Registry.layers (World.registry w) !! instance_id = None ->
  aborted_on_load w (geoserver_post_save_layers env instance_id w)
  /\ (forall base_file,
        aborted_on_load w (geoserver_set_style env instance_id base_file w))
  /\ (forall name sld_file tempdir,
        aborted_on_load w
          (geoserver_create_style env instance_id name sld_file tempdir w))
  /\ (forall import_id permissions created xml_file sld_file sld_uploaded tempdir,
        aborted_on_load w
          (geoserver_finalize_upload env import_id instance_id permissions
             created xml_file sld_file sld_uploaded tempdir w)).
Proof.
  intros Hmiss.
  assert (Hgen : forall k : unit -> M unit,
    aborted_on_load w (bind (load_layer instance_id) k w)).
  { intros k. rewrite (bind_raised _ _ _ _ _ (load_layer_missing _ _ Hmiss)).
    by repeat split. }
  repeat split; intros; apply Hgen.
Qed.

Lemma missing_layer_raises_before_lock_witness :
  aborted_on_load Cases.stored
    (geoserver_post_save_layers Sample.quiet_env 8 Cases.stored)
  /\ aborted_on_load Cases.stored
       (geoserver_finalize_upload Sample.quiet_env 1 8 None true XmlOther None
          false None Cases.stored).
Proof.
  destruct (missing_layer_raises_before_lock Sample.quiet_env 8 Cases.stored)
    as (Hpost & _ & _ & Hfin).
  - reflexivity.
  - split; [exact Hpost | apply Hfin].
Defined.

(** X2: when [lock.acquire()] does not return [True], each of the four tasks
    ends normally having only taken and released the lock; the registry and
    the catalog are untouched. *)
Theorem lock_not_acquired_is_noop env instance_id w l :
  Registry.layers (World.registry w) !! instance_id = Some l ->
  (forall task, Env.lock_acquire env (World.trace w) task = false) ->
  silent_noop "geoserver_post_save_layers" w
    (geoserver_post_save_layers env instance_id w)
  /\ (forall base_file,
        silent_noop "geoserver_set_style" w
          (geoserver_set_style env instance_id base_file w))
  /\ (forall name sld_file tempdir,
        silent_noop "geoserver_create_style" w
          (geoserver_create_style env instance_id name sld_file tempdir w))
  /\ (forall import_id permissions created xml_file sld_file sld_uploaded tempdir,
        silent_noop "geoserver_finalize_upload" w
          (geoserver_finalize_upload env import_id instance_id permissions
             created xml_file sld_file sld_uploaded tempdir w)).
Proof.
  intros Hl Hlock.
  assert (Hgen : forall name (body : bool -> M unit),
    body false = ret tt \/
    body false =
      (loaded ← gets (fun w => Frame.instance (World.frame w)); ret tt) ->
    silent_noop name w
      (bind (load_layer instance_id) (fun _ => with_lock env name body) w)).
  { intros name body Hbody. unfold silent_noop.
    rewrite (bind_normal _ _ _ _ _ (load_layer_found _ _ _ Hl)).
    rewrite with_lock_run. simpl. rewrite Hlock.
    destruct Hbody as [-> | ->]; simpl; rewrite <- app_assoc; by repeat split. }
  split; [|split; [|split]]; intros; apply Hgen; auto.
Qed.

Lemma lock_not_acquired_is_noop_witness :
  silent_noop "geoserver_post_save_layers" Cases.stored
    (geoserver_post_save_layers Cases.lock_held 7 Cases.stored)
  /\ silent_noop "geoserver_create_style" Cases.stored
       (geoserver_create_style Cases.lock_held 7 "roads" None None Cases.stored).
Proof.
  destruct (lock_not_acquired_is_noop Cases.lock_held 7 Cases.stored
              (Sample.roads "roads_store"))
    as (Hpost & _ & Hcreate & _).
  - reflexivity.
  - intros task. reflexivity.
  - split; [exact Hpost | apply Hcreate].
Defined.

Ltac split_faults :=
  repeat match goal with
    | |- context [match Env.fault ?e ?t ?c with _ => _ end] =>
        destruct (Env.fault e t c) eqn:?; simpl; rewrite ?isinstance_Exception; simpl
    end.

(** X3: once the layer is loaded, [geoserver_set_style] never fails: whether
    opening the SLD file, reading it or [set_layer_style] raises, the task
    ends normally, and the calls it made stop at the first one that
    failed. *)
Theorem set_style_swallows_failures env instance_id base_file w l :
  Registry.layers (World.registry w) !! instance_id = Some l ->
  fst (geoserver_set_style env instance_id base_file w) = Normal tt
  /\ exists calls,
       World.trace (snd (geoserver_set_style env instance_id base_file w))
       = (World.trace w ++ LockAcquire "geoserver_set_style" :: calls
            ++ [LockRelease "geoserver_set_style"])%list
       /\ (calls = [] \/ calls = [OpenFile] \/ calls = [OpenFile; ReadFile]
           \/ calls = [OpenFile; ReadFile; SetLayerStyle]).
Proof.
  intros Hl. unfold geoserver_set_style.
  rewrite (bind_normal _ _ _ _ _ (load_layer_found _ _ _ Hl)).
  rewrite with_lock_run. simpl.
  destruct (Env.lock_acquire _ _ _); simpl.
  2: { split; [done|]. exists []. split; [|by left].
       by rewrite <- app_assoc. }
  unfold open_read, set_layer_style. run_monad.
  destruct base_file as [path|]; simpl; rewrite ?isinstance_Exception; simpl.
  2: { split; [done|]. exists []. split; [|by left].
       by rewrite <- app_assoc. }
  split_faults; (split; [done|]).
  - exists [OpenFile]. split; [|auto]. by rewrite <- !app_assoc.
  - exists [OpenFile; ReadFile]. split; [|auto]. by rewrite <- !app_assoc.
  - exists [OpenFile; ReadFile; SetLayerStyle]. split; [|auto 6].
    by rewrite <- !app_assoc.
  - exists [OpenFile; ReadFile; SetLayerStyle]. split; [|auto 6].
    by rewrite <- !app_assoc.
Qed.

Lemma set_style_swallows_failures_witness :
  fst (geoserver_set_style (Cases.failing Cases.is_set_layer_style) 7
         (Some "/tmp/roads.sld") Cases.stored) = Normal tt
  /\ exists calls,
       World.trace
         (snd (geoserver_set_style (Cases.failing Cases.is_set_layer_style) 7
                 (Some "/tmp/roads.sld") Cases.stored))
       = (World.trace Cases.stored ++ LockAcquire "geoserver_set_style" :: calls
            ++ [LockRelease "geoserver_set_style"])%list
       /\ (calls = [] \/ calls = [OpenFile] \/ calls = [OpenFile; ReadFile]
           \/ calls = [OpenFile; ReadFile; SetLayerStyle]).
Proof.
  apply (set_style_swallows_failures _ 7 _ Cases.stored (Sample.roads "roads_store")).
  reflexivity.
Defined.

(** X4: with no usable SLD file (none, an empty path, a missing or an
    unreadable file) [geoserver_create_style] does nothing but
    [get_sld_for]; a failure of [get_sld_for] is the failure of the task,
    and leaves the catalog as it was. *)
Theorem unusable_sld_falls_back env instance_id name sld_file tempdir w l :
  Registry.layers (World.registry w) !! instance_id = Some l ->
  Env.lock_acquire env (World.trace w) "geoserver_create_style" = true ->
  sld_usable env sld_file = false ->
  World.trace (snd (geoserver_create_style env instance_id name sld_file tempdir w))
  = (World.trace w ++ [LockAcquire "geoserver_create_style"; GetSldFor;
                       LockRelease "geoserver_create_style"])%list
  /\ match Env.fault env (World.trace w ++ [LockAcquire "geoserver_create_style"])
             GetSldFor with
     | Some e =>
         fst (geoserver_create_style env instance_id name sld_file tempdir w)
           = Raised e
         /\ World.catalog
              (snd (geoserver_create_style env instance_id name sld_file tempdir w))
            = World.catalog w
     | None =>
         fst (geoserver_create_style env instance_id name sld_file tempdir w)
           = Normal tt
         /\ World.catalog
              (snd (geoserver_create_style env instance_id name sld_file tempdir w))
            = Env.get_sld_for env l (World.catalog w)
     end.
Proof.
  intros Hl Hlock Hun. unfold geoserver_create_style.
  rewrite (bind_normal _ _ _ _ _ (load_layer_found _ _ _ Hl)).
  rewrite with_lock_run. simpl. rewrite Hlock. unfold get_sld_for. run_monad.
  unfold sld_usable in Hun.
  destruct sld_file as [path|]; simpl; [rewrite Hun; simpl|];
    destruct (Env.fault env _ GetSldFor); simpl; rewrite <- !app_assoc; by repeat split.
Qed.

Lemma unusable_sld_falls_back_witness :
  World.trace
    (snd (geoserver_create_style Sample.quiet_env 7 "roads" (Some "") None
            Cases.stored))
  = [LockAcquire "geoserver_create_style"; GetSldFor;
     LockRelease "geoserver_create_style"]
  /\ fst (geoserver_create_style Sample.quiet_env 7 "roads" (Some "") None
            Cases.stored) = Normal tt
  /\ World.catalog
       (snd (geoserver_create_style Sample.quiet_env 7 "roads" (Some "") None
               Cases.stored))
     = Sample.catalog0.
Proof.
  apply (unusable_sld_falls_back Sample.quiet_env 7 "roads" (Some "") None
           Cases.stored (Sample.roads "roads_store")); reflexivity.
Defined.

Lemma find_style_some ws name l :
  In (Style.mk ws name) l -> find_style ws name l = Some (Style.mk ws name).
Proof.
  induction l as [|s l IH]; simpl; [tauto|].
  intros [->|Hin].
  - by rewrite bool_decide_eq_true_2.
  - case_bool_decide as Hs; [by rewrite Hs|]. by apply IH.
Qed.

(** X5: when only the deletion of the former default style can fail,
    replacing the style ends normally, and afterwards the new style is the
    default style of the layer and is in the catalog, whether or not the
    deletion failed. *)
Theorem old_style_deletion_is_best_effort env name sld w instance lyr :
  Frame.instance (World.frame w) = Some instance ->
  find_style (Some (DEFAULT_WORKSPACE (Env.settings env))) name
    (Catalog.styles (World.catalog w)) = None ->
  Catalog.layers (World.catalog w) !! name = Some lyr ->
  (forall s, GsLayer.default_style lyr = Some s ->
             In s (Catalog.styles (World.catalog w))) ->
  (forall t c, c <> CatalogDelete -> Env.fault env t c = None) ->
  fst (replace_style env name sld w) = Normal tt
  /\ layer_default (World.catalog (snd (replace_style env name sld w))) name
     = Some (Style.mk (Some (DEFAULT_WORKSPACE (Env.settings env))) name)
  /\ In (Style.mk (Some (DEFAULT_WORKSPACE (Env.settings env))) name)
       (Catalog.styles (World.catalog (snd (replace_style env name sld w)))).
Proof.
  intros Hi Hfind Hl Hcons Hf.
  unfold replace_style, catalog_get_style, catalog_create_style,
    catalog_get_layer, catalog_save_layer, set_styles, catalog_delete.
  run_monad.
  rewrite !Hf by discriminate. simpl. rewrite Hfind. simpl.
  rewrite !Hf by discriminate. simpl. rewrite Hl. simpl.
  rewrite !Hf by discriminate. simpl. rewrite Hi. simpl.
  rewrite !Hf by discriminate. simpl.
  destruct (GsLayer.default_style lyr) as [old|] eqn:Hold; simpl;
    rewrite ?isinstance_Exception; simpl.
  2: { split; [done|]. split.
       - unfold layer_default. simpl. by rewrite lookup_insert_eq.
       - apply in_or_app. right. by left. }
  assert (Hne : Style.mk (Some (DEFAULT_WORKSPACE (Env.settings env))) name <> old).
  { intros <-. apply (find_style_none _ _ _ Hfind). by apply Hcons. }
  destruct (Env.fault env _ CatalogDelete); simpl;
    rewrite ?isinstance_Exception; simpl.
  - split; [done|]. split.
    + unfold layer_default. simpl. by rewrite lookup_insert_eq.
    + apply in_or_app. right. by left.
  - split; [done|]. split.
    + unfold layer_default, drop_style. simpl.
      rewrite lookup_fmap, lookup_insert_eq. simpl.
      case_decide as Heq; [|done]. inversion Heq. congruence.
    + apply list_elem_of_In, list_elem_of_filter. split; [done|].
      apply list_elem_of_In, in_or_app. right. by left.
Qed.

Lemma old_style_deletion_is_best_effort_witness :
  fst (replace_style (Cases.failing Cases.is_catalog_delete) "roads"
         "<StyledLayerDescriptor/>" Cases.loaded) = Normal tt
  /\ layer_default
       (World.catalog
          (snd (replace_style (Cases.failing Cases.is_catalog_delete) "roads"
                  "<StyledLayerDescriptor/>" Cases.loaded))) "roads"
     = Some Sample.roads_style
  /\ In Sample.roads_style
       (Catalog.styles
          (World.catalog
             (snd (replace_style (Cases.failing Cases.is_catalog_delete) "roads"
                     "<StyledLayerDescriptor/>" Cases.loaded)))).
Proof.
  apply (old_style_deletion_is_best_effort (Cases.failing Cases.is_catalog_delete)
           "roads" "<StyledLayerDescriptor/>" Cases.loaded
           (Sample.roads "roads_store") (GsLayer.mk (Some Sample.generic_style))).
  - reflexivity.
  - reflexivity.
  - reflexivity.
  - intros s [= <-]. left. reflexivity.
  - intros t c Hc. destruct c; try reflexivity. contradiction.
Defined.

Lemma replace_style_created env name sld w :
  find_style (Some (DEFAULT_WORKSPACE (Env.settings env))) name
    (Catalog.styles (World.catalog w)) = None ->
  Env.fault env (World.trace w) CatalogGetStyle = None ->
  Env.fault env (World.trace w ++ [CatalogGetStyle]) CatalogCreateStyle = None ->
  (forall s, layer_default (World.catalog w) name = Some s ->
             In s (Catalog.styles (World.catalog w))) ->
  In (Style.mk (Some (DEFAULT_WORKSPACE (Env.settings env))) name)
    (Catalog.styles (World.catalog (snd (replace_style env name sld w)))).
Proof.
  intros Hfind Hf1 Hf2 Hcons.
  unfold replace_style, catalog_get_style, catalog_create_style,
    catalog_get_layer, catalog_save_layer, set_styles, catalog_delete.
  run_monad. rewrite Hf1. simpl. rewrite Hfind. simpl. rewrite Hf2. simpl.
  assert (Hin : In (Style.mk (Some (DEFAULT_WORKSPACE (Env.settings env))) name)
            (Catalog.styles (World.catalog w) ++
             [Style.mk (Some (DEFAULT_WORKSPACE (Env.settings env))) name])).
  { apply in_or_app. right. by left. }
  destruct (Env.fault env _ CatalogGetLayer); simpl; [done|].
  destruct (Catalog.layers (World.catalog w) !! name) as [lyr|] eqn:Hl; simpl; [|done].
  destruct (Env.fault env _ CatalogSaveLayer); simpl; [done|].
  destruct (Frame.instance (World.frame w)); simpl; [|done].
  destruct (Env.fault env _ SetStyles); simpl; [done|].
  destruct (GsLayer.default_style lyr) as [old|] eqn:Hold; simpl; [|done].
  destruct (Env.fault env _ CatalogDelete); simpl;
    rewrite ?isinstance_Exception; simpl; [done|].
  apply list_elem_of_In, list_elem_of_filter. split; [|by apply list_elem_of_In].
  intros <-. apply (find_style_none _ _ _ Hfind). apply Hcons.
  unfold layer_default. by rewrite Hl.
Qed.

(** X6: once a run has created the style, a later run, whatever SLD it
    carries and whatever fails in it, only looks the style up: nothing but
    the record of that lookup changes. *)
Theorem created_style_makes_later_runs_skip env env' name sld sld' w :
  DEFAULT_WORKSPACE (Env.settings env') = DEFAULT_WORKSPACE (Env.settings env) ->
  find_style (Some (DEFAULT_WORKSPACE (Env.settings env))) name
    (Catalog.styles (World.catalog w)) = None ->
  Env.fault env (World.trace w) CatalogGetStyle = None ->
  Env.fault env (World.trace w ++ [CatalogGetStyle]) CatalogCreateStyle = None ->
  (forall s, layer_default (World.catalog w) name = Some s ->
             In s (Catalog.styles (World.catalog w))) ->
  snd (replace_style env' name sld' (snd (replace_style env name sld w)))
  = World.set_trace
      (World.trace (snd (replace_style env name sld w)) ++ [CatalogGetStyle])
      (snd (replace_style env name sld w)).
Proof.
  intros Hws Hfind Hf1 Hf2 Hcons.
  eapply replace_style_existing. rewrite Hws.
  apply find_style_some. by apply replace_style_created.
Qed.

Lemma created_style_makes_later_runs_skip_witness :
  snd (replace_style Sample.quiet_env "roads" "<sld2/>"
         (snd (replace_style Sample.quiet_env "roads" "<sld1/>" Cases.loaded)))
  = World.set_trace
      (World.trace (snd (replace_style Sample.quiet_env "roads" "<sld1/>"
                           Cases.loaded)) ++ [CatalogGetStyle])
      (snd (replace_style Sample.quiet_env "roads" "<sld1/>" Cases.loaded)).
Proof.
  apply (created_style_makes_later_runs_skip Sample.quiet_env Sample.quiet_env
           "roads" "<sld1/>" "<sld2/>" Cases.loaded).
  - reflexivity.
  - reflexivity.
  - reflexivity.
  - reflexivity.
  - intros s H. vm_compute in H. injection H as <-. left. reflexivity.
Defined.

(** X9: the catalog lookup of the finalizer asks by name, then by
    alternate, both with store and workspace, then by alternate or typename
    alone.  A later lookup is made only when the one before it raised, so
    the answer of the first lookup that does not raise is final, even when
    it is [None]; when all three raise the result is [None].  The lookup
    itself never raises. *)
Theorem first_catalog_answer_wins env w instance :
  Frame.instance (World.frame w) = Some instance ->
  fst (resolve_gs_resource env w) = Normal tt
  /\ match Env.fault env (World.trace w) (CatalogGetResource 1) with
     | None =>
         new_calls w (snd (resolve_gs_resource env w)) = [CatalogGetResource 1]
         /\ Frame.gs_resource (World.frame (snd (resolve_gs_resource env w)))
            = Env.get_resource env (Layer.name instance)
                (Some (Layer.store instance)) (Some (Layer.workspace instance))
     | Some _ =>
         match Env.fault env (World.trace w ++ [CatalogGetResource 1])
                 (CatalogGetResource 2) with
         | None =>
             new_calls w (snd (resolve_gs_resource env w))
             = [CatalogGetResource 1; CatalogGetResource 2]
             /\ Frame.gs_resource (World.frame (snd (resolve_gs_resource env w)))
                = Env.get_resource env (Layer.alternate instance)
                    (Some (Layer.store instance)) (Some (Layer.workspace instance))
         | Some _ =>
             new_calls w (snd (resolve_gs_resource env w))
             = [CatalogGetResource 1; CatalogGetResource 2; CatalogGetResource 3]
             /\ Frame.gs_resource (World.frame (snd (resolve_gs_resource env w)))
                = match Env.fault env
                          ((World.trace w ++ [CatalogGetResource 1])
                             ++ [CatalogGetResource 2])
                          (CatalogGetResource 3) with
                  | None =>
                      Env.get_resource env
                        (py_or (Layer.alternate instance) (Layer.typename instance))
                        None None
                  | Some _ => None
                  end
         end
     end.
Proof.
  intros Hi. unfold resolve_gs_resource, catalog_get_resource, set_gs_resource.
  run_monad. rewrite Hi. simpl.
  destruct (Env.fault env (World.trace w) (CatalogGetResource 1)); simpl;
    rewrite ?isinstance_Exception; simpl.
  2: { split; [done|]. unfold new_calls. simpl. by rewrite drop_app_length. }
  destruct (Env.fault env (World.trace w ++ [CatalogGetResource 1])
              (CatalogGetResource 2)); simpl;
    rewrite ?isinstance_Exception; simpl.
  2: { split; [done|]. unfold new_calls. simpl.
       by rewrite <- !app_assoc, drop_app_length. }
  destruct (Env.fault env _ (CatalogGetResource 3)); simpl;
    rewrite ?isinstance_Exception; simpl;
    (split; [done|]); unfold new_calls; simpl;
    by rewrite <- !app_assoc, drop_app_length.
Qed.

Lemma first_catalog_answer_wins_witness :
  fst (resolve_gs_resource (Cases.failing Cases.is_first_lookup) Cases.loaded)
  = Normal tt
  /\ new_calls Cases.loaded
       (snd (resolve_gs_resource (Cases.failing Cases.is_first_lookup) Cases.loaded))
     = [CatalogGetResource 1; CatalogGetResource 2]
  /\ Frame.gs_resource
       (World.frame
          (snd (resolve_gs_resource (Cases.failing Cases.is_first_lookup)
                  Cases.loaded)))
     = None.
Proof.
  apply (first_catalog_answer_wins (Cases.failing Cases.is_first_lookup)
           Cases.loaded (Sample.roads "roads_store")).
  reflexivity.
Defined.

(** X8: the session update, the sanity checks on the metadata file and the
    catalog lookup of the finalizer end normally, whatever fails in
    them. *)
Theorem early_stages_never_abort env xml_file w instance :
  Frame.instance (World.frame w) = Some instance ->
  fst ((update_upload_sessions env;;
        check_metadata env xml_file;;
        resolve_gs_resource env) w) = Normal tt.
Proof.
  intros Hi.
  unfold update_upload_sessions, sessions_update, check_metadata,
    resolve_gs_resource, catalog_get_resource, set_gs_resource, modify_instance.
  run_monad.
  destruct (normalize_xml_file xml_file) as [path|];
  repeat first
    [ progress (simpl; rewrite ?Hi, ?isinstance_Exception)
    | match goal with
      | |- context [match Env.fault ?e ?t ?c with _ => _ end] =>
          destruct (Env.fault e t c)
      | |- context [if truthy ?p && ?x && ?y then _ else _] =>
          destruct (truthy p && x && y)
      end ];
  done.
Qed.

Lemma early_stages_never_abort_witness :
  fst ((update_upload_sessions (Cases.failing Cases.any_call);;
        check_metadata (Cases.failing Cases.any_call) (XmlStr "/tmp/roads.xml");;
        resolve_gs_resource (Cases.failing Cases.any_call)) Cases.loaded)
  = Normal tt.
Proof.
  apply (early_stages_never_abort (Cases.failing Cases.any_call)
           (XmlStr "/tmp/roads.xml") Cases.loaded (Sample.roads "roads_store")).
  reflexivity.
Defined.

(** X7: with the layer present and the lock taken, a missing Upload record
    ends the finalizer with [Upload.DoesNotExist]; the lock is released and
    nothing is written. *)
Theorem missing_upload_aborts_finalizer env import_id instance_id permissions
    created xml_file sld_file sld_uploaded tempdir w l :
  Registry.layers (World.registry w) !! instance_id = Some l ->
  Env.lock_acquire env (World.trace w) "geoserver_finalize_upload" = true ->
  Registry.uploads (World.registry w) !! import_id = None ->
  fst (geoserver_finalize_upload env import_id instance_id permissions created
         xml_file sld_file sld_uploaded tempdir w) = Raised (DoesNotExist "Upload")
  /\ World.trace
       (snd (geoserver_finalize_upload env import_id instance_id permissions
               created xml_file sld_file sld_uploaded tempdir w))
     = (World.trace w ++ [LockAcquire "geoserver_finalize_upload";
                          LockRelease "geoserver_finalize_upload"])%list
  /\ untouched w
       (snd (geoserver_finalize_upload env import_id instance_id permissions
               created xml_file sld_file sld_uploaded tempdir w)).
Proof.
  intros Hl Hlock Hu. unfold geoserver_finalize_upload.
  rewrite (bind_normal _ _ _ _ _ (load_layer_found _ _ _ Hl)).
  rewrite with_lock_run. simpl. rewrite Hlock.
  unfold finalize_locked, finalize_stages, link_upload. run_monad. rewrite Hu. simpl.
  rewrite <- app_assoc. by repeat split.
Qed.

Lemma missing_upload_aborts_finalizer_witness :
  fst (geoserver_finalize_upload Sample.quiet_env 2 7 None true XmlOther None
         false None Cases.stored) = Raised (DoesNotExist "Upload")
  /\ World.trace
       (snd (geoserver_finalize_upload Sample.quiet_env 2 7 None true XmlOther
               None false None Cases.stored))
     = [LockAcquire "geoserver_finalize_upload";
        LockRelease "geoserver_finalize_upload"]
  /\ untouched Cases.stored
       (snd (geoserver_finalize_upload Sample.quiet_env 2 7 None true XmlOther
               None false None Cases.stored)).
Proof.
  apply (missing_upload_aborts_finalizer Sample.quiet_env 2 7 None true XmlOther
           None false None Cases.stored (Sample.roads "roads_store"));
    reflexivity.
Defined.

Lemma truthy_qualified ws name : truthy (ws ++ ":" ++ name) = true.
Proof. by destruct ws. Qed.

(** X10: when the resource found has a store and saving it does not fail,
    the resource is saved with the title and the abstract of the instance,
    the [storeType] of the instance becomes the resource type of the store,
    and an empty alternate becomes [workspace:name]; the alternate is not
    empty afterwards. *)
Theorem catalog_push_derives_store_fields env w instance g st :
  Frame.instance (World.frame w) = Some instance ->
  Frame.gs_resource (World.frame w) = Some g ->
  GsResource.store g = Some st ->
  Env.fault env (World.trace w) CatalogSaveResource = None ->
  exists instance',
    fst (update_gs_resource env w) = Normal tt
    /\ Frame.instance (World.frame (snd (update_gs_resource env w))) = Some instance'
    /\ Layer.storeType instance' = GsStore.resource_type st
    /\ Layer.alternate instance' =
         (if truthy (Layer.alternate instance) then Layer.alternate instance
          else GsStore.workspace_name st ++ ":" ++ GsResource.name g)
    /\ truthy (Layer.alternate instance') = true
    /\ Catalog.resources (World.catalog (snd (update_gs_resource env w)))
         !! GsResource.name g
       = Some (GsResource.set_abstract (Layer.abstract instance)
                 (GsResource.set_title (Layer.title instance) g)).
Proof.
  intros Hi Hg Hst Hf.
  unfold update_gs_resource, catalog_save_resource, modify_gs_resource,
    the_gs_resource, set_gs_resource, modify_instance.
  run_monad.
  repeat (progress (simpl; rewrite ?Hg, ?Hi, ?Hf, ?Hst)).
  destruct (truthy (Layer.alternate instance)) eqn:Ht;
    repeat (progress (simpl; rewrite ?Hg, ?Hi, ?Hf, ?Hst)).
  - eexists. split; [reflexivity|]. split; [reflexivity|]. simpl.
    rewrite lookup_insert_eq, ?Ht. by repeat split.
  - eexists. split; [reflexivity|]. split; [reflexivity|]. simpl.
    rewrite lookup_insert_eq, ?Ht. repeat split; try done. apply truthy_qualified.
Qed.

Lemma catalog_push_derives_store_fields_witness :
  exists instance',
    fst (update_gs_resource Sample.quiet_env
           (Cases.at_resource (Sample.roads "roads_store") Cases.projected))
    = Normal tt
    /\ Frame.instance
         (World.frame
            (snd (update_gs_resource Sample.quiet_env
                    (Cases.at_resource (Sample.roads "roads_store")
                       Cases.projected))))
       = Some instance'
    /\ Layer.storeType instance' = "dataStore"
    /\ Layer.alternate instance' = "geonode:roads"
    /\ truthy (Layer.alternate instance') = true
    /\ Catalog.resources
         (World.catalog
            (snd (update_gs_resource Sample.quiet_env
                    (Cases.at_resource (Sample.roads "roads_store")
                       Cases.projected))))
         !! "roads"
       = Some (GsResource.set_abstract ""
                 (GsResource.set_title "Roads" Cases.projected)).
Proof.
  apply (catalog_push_derives_store_fields Sample.quiet_env
           (Cases.at_resource (Sample.roads "roads_store") Cases.projected)
           (Sample.roads "roads_store") Cases.projected Sample.roads_store);
    reflexivity.
Defined.

(** X11: for the layer of a remote service and for a tile layer the
    reconciler only sends [geoserver_post_save_complete]: it returns [None]
    for the former and the instance for the latter, the registry and the
    catalog are untouched, and a failure of the signal is the failure of
    the task. *)
Theorem remote_and_tile_layers_are_skipped env instance_id w l :
  Registry.layers (World.registry w) !! instance_id = Some l ->
  Env.lock_acquire env (World.trace w) "geoserver_post_save_layers" = true ->
  is_remote l || String.eqb (Layer.storeType l) "tileStore" = true ->
  World.trace (snd (geoserver_post_save_layers env instance_id w))
  = (World.trace w ++ [LockAcquire "geoserver_post_save_layers";
                       SignalSend "geoserver_post_save_complete";
                       LockRelease "geoserver_post_save_layers"])%list
  /\ untouched w (snd (geoserver_post_save_layers env instance_id w))
  /\ fst (geoserver_post_save_layers env instance_id w)
     = match Env.fault env (World.trace w ++ [LockAcquire "geoserver_post_save_layers"])
               (SignalSend "geoserver_post_save_complete") with
       | Some e => Raised e
       | None => Returned (if is_remote l then RNone else RInstance l)
       end.
Proof.
  intros Hl Hlock Hskip. unfold geoserver_post_save_layers.
  rewrite (bind_normal _ _ _ _ _ (load_layer_found _ _ _ Hl)).
  rewrite with_lock_run. simpl. rewrite Hlock.
  unfold early_exits, signal_send. run_monad.
  unfold is_remote in *.
  destruct (truthy_obj (Layer.remote_service l)
            || String.eqb (Layer.storeType l) "remoteStore") eqn:Hr; simpl.
  - destruct (Env.fault env _ (SignalSend _)); simpl;
      rewrite <- !app_assoc; by repeat split.
  - simpl in Hskip. rewrite Hskip. simpl.
    destruct (Env.fault env _ (SignalSend _)); simpl;
      rewrite <- !app_assoc; by repeat split.
Qed.

Lemma remote_and_tile_layers_are_skipped_witness :
  World.trace
    (snd (geoserver_post_save_layers Sample.quiet_env 7
            (Sample.world_of Cases.tile_layer)))
  = [LockAcquire "geoserver_post_save_layers";
     SignalSend "geoserver_post_save_complete";
     LockRelease "geoserver_post_save_layers"]
  /\ untouched (Sample.world_of Cases.tile_layer)
       (snd (geoserver_post_save_layers Sample.quiet_env 7
               (Sample.world_of Cases.tile_layer)))
  /\ fst (geoserver_post_save_layers Sample.quiet_env 7
            (Sample.world_of Cases.tile_layer))
     = Returned (RInstance Cases.tile_layer).
Proof.
  apply (remote_and_tile_layers_are_skipped Sample.quiet_env 7
           (Sample.world_of Cases.tile_layer) Cases.tile_layer); reflexivity.
Defined.

(** X14: the block that sets the advertised flag, merges the keywords and
    saves the resource never raises; with [BACKEND_WRITE_ENABLED] false it
    calls no collaborator and writes nothing. *)
Theorem push_to_catalog_never_raises env w :
  fst (push_to_catalog env w) = Normal tt
  /\ (BACKEND_WRITE_ENABLED (Env.ogc_server_settings env) = Some false ->
      World.trace (snd (push_to_catalog env w)) = World.trace w
      /\ untouched w (snd (push_to_catalog env w))).
Proof.
  unfold push_to_catalog, catalog_save_resource, modify_gs_resource,
    the_gs_resource, set_gs_resource.
  run_monad.
  destruct (BACKEND_WRITE_ENABLED (Env.ogc_server_settings env)) as [[]|] eqn:Hb;
    simpl;
    destruct (RESOURCE_PUBLISHING (Env.settings env)); simpl;
    destruct (Frame.instance (World.frame w)) as [instance|] eqn:Hi; simpl;
    rewrite ?isinstance_Exception; simpl;
    destruct (Frame.gs_resource (World.frame w)) as [g|] eqn:Hg; simpl;
    rewrite ?isinstance_Exception; simpl;
    repeat first
      [ progress (simpl; rewrite ?Hi, ?Hg, ?isinstance_Exception)
      | match goal with
        | |- context [if py_bool_ne ?a ?b then _ else _] => destruct (py_bool_ne a b)
        | |- context [if existsb ?a ?b then _ else _] => destruct (existsb a b)
        | |- context [match Env.fault ?e ?t ?c with _ => _ end] =>
            destruct (Env.fault e t c)
        end ];
    (split; [done|]); intros; try discriminate; by repeat split.
Qed.

Lemma push_to_catalog_never_raises_witness :
  fst (push_to_catalog Cases.read_only
         (Cases.at_resource (Sample.roads "roads_store") Cases.projected))
  = Normal tt
  /\ World.trace
       (snd (push_to_catalog Cases.read_only
               (Cases.at_resource (Sample.roads "roads_store") Cases.projected)))
     = World.trace (Cases.at_resource (Sample.roads "roads_store") Cases.projected)
  /\ untouched (Cases.at_resource (Sample.roads "roads_store") Cases.projected)
       (snd (push_to_catalog Cases.read_only
               (Cases.at_resource (Sample.roads "roads_store") Cases.projected))).
Proof.
  destruct (push_to_catalog_never_raises Cases.read_only
              (Cases.at_resource (Sample.roads "roads_store") Cases.projected))
    as [Hnormal Hskip].
  split; [exact Hnormal | apply Hskip; reflexivity].
Defined.

(** X15: when the layer has a non-empty keyword, the keywords of the
    resource become the union of its own and those of the layer, each once;
    otherwise they are unchanged. *)
Theorem keywords_are_merged_without_duplicates env w instance g :
  Frame.instance (World.frame w) = Some instance ->
  Frame.gs_resource (World.frame w) = Some g ->
  exists g',
    Frame.gs_resource (World.frame (snd (push_to_catalog env w))) = Some g'
    /\ if existsb truthy (Layer.keyword_list instance) then
         NoDup (GsResource.keywords g')
         /\ forall k, k ∈ GsResource.keywords g' <->
                      k ∈ GsResource.keywords g \/ k ∈ Layer.keyword_list instance
       else GsResource.keywords g' = GsResource.keywords g.
Proof.
  intros Hi Hg.
  unfold push_to_catalog, catalog_save_resource, modify_gs_resource,
    the_gs_resource, set_gs_resource, list_set.
  run_monad.
  destruct (existsb truthy (Layer.keyword_list instance)) eqn:Hk;
    destruct (RESOURCE_PUBLISHING (Env.settings env)); simpl;
    repeat first
      [ progress (simpl; rewrite ?Hi, ?Hg, ?Hk, ?isinstance_Exception)
      | match goal with
        | |- context [if py_bool_ne ?a ?b then _ else _] => destruct (py_bool_ne a b)
        | |- context [if default ?a ?b then _ else _] => destruct (default a b)
        | |- context [match Env.fault ?e ?t ?c with _ => _ end] =>
            destruct (Env.fault e t c)
        end ];
    eexists; (split; [reflexivity|]); simpl; try done;
    (split; [apply NoDup_remove_dups|]);
    intros k; by rewrite elem_of_remove_dups, elem_of_app.
Qed.

Lemma keywords_are_merged_without_duplicates_witness :
  exists g',
    Frame.gs_resource
      (World.frame
         (snd (push_to_catalog Sample.quiet_env
                 (Cases.at_resource Cases.tagged_layer Cases.tagged_resource))))
    = Some g'
    /\ NoDup (GsResource.keywords g')
    /\ forall k, k ∈ GsResource.keywords g' <->
                 k ∈ ["roads"; "osm"] \/ k ∈ ["transport"; "roads"].
Proof.
  apply (keywords_are_merged_without_duplicates Sample.quiet_env
           (Cases.at_resource Cases.tagged_layer Cases.tagged_resource)
           Cases.tagged_layer Cases.tagged_resource); reflexivity.
Defined.

Lemma bbox_to_extent_short (b : list string) :
  (length b < 4)%nat -> exists e, bbox_to_extent (Some b) = Error e.
Proof.
  intros H. unfold bbox_to_extent.
  destruct b as [|x0 [|x1 [|x2 [|x3 b]]]]; simpl in *; eauto; lia.
Qed.

(** X16: reading the projection and the bounding box from the resource
    never raises.  Without a native bounding box, or with one of fewer than
    four entries, the SRID and the bbox of the layer are used and nothing
    changes; with four entries or more and [set_bbox_polygon] not failing,
    those of the resource are used and the polygon is set from the entries
    0, 2, 1, 3. *)
Theorem read_projection_falls_back env w instance :
  Frame.instance (World.frame w) = Some instance ->
  (exists r, fst (read_projection env w) = Normal r)
  /\ (forall g,
        Frame.gs_resource (World.frame w) = Some g ->
        (GsResource.native_bbox g = None \/
         exists b, GsResource.native_bbox g = Some b /\ (length b < 4)%nat) ->
        read_projection env w
        = (Normal (Layer.srid instance, Some (Layer.bbox instance)), w))
  /\ (forall g x0 x1 x2 x3 rest,
        Frame.gs_resource (World.frame w) = Some g ->
        GsResource.native_bbox g = Some (x0 :: x1 :: x2 :: x3 :: rest) ->
        Env.fault env (World.trace w) SetBboxPolygon = None ->
        fst (read_projection env w)
        = Normal (GsResource.projection g, GsResource.native_bbox g)
        /\ Frame.instance (World.frame (snd (read_projection env w)))
           = Some (Env.set_bbox_polygon env instance [x0; x2; x1; x3]
                     (GsResource.projection g))).
Proof.
  intros Hi. split; [|split].
  - unfold read_projection, set_bbox_polygon, the_gs_resource. run_monad.
    destruct (Frame.gs_resource (World.frame w)) as [g|]; simpl;
      rewrite ?isinstance_Exception; simpl; rewrite ?Hi; simpl; eauto.
    destruct (bbox_to_extent (GsResource.native_bbox g)) as [extent|e]; simpl;
      rewrite ?isinstance_Exception; simpl; rewrite ?Hi; simpl; eauto.
    destruct (Env.fault env _ SetBboxPolygon); simpl;
      rewrite ?isinstance_Exception; simpl; rewrite ?Hi; simpl; eauto.
  - intros g Hg Hbox.
    assert (exists e, bbox_to_extent (GsResource.native_bbox g) = Error e) as [e He].
    { destruct Hbox as [->|(b & -> & Hlen)]; [by eexists|].
      by apply bbox_to_extent_short. }
    unfold read_projection, set_bbox_polygon, the_gs_resource. run_monad.
    rewrite Hg. simpl. rewrite He. simpl. rewrite isinstance_Exception. simpl.
    by rewrite Hi.
  - intros g x0 x1 x2 x3 rest Hg Hbox Hf.
    unfold read_projection, set_bbox_polygon, the_gs_resource. run_monad.
    rewrite Hg. simpl. rewrite Hbox. simpl. rewrite Hi. simpl. by rewrite Hf.
Qed.

Lemma read_projection_falls_back_witness :
  read_projection Sample.quiet_env
    (Cases.at_resource (Sample.roads "roads_store") Sample.bare_resource)
  = (Normal (None, Some []),
     Cases.at_resource (Sample.roads "roads_store") Sample.bare_resource)
  /\ fst (read_projection Sample.quiet_env
            (Cases.at_resource (Sample.roads "roads_store") Cases.projected))
     = Normal (Some "EPSG:3857", Some ["0"; "10"; "0"; "20"; "EPSG:3857"]).
Proof.
  split.
  - apply (proj1 (proj2 (read_projection_falls_back Sample.quiet_env
                           (Cases.at_resource (Sample.roads "roads_store")
                              Sample.bare_resource)
                           (Sample.roads "roads_store") eq_refl))
             Sample.bare_resource eq_refl).
    left. reflexivity.
  - apply (proj2 (proj2 (read_projection_falls_back Sample.quiet_env
                           (Cases.at_resource (Sample.roads "roads_store")
                              Cases.projected)
                           (Sample.roads "roads_store") eq_refl))
             Cases.projected "0" "10" "0" "20" ["EPSG:3857"] eq_refl eq_refl eq_refl).
Defined.

(** X21: whatever fails among the catalogue refresh, the default links,
    the attributes, the styles and the tile cache invalidation,
    [geoserver_post_save_complete] is sent, once and last; only a failure
    of the signal itself makes this part raise. *)
Theorem enrichment_failures_never_stop_the_signal env w :
  exists calls,
    World.trace (snd (refresh_derived env w))
    = (World.trace w ++ calls ++ [SignalSend "geoserver_post_save_complete"])%list
    /\ ~ In (SignalSend "geoserver_post_save_complete") calls
    /\ fst (refresh_derived env w)
       = match Env.fault env (World.trace w ++ calls)
                 (SignalSend "geoserver_post_save_complete") with
         | Some e => Raised e
         | None => Normal tt
         end.
Proof.
  unfold refresh_derived, signal_send, set_styles. run_monad.
  repeat first
    [ progress (simpl; rewrite ?isinstance_Exception)
    | match goal with
      | |- context [match Frame.instance ?f with _ => _ end] =>
          destruct (Frame.instance f)
      | |- context [match Env.fault ?e ?t ?c with _ => _ end] =>
          lazymatch c with
          | SignalSend _ => fail
          | _ => destruct (Env.fault e t c)
          end
      end ].
  all: rewrite <- ?app_assoc; simpl.
  all: match goal with
       | |- context [Env.fault _ (World.trace _ ++ ?calls)%list (SignalSend _)] =>
           exists calls
       end.
  all: destruct (Env.fault _ _ (SignalSend _)) eqn:Hs; simpl;
       rewrite <- ?app_assoc; simpl.
  all: split; [reflexivity|].
  all: split; [|done].
  all: intros Hin; simpl in Hin; intuition discriminate.
Qed.

(** X13: with a resource found and the profile lookup not failing,
    [alternate], [store] and [storeType] of the instance are replaced by the
    values from the catalog; when there are no values, [TypeError] is raised
    and the instance is unchanged.  In both cases the resource has received
    the metadata links. *)
Theorem catalog_values_overwrite_instance env values metadata_links w instance g :
  Frame.instance (World.frame w) = Some instance ->
  Frame.gs_resource (World.frame w) = Some g ->
  (forall t, Env.fault env t ProfileGet = None) ->
  match values with
  | Some v =>
      fst (sync_catalog_fields env values metadata_links w) = Normal tt
      /\ Frame.instance
           (World.frame (snd (sync_catalog_fields env values metadata_links w)))
         = Some (Layer.set_storeType (Values.storeType v)
                   (Layer.set_store (Values.store v)
                      (Layer.set_alternate (Values.alternate v) instance)))
  | None =>
      fst (sync_catalog_fields env values metadata_links w) = Raised TypeError
      /\ Frame.instance
           (World.frame (snd (sync_catalog_fields env values metadata_links w)))
         = Some instance
  end
  /\ GsResource.metadata_links <$>
       Frame.gs_resource
         (World.frame (snd (sync_catalog_fields env values metadata_links w)))
     = Some metadata_links.
Proof.
  intros Hi Hg Hf.
  unfold sync_catalog_fields, modify_gs_resource, the_gs_resource,
    set_gs_resource, modify_instance.
  run_monad. rewrite Hg. simpl. rewrite Hi. simpl.
  destruct (Layer.poc instance) as [poc|]; simpl;
    repeat (progress (simpl; rewrite ?Hi, ?Hg, ?Hf));
    destruct values as [v|]; simpl;
    repeat (progress (simpl; rewrite ?Hi, ?Hg, ?Hf)); by repeat split.
Qed.

Lemma catalog_values_overwrite_instance_witness :
  (fst (sync_catalog_fields Sample.quiet_env (Some Sample.roads_values) []
          (Cases.at_resource (Sample.roads "") Cases.projected)) = Normal tt
   /\ Frame.instance
        (World.frame
           (snd (sync_catalog_fields Sample.quiet_env (Some Sample.roads_values) []
                   (Cases.at_resource (Sample.roads "") Cases.projected))))
      = Some (Sample.roads "roads_store"))
  /\ GsResource.metadata_links <$>
       Frame.gs_resource
         (World.frame
            (snd (sync_catalog_fields Sample.quiet_env (Some Sample.roads_values) []
                    (Cases.at_resource (Sample.roads "") Cases.projected))))
     = Some [].
Proof.
  apply (catalog_values_overwrite_instance Sample.quiet_env
           (Some Sample.roads_values) []
           (Cases.at_resource (Sample.roads "") Cases.projected)
           (Sample.roads "") Cases.projected).
  - reflexivity.
  - reflexivity.
  - intros t. reflexivity.
Defined.

Lemma path_char_lower c : path_char (lower_char (colon_to_slash c)) = true.
Proof.
  destruct c as [[] [] [] [] [] [] [] []]; reflexivity.
Qed.

Lemma srid_path_shape s : str_all path_char (srid_path s) = true.
Proof.
  unfold srid_path. induction s as [|c s IH]; [done|].
  cbn [str_map str_all]. by rewrite IH, path_char_lower.
Qed.

(** X17: for a layer with a non-empty SRID, the SRID URL becomes the
    spatialreference.org reference of the SRID with colons replaced by
    slashes and in lower case, and nothing else changes; the path has no
    colon and no capital letter A to Z. *)
Theorem known_srid_gives_reference_url w instance s :
  Frame.instance (World.frame w) = Some instance ->
  Layer.srid instance = Some s ->
  truthy s = true ->
  resolve_srid w
  = (Normal tt,
     World.set_frame
       (Frame.set_instance
          (Some (Layer.set_srid_url
                   ("http://www.spatialreference.org/ref/" ++ srid_path s ++ "/")
                   instance))
          (World.frame w)) w)
  /\ str_all path_char (srid_path s) = true.
Proof.
  intros Hi Hs Ht. split; [|apply srid_path_shape].
  unfold resolve_srid, modify_instance. run_monad.
  rewrite Hi. simpl. rewrite Hs. simpl. rewrite Ht. simpl. by rewrite Hi.
Qed.

Lemma known_srid_gives_reference_url_witness :
  resolve_srid (Sample.world_at (Sample.roads_boxed (Some "EPSG:4326")))
  = (Normal tt,
     World.set_frame
       (Frame.set_instance
          (Some (Layer.set_srid_url
                   "http://www.spatialreference.org/ref/epsg/4326/"
                   (Sample.roads_boxed (Some "EPSG:4326"))))
          (World.frame (Sample.world_at (Sample.roads_boxed (Some "EPSG:4326")))))
       (Sample.world_at (Sample.roads_boxed (Some "EPSG:4326"))))
  /\ str_all path_char (srid_path "EPSG:4326") = true.
Proof.
  apply (known_srid_gives_reference_url
           (Sample.world_at (Sample.roads_boxed (Some "EPSG:4326")))
           (Sample.roads_boxed (Some "EPSG:4326")) "EPSG:4326"); reflexivity.
Defined.

(** X22: the closing block ends normally and clears the dirty flag on the
    instance and on its row, whether or not marking the upload sessions
    processed failed; the sessions of the layer are marked processed
    exactly when that update did not fail. *)
Theorem sessions_closed_and_flag_cleared env w instance :
  Frame.instance (World.frame w) = Some instance ->
  fst (finish_sessions env w) = Normal tt
  /\ Frame.instance (World.frame (snd (finish_sessions env w)))
     = Some (Layer.set_dirty_state false instance)
  /\ Registry.layers (World.registry (snd (finish_sessions env w)))
     = alter (Layer.set_dirty_state false) (Layer.id instance)
         (Registry.layers (World.registry w))
  /\ Registry.sessions (World.registry (snd (finish_sessions env w)))
     = match Env.fault env (World.trace w) (SessionsUpdate true) with
       | Some _ => Registry.sessions (World.registry w)
       | None => mark_sessions (Layer.id instance) true
                   (Registry.sessions (World.registry w))
       end.
Proof.
  intros Hi.
  unfold finish_sessions, sessions_update, clear_dirty_state, try_finally.
  run_monad. rewrite Hi. simpl.
  destruct (Env.fault env _ (SessionsUpdate true)); simpl;
    rewrite ?isinstance_Exception; simpl; rewrite Hi; simpl; by repeat split.
Qed.

Lemma sessions_closed_and_flag_cleared_witness :
  fst (finish_sessions Sample.quiet_env Cases.loaded) = Normal tt
  /\ Frame.instance (World.frame (snd (finish_sessions Sample.quiet_env Cases.loaded)))
     = Some (Layer.set_dirty_state false (Sample.roads "roads_store"))
  /\ Registry.layers
       (World.registry (snd (finish_sessions Sample.quiet_env Cases.loaded)))
     = alter (Layer.set_dirty_state false) 7%nat
         (Registry.layers (World.registry Cases.loaded))
  /\ Registry.sessions
       (World.registry (snd (finish_sessions Sample.quiet_env Cases.loaded)))
     = mark_sessions 7 true (Registry.sessions (World.registry Cases.loaded)).
Proof.
  apply (sessions_closed_and_flag_cleared Sample.quiet_env Cases.loaded
           (Sample.roads "roads_store")).
  reflexivity.
Defined.

(** X18: when [set_bbox_polygon] keeps the primary key and the thumbnail
    check does not fail, the first atomic update ends normally and is all
    or nothing: uploads, sessions and the other layers are untouched, and
    the row of the layer is either as before, or carries title, abstract,
    alternate, workspace, store, storeType, typename and SRID together. *)
Theorem write_back_is_all_or_nothing env srid bbox w instance row :
  Frame.instance (World.frame w) = Some instance ->
  Registry.layers (World.registry w) !! Layer.id instance = Some row ->
  (forall l extent s, Layer.id (Env.set_bbox_polygon env l extent s) = Layer.id l) ->
  Env.fault env (World.trace w) IsMonochromaticImage = None ->
  fst (write_back env srid bbox w) = Normal tt
  /\ Registry.uploads (World.registry (snd (write_back env srid bbox w)))
     = Registry.uploads (World.registry w)
  /\ Registry.sessions (World.registry (snd (write_back env srid bbox w)))
     = Registry.sessions (World.registry w)
  /\ (forall j, j <> Layer.id instance ->
        Registry.layers (World.registry (snd (write_back env srid bbox w))) !! j
        = Registry.layers (World.registry w) !! j)
  /\ exists row',
       Registry.layers (World.registry (snd (write_back env srid bbox w)))
         !! Layer.id instance = Some row'
       /\ (row' = row
           \/ exists g st,
                Frame.gs_resource (World.frame w) = Some g
                /\ GsResource.store g = Some st
                /\ written_back instance st srid row').
Proof.
  intros Hi Hrow Hid Hf.
  unfold write_back, resourcebase_update, layer_update, set_bbox_polygon,
    refresh_from_db, the_gs_resource.
  run_monad. rewrite Hi. simpl. rewrite Hf. simpl.
  destruct (Env.fault env _ ResourceBaseUpdate) eqn:Hf1; simpl;
    rewrite ?isinstance_Exception; simpl.
  { repeat split; try done. eauto. }
  destruct (Frame.gs_resource (World.frame w)) as [g|] eqn:Hg; simpl;
    rewrite ?isinstance_Exception; simpl.
  2: { repeat split; try done. eauto. }
  destruct (GsResource.store g) as [st|] eqn:Hst; simpl;
    rewrite ?isinstance_Exception; simpl.
  2: { repeat split; try done. eauto. }
  destruct (Env.fault env _ (LayerUpdate 1)) eqn:Hf2; simpl;
    rewrite ?isinstance_Exception; simpl.
  { repeat split; try done. eauto. }
  destruct (bbox_to_extent bbox) as [extent|e] eqn:Hext; simpl;
    rewrite ?isinstance_Exception; simpl.
  2: { repeat split; try done. eauto. }
  rewrite Hi. simpl.
  destruct (Env.fault env _ SetBboxPolygon) eqn:Hf3; simpl;
    rewrite ?isinstance_Exception; simpl.
  { repeat split; try done. eauto. }
  destruct (Env.fault env _ (LayerUpdate 2)) eqn:Hf4; simpl;
    rewrite ?isinstance_Exception; simpl.
  { repeat split; try done. eauto. }
  destruct (Env.fault env _ RefreshFromDb) eqn:Hf5; simpl;
    rewrite ?isinstance_Exception; simpl.
  { repeat split; try done. eauto. }
  rewrite !Hid. rewrite !lookup_alter_eq, Hrow. simpl.
  split; [done|]. split; [done|]. split; [done|]. split.
  { intros j Hj. by rewrite !lookup_alter_ne. }
  rewrite !lookup_alter_eq, Hrow. simpl.
  eexists. split; [reflexivity|]. right. exists g, st.
  split; [done|]. split; [done|].
  unfold written_back.
  destruct (Env.is_monochromatic_image env (Layer.thumbnail_url instance));
    by repeat split.
Qed.

Lemma write_back_is_all_or_nothing_witness :
  fst (write_back Sample.quiet_env (Some "EPSG:3857")
         (Some ["0"; "10"; "0"; "20"; "EPSG:3857"])
         (Cases.at_resource (Sample.roads "") Cases.projected)) = Normal tt
  /\ exists row',
       Sample.row
         (snd (write_back Sample.quiet_env (Some "EPSG:3857")
                 (Some ["0"; "10"; "0"; "20"; "EPSG:3857"])
                 (Cases.at_resource (Sample.roads "") Cases.projected)))
       = Some row'
       /\ (row' = Sample.roads ""
           \/ exists g st,
                Some Cases.projected = Some g
                /\ GsResource.store g = Some st
                /\ written_back (Sample.roads "") st (Some "EPSG:3857") row').
Proof.
  destruct (write_back_is_all_or_nothing Sample.quiet_env (Some "EPSG:3857")
              (Some ["0"; "10"; "0"; "20"; "EPSG:3857"])
              (Cases.at_resource (Sample.roads "") Cases.projected)
              (Sample.roads "") (Sample.roads ""))
    as (Hnormal & _ & _ & _ & Hrow).
  - reflexivity.
  - reflexivity.
  - intros l extent s. reflexivity.
  - reflexivity.
  - split; [exact Hnormal | exact Hrow].
Defined.

Lemma fetch_loop_exhausts env instance _max_tries : forall n fuel _tries values w,
  Frame.instance (World.frame w) = Some instance ->
  Frame.gs_resource (World.frame w) = None ->
  (forall t k, Env.fault env t (FetchGsResource k) = None) ->
  (forall a v k, snd (Env.fetch_gs_resource env a instance v k) = None) ->
  (_tries + n = _max_tries)%nat ->
  (n <= fuel)%nat ->
  exists values' w',
    fetch_loop env fuel _max_tries values _tries w = (Normal values', w')
    /\ Frame.gs_resource (World.frame w') = None
    /\ Frame.instance (World.frame w') = Some instance
    /\ World.registry w' = World.registry w
    /\ World.catalog w' = World.catalog w
    /\ World.trace w' = (World.trace w ++ map FetchGsResource (seq _tries n))%list.
Proof.
  induction n as [|n IH]; intros fuel _tries values w Hi Hg Hf Hnone Hn Hfuel.
  - rewrite fetch_loop_eq. unfold bind, gets. rewrite Hg. simpl.
    assert (Ht : (_tries <? _max_tries)%nat = false) by (apply Nat.ltb_ge; lia).
    rewrite Ht. simpl. eexists _, _. split; [reflexivity|].
    simpl. by rewrite app_nil_r.
  - destruct fuel as [|fuel]; [lia|].
    rewrite fetch_loop_eq. unfold bind at 1, gets. rewrite Hg. simpl.
    assert (Ht : (_tries <? _max_tries)%nat = true) by (apply Nat.ltb_lt; lia).
    rewrite Ht.
    destruct (fetch_gs_resource_run env values _tries w instance Hi (Hf _ _))
      as (w1 & Hrun & Hgs & Hi1 & Htr).
    rewrite (bind_normal _ _ _ _ _ Hrun).
    assert (Hreg : World.registry w1 = World.registry w
                   /\ World.catalog w1 = World.catalog w).
    { revert Hrun. unfold fetch_gs_resource, bind, the_instance, gets, invoke.
      rewrite Hi. simpl. rewrite (Hf _ _).
      destruct (Env.fetch_gs_resource _ _ _ _ _) as [v g]. simpl.
      intros [= <-]. done. }
    destruct Hreg as [Hr Hc].
    destruct (IH fuel (S _tries)
                (fst (Env.fetch_gs_resource env (fetches w) instance values _tries)) w1)
      as (v' & w' & Hloop & Hg' & Hi' & Hr' & Hc' & Htr'); try done; try lia.
    + by rewrite Hgs, Hnone.
    + exists v', w'. split; [exact Hloop|].
      split; [done|]. split; [done|].
      split; [congruence|]. split; [congruence|].
      rewrite Htr', Htr. simpl. by rewrite <- app_assoc.
Qed.

(** X12: when the catalog never returns the resource, the lookup is made
    exactly [MAX_RETRIES + 1] times, the first two with the same attempt
    number 0; the fetch ends normally without a resource, and the registry
    and the catalog are unchanged. *)
Theorem silent_catalog_is_asked_max_tries_plus_one env values w instance :
  Frame.instance (World.frame w) = Some instance ->
  (forall t k, Env.fault env t (FetchGsResource k) = None) ->
  (forall a v k, snd (Env.fetch_gs_resource env a instance v k) = None) ->
  exists values',
    fst (bounded_retry_fetch env values w) = Normal values'
    /\ Frame.gs_resource (World.frame (snd (bounded_retry_fetch env values w))) = None
    /\ new_calls w (snd (bounded_retry_fetch env values w))
       = FetchGsResource 0 :: map FetchGsResource (seq 0 (max_tries env))
    /\ fetches (snd (bounded_retry_fetch env values w))
       = (fetches w + max_tries env + 1)%nat
    /\ World.registry (snd (bounded_retry_fetch env values w)) = World.registry w
    /\ World.catalog (snd (bounded_retry_fetch env values w)) = World.catalog w.
Proof.
  intros Hi Hf Hnone. unfold bounded_retry_fetch.
  destruct (fetch_gs_resource_run env values 0 w instance Hi (Hf _ _))
    as (w1 & Hrun & Hgs & Hi1 & Htr).
  rewrite (bind_normal _ _ _ _ _ Hrun).
  assert (Hreg : World.registry w1 = World.registry w
                 /\ World.catalog w1 = World.catalog w).
  { revert Hrun. unfold fetch_gs_resource, bind, the_instance, gets, invoke.
    rewrite Hi. simpl. rewrite (Hf _ _).
    destruct (Env.fetch_gs_resource _ _ _ _ _) as [v g]. simpl.
    intros [= <-]. done. }
  destruct Hreg as [Hr Hc].
  destruct (fetch_loop_exhausts env instance (max_tries env) (max_tries env)
              (max_tries env) 0
              (fst (Env.fetch_gs_resource env (fetches w) instance values 0)) w1)
    as (v' & w' & Hloop & Hg' & Hi' & Hr' & Hc' & Htr'); try done.
  { by rewrite Hgs, Hnone. }
  rewrite Hloop. simpl. exists v'. split; [done|]. split; [done|].
  split.
  { unfold new_calls. rewrite Htr', Htr, <- app_assoc. by rewrite drop_app_length. }
  split.
  { unfold fetches. rewrite Htr', Htr, <- app_assoc.
    generalize (World.trace w). intros t.
    assert (Hm : forall t l, fetch_attempts (t ++ l)
                             = (fetch_attempts t + fetch_attempts l)%nat).
    { clear. induction t as [|c t IH]; intros l; simpl; [done|].
      destruct c; simpl; rewrite ?IH; done. }
    rewrite Hm. simpl.
    assert (Hs : forall n s, fetch_attempts (map FetchGsResource (seq s n)) = n).
    { clear. induction n as [|n IH]; intros s; simpl; [done|]. by rewrite IH. }
    rewrite Hs. lia. }
  split; congruence.
Qed.

Lemma silent_catalog_is_asked_max_tries_plus_one_witness :
  exists values',
    fst (bounded_retry_fetch Sample.quiet_env None Cases.loaded) = Normal values'
    /\ Frame.gs_resource
         (World.frame (snd (bounded_retry_fetch Sample.quiet_env None Cases.loaded)))
       = None
    /\ new_calls Cases.loaded
         (snd (bounded_retry_fetch Sample.quiet_env None Cases.loaded))
       = [FetchGsResource 0; FetchGsResource 0; FetchGsResource 1]
    /\ fetches (snd (bounded_retry_fetch Sample.quiet_env None Cases.loaded))
       = 3%nat
    /\ World.registry (snd (bounded_retry_fetch Sample.quiet_env None Cases.loaded))
       = World.registry Cases.loaded
    /\ World.catalog (snd (bounded_retry_fetch Sample.quiet_env None Cases.loaded))
       = World.catalog Cases.loaded.
Proof.
  apply (silent_catalog_is_asked_max_tries_plus_one Sample.quiet_env None
           Cases.loaded (Sample.roads "roads_store")).
  - reflexivity.
  - intros t k. reflexivity.
  - intros a v k. reflexivity.
Defined.

Lemma is_digit_value c :
  Srid.is_digit c = true -> (0 <= Z.of_nat (nat_of_ascii c) - 48 <= 9)%Z.
Proof.
  unfold Srid.is_digit. intros H. apply andb_true_iff in H as [H1 H2].
  apply Nat.leb_le in H1, H2. lia.
Qed.

Lemma int_acc_bound d : forall acc z,
  (0 <= acc)%Z -> Srid.int_acc acc d = Some z ->
  (acc * 10 ^ Z.of_nat (String.length d) <= z
   < (acc + 1) * 10 ^ Z.of_nat (String.length d))%Z.
Proof.
  induction d as [|c d IH]; intros acc z Hacc H; simpl in H.
  - inversion H; subst. simpl. lia.
  - destruct (Srid.is_digit c) eqn:Hc; [|discriminate].
    apply is_digit_value in Hc.
    apply IH in H; [|lia].
    cbn [String.length]. rewrite Nat2Z.inj_succ, Z.pow_succ_r by lia.
    nia.
Qed.

Lemma digits_4_6_length s d :
  Srid.digits_4_6 s = Some d -> (4 <= String.length d <= 6)%nat.
Proof.
  unfold Srid.digits_4_6. destruct (Srid.span_digits s) as [d' rest].
  destruct (_ && _) eqn:Hc; [|discriminate].
  intros H; inversion H; subst.
  apply andb_true_iff in Hc as [Hc _]. apply andb_true_iff in Hc as [H1 H2].
  apply Nat.leb_le in H1, H2. lia.
Qed.

Lemma re_match_length s d :
  Srid.re_match s = Some d -> (4 <= String.length d <= 6)%nat.
Proof.
  unfold Srid.re_match.
  destruct (Srid.strip_prefix "EPSG:" s) as [s'|].
  - destruct (Srid.digits_4_6 s') as [d'|] eqn:H1.
    + intros H; inversion H; subst. by eapply digits_4_6_length.
    + apply digits_4_6_length.
  - apply digits_4_6_length.
Qed.

(** X19: the integer SRID given to the polygon is defined for every SRID
    value, and lies between 0 and 999999. *)
Theorem srid_code_in_range (srid : option string) :
  exists code, Srid.srid_code srid = Ok code /\ (0 <= code <= 999999)%Z.
Proof.
  unfold Srid.srid_code. destruct (Srid.re_match _) as [d|] eqn:H.
  - pose proof (re_match_length _ _ H) as Hlen.
    apply re_match_some in H as [Hd Hne].
    destruct (int_acc_all_digits d 0%Z Hd) as [z Hz].
    pose proof (int_acc_bound d 0 z ltac:(lia) Hz) as Hb.
    exists z. unfold Srid.py_int. destruct d; [congruence|]. rewrite Hz.
    split; [done|].
    assert (10 ^ Z.of_nat (String.length (String a d)) <= 10 ^ 6)%Z.
    { apply Z.pow_le_mono_r; lia. }
    lia.
  - exists 4326%Z. split; [done|lia].
Qed.

Lemma span_digits_all d :
  all_digits d = true -> Srid.span_digits d = (d, EmptyString).
Proof.
  induction d as [|c d IH]; cbn [all_digits Srid.span_digits]; [done|].
  intros H. apply andb_true_iff in H as [Hc Hd]. by rewrite Hc, (IH Hd).
Qed.

Lemma strip_prefix_digits d :
  all_digits d = true -> Srid.strip_prefix "EPSG:" d = None.
Proof.
  destruct d as [|c d]; [done|]. cbn -[Ascii.eqb].
  intros H. apply andb_true_iff in H as [Hc _].
  destruct (Ascii.eqb "E"%char c) eqn:E; [|done].
  apply Ascii.eqb_eq in E. subst. discriminate.
Qed.

Lemma strip_prefix_app p s : Srid.strip_prefix p (p ++ s) = Some s.
Proof.
  induction p as [|c p IH]; [by destruct s|].
  change (String c p ++ s) with (String c (p ++ s)).
  cbn [Srid.strip_prefix]. by rewrite Ascii.eqb_refl.
Qed.

Lemma digits_4_6_of_digits d :
  all_digits d = true ->
  Srid.digits_4_6 d =
    if (4 <=? String.length d)%nat && (String.length d <=? 6)%nat then Some d else None.
Proof.
  intros H. unfold Srid.digits_4_6. rewrite (span_digits_all d H). simpl.
  by rewrite andb_true_r.
Qed.

(** X20: for a string [d] of digits: with 4 to 6 digits, [d] and [EPSG:d]
    both match with the group [d] and give the same code; with fewer than 4
    or more than 6 digits both give 4326. *)
Theorem srid_pattern_on_digit_strings (d : string) :
  all_digits d = true ->
  ((4 <= String.length d <= 6)%nat ->
     Srid.re_match d = Some d
     /\ Srid.re_match ("EPSG:" ++ d) = Some d
     /\ Srid.srid_code (Some ("EPSG:" ++ d)) = Srid.srid_code (Some d))
  /\ ((String.length d < 4 \/ 6 < String.length d)%nat ->
      Srid.srid_code (Some d) = Ok 4326%Z
      /\ Srid.srid_code (Some ("EPSG:" ++ d)) = Ok 4326%Z).
Proof.
  intros Hd. split.
  - intros Hlen.
    assert (H1 : Srid.re_match d = Some d).
    { unfold Srid.re_match. rewrite (strip_prefix_digits d Hd).
      rewrite (digits_4_6_of_digits d Hd).
      destruct (Nat.leb_spec 4 (String.length d)); [|lia].
      destruct (Nat.leb_spec (String.length d) 6); [|lia]. done. }
    assert (H2 : Srid.re_match ("EPSG:" ++ d) = Some d).
    { unfold Srid.re_match. rewrite (strip_prefix_app "EPSG:" d).
      rewrite (digits_4_6_of_digits d Hd).
      destruct (Nat.leb_spec 4 (String.length d)); [|lia].
      destruct (Nat.leb_spec (String.length d) 6); [|lia]. done. }
    split; [done|]. split; [done|].
    unfold Srid.srid_code, Srid.py_str. by rewrite H1, H2.
  - intros Hlen.
    assert (Hn : Srid.digits_4_6 d = None).
    { rewrite (digits_4_6_of_digits d Hd).
      destruct (Nat.leb_spec 4 (String.length d));
        destruct (Nat.leb_spec (String.length d) 6); simpl; try done; lia. }
    split.
    + unfold Srid.srid_code, Srid.py_str, Srid.re_match.
      by rewrite (strip_prefix_digits d Hd), Hn.
    + unfold Srid.srid_code, Srid.py_str, Srid.re_match.
      rewrite (strip_prefix_app "EPSG:" d), Hn. simpl.
      unfold Srid.digits_4_6. simpl. done.
Qed.

Lemma srid_pattern_on_digit_strings_witness :
  (Srid.re_match "4326" = Some "4326"
   /\ Srid.re_match "EPSG:4326" = Some "4326"
   /\ Srid.srid_code (Some "EPSG:4326") = Srid.srid_code (Some "4326"))
  /\ (Srid.srid_code (Some "123") = Ok 4326%Z
      /\ Srid.srid_code (Some "EPSG:123") = Ok 4326%Z).
Proof.
  split.
  - apply (proj1 (srid_pattern_on_digit_strings "4326" eq_refl)). simpl. lia.
  - apply (proj2 (srid_pattern_on_digit_strings "123" eq_refl)). simpl. lia.
Defined.
